(** * atorch op builder: a shallow embedding of [atorch/ops/op_builder/builder.py]

    The module assembles compiler and linker flag lists for native
    extensions.  Its functions read probes of the machine (the CUDA toolkit,
    the CPU, the visible devices), read and write the process environment,
    print, and raise.  The embedding keeps that shape:

    - the probes the code cannot change are the fields of a record [env];
    - what the code mutates (os.environ, the descriptor table, the temporary
      directories, the builder object, the output) is a record [state];
    - a method is a function [state -> result A * state]: a Python exception
      leaves the state as it was when it was raised. *)

From Stdlib Require Import Ascii String Sorted.
From stdpp Require Import gmap strings list pretty.

Open Scope string_scope.
Open Scope list_scope.

(** ** Python strings *)

(** A Python string is modelled by the string of its code points, each
    below 256. *)
Module Py.

(** [s.split(sep)] for a one-character separator, as every call site of the
    module has it. *)
Fixpoint split (sep : ascii) (s : string) : list string :=
  match s with
  | EmptyString => [""]
  | String c s' =>
      if Ascii.eqb c sep then "" :: split sep s'
      else match split sep s' with
           | [] => [String c ""]
           | w :: ws => String c w :: ws
           end
  end.

(** [sep.join(l)] *)
Fixpoint join (sep : string) (l : list string) : string :=
  match l with
  | [] => ""
  | [w] => w
  | w :: ws => w +:+ sep +:+ join sep ws
  end.

(** [s.replace(a, b)] for one-character [a] and [b]. *)
Fixpoint replace (a b : ascii) (s : string) : string :=
  match s with
  | EmptyString => ""
  | String c s' => String (if Ascii.eqb c a then b else c) (replace a b s')
  end.

(** [s.startswith(p)] *)
Definition startswith (s p : string) : bool := String.prefix p s.

(** [sub in s] on strings: [sub] occurs in [s] at some offset. *)
Fixpoint contains (s sub : string) : bool :=
  String.prefix sub s ||
  match s with
  | EmptyString => false
  | String _ s' => contains s' sub
  end.

(** [s.endswith(p)] *)
Definition endswith (s p : string) : bool :=
  String.prefix (String.rev p) (String.rev s).

(** [x in l] on a list of strings. *)
Definition mem (x : string) (l : list string) : bool :=
  existsb (String.eqb x) l.

(** [s.lower()]: the capital letters below 256 are A-Z and, but for the
    multiplication sign, the code points 192 to 222. *)
Definition lower_ascii (c : ascii) : ascii :=
  let n := nat_of_ascii c in
  if ((65 <=? n)%nat && (n <=? 90)%nat) ||
     ((192 <=? n)%nat && (n <=? 222)%nat && negb (n =? 215)%nat)
  then ascii_of_nat (n + 32) else c.

Fixpoint lower (s : string) : string :=
  match s with
  | EmptyString => ""
  | String c s' => String (lower_ascii c) (lower s')
  end.

(** [s.strip()]: whitespace off both ends. *)
Definition is_space (c : ascii) : bool :=
  let n := nat_of_ascii c in
  ((9 <=? n)%nat && (n <=? 13)%nat) || ((28 <=? n)%nat && (n <=? 32)%nat)
  || (n =? 133)%nat || (n =? 160)%nat.

Fixpoint lstrip (s : string) : string :=
  match s with
  | EmptyString => ""
  | String c s' => if is_space c then lstrip s' else s
  end.

Definition strip (s : string) : string :=
  String.rev (lstrip (String.rev (lstrip s))).

(** [repr] of a string and of a list of strings that hold no quote, no
    backslash and no control character. *)
Definition repr (s : string) : string := "'" +:+ s +:+ "'".

Definition repr_list (l : list string) : string :=
  "[" +:+ join ", " (map repr l) +:+ "]".

(** [s[i]] for [0 <= i]; [None] is Python's IndexError. *)
Definition index (s : string) (i : nat) : option ascii := String.get i s.

(** [sorted(l)] on strings: a stable insertion sort by code point. *)
Fixpoint insert_sorted (x : string) (l : list string) : list string :=
  match l with
  | [] => [x]
  | y :: l' => if String.ltb x y then x :: l else y :: insert_sorted x l'
  end.

Definition sorted (l : list string) : list string :=
  foldr insert_sorted [] (reverse l).

(** [s.split()]: the maximal runs of characters that are not whitespace. *)
Fixpoint words (s : string) : list string :=
  match s with
  | EmptyString => []
  | String c s' =>
      if is_space c then words s'
      else match s' with
           | EmptyString => [String c ""]
           | String c' _ =>
               if is_space c' then String c "" :: words s'
               else match words s' with
                    | [] => [String c ""]
                    | w :: ws => String c w :: ws
                    end
           end
  end.

(** [l.index(x)]; [None] is Python's ValueError. *)
Fixpoint index_of (x : string) (l : list string) : option nat :=
  match l with
  | [] => None
  | y :: l' => if String.eqb y x then Some 0%nat else S <$> index_of x l'
  end.

(** [s.replace(a, "")] for a one-character [a]. *)
Fixpoint remove (a : ascii) (s : string) : string :=
  match s with
  | EmptyString => ""
  | String c s' => if Ascii.eqb c a then remove a s' else String c (remove a s')
  end.

(** The value of a decimal digit. *)
Definition digit_value (c : ascii) : option N :=
  let n := nat_of_ascii c in
  if (48 <=? n)%nat && (n <=? 57)%nat then Some (N.of_nat (n - 48)) else None.

(** Digits with single underscores between them, read left to right;
    [after_digit] tells whether the character before was a digit. *)
Fixpoint digits_value (acc : N) (after_digit : bool) (s : string) : option N :=
  match s with
  | EmptyString => if after_digit then Some acc else None
  | String c s' =>
      match digit_value c with
      | Some d => digits_value (10 * acc + d) true s'
      | None =>
          if Ascii.eqb c "_" && after_digit then digits_value acc false s'
          else None
      end
  end.

Fixpoint count_digits (s : string) : nat :=
  match s with
  | EmptyString => 0
  | String c s' =>
      match digit_value c with
      | Some _ => S (count_digits s')
      | None => count_digits s'
      end
  end.

(** sys.int_max_str_digits, at its default. *)
Definition int_max_str_digits : nat := 4300.

(** [int(s)]: whitespace around, one optional sign, then digits; a string
    of more digits than the interpreter converts is refused.  [None] is
    Python's ValueError. *)
Definition int (s : string) : option Z :=
  let t := strip s in
  let signed :=
    match t with
    | String "-" r => (true, r)
    | String "+" r => (false, r)
    | _ => (false, t)
    end in
  if (int_max_str_digits <? count_digits signed.2)%nat then None
  else (fun n => if signed.1 then (- Z.of_N n)%Z else Z.of_N n)
         <$> digits_value 0 false signed.2.

End Py.

(** ** Exceptions *)

Inductive exn_class :=
  | AssertionError | AttributeError | CalledProcessError | CompileError
  | FileExistsError | ImportError | IndexError | InvalidVersion | KeyError
  | KeyboardInterrupt | LinkError | ModuleNotFoundError | OSError
  | PlainException | RuntimeError | SystemExit | TypeError
  | UnboundLocalError | ValueError.

Global Instance exn_class_eq_dec : EqDecision exn_class.
Proof. solve_decision. Defined.

(** [isinstance(e, Exception)]: everything but the two interpreter exits. *)
Definition is_Exception (c : exn_class) : bool :=
  match c with
  | KeyboardInterrupt | SystemExit => false
  | _ => true
  end.

(** [isinstance(e, ImportError)] *)
Definition is_ImportError (c : exn_class) : bool :=
  match c with
  | ImportError | ModuleNotFoundError => true
  | _ => false
  end.

(** [f"{type(e)}"] *)
Definition type_repr (c : exn_class) : string :=
  "<class '" +:+
  match c with
  | AssertionError => "AssertionError"
  | AttributeError => "AttributeError"
  | CalledProcessError => "subprocess.CalledProcessError"
  | CompileError => "distutils.errors.CompileError"
  | FileExistsError => "FileExistsError"
  | ImportError => "ImportError"
  | IndexError => "IndexError"
  | InvalidVersion => "packaging.version.InvalidVersion"
  | KeyError => "KeyError"
  | KeyboardInterrupt => "KeyboardInterrupt"
  | LinkError => "distutils.errors.LinkError"
  | ModuleNotFoundError => "ModuleNotFoundError"
  | OSError => "OSError"
  | PlainException => "Exception"
  | RuntimeError => "RuntimeError"
  | SystemExit => "SystemExit"
  | TypeError => "TypeError"
  | UnboundLocalError => "UnboundLocalError"
  | ValueError => "ValueError"
  end +:+ "'>".

(** An exception object: its class and [str(e)]. *)
Record exn := Exc { exn_cls : exn_class; exn_msg : string }.

Global Instance exn_eq_dec : EqDecision exn.
Proof. solve_decision. Defined.

Inductive result (A : Type) :=
  | Return (a : A)
  | Raise (e : exn).
Arguments Return {A} a.
Arguments Raise {A} e.

Definition is_raise {A} (r : result A) : bool :=
  match r with Raise _ => true | Return _ => false end.

(** ** The machine and the process *)

(** A value of the CPU-info dictionary: py-cpuinfo gives strings and lists
    of strings, the lscpu fallback gives strings and [None]. *)
Inductive value :=
  | VNone
  | VStr (s : string)
  | VList (l : list string).

Global Instance value_eq_dec : EqDecision value.
Proof. solve_decision. Defined.

(** What a file descriptor is open on. *)
Inductive target :=
  | Terminal
  | OnFile (path : string).

Global Instance target_eq_dec : EqDecision target.
Proof. solve_decision. Defined.

(** The statements of the body of [has_function] that call out of the
    module, and the three of its [finally] block. *)
Inductive step :=
  | SetVerbosity | NewCompiler | CustomizeCompiler | Mkdtemp | WriteProgram
  | OpenRedirect | StderrFileno | DupStderr | Redirect
  | Compile | LinkExecutable
  | RestoreStderr | CloseRedirect | Rmtree.

Global Instance step_eq_dec : EqDecision step.
Proof. solve_decision. Defined.

(** The keyword arguments of [torch.utils.cpp_extension.load]. *)
Record load_args := {
  load_name : string;
  load_sources : list string;
  load_extra_include_paths : list string;
  load_extra_cflags : list string;
  load_extra_cuda_cflags : list string;
  load_extra_ldflags : list string;
  load_verbose : bool
}.

(** The probes: what the module reads and never writes. *)
Record env := {
  sys_platform : string;
  (** torch.utils.cpp_extension.CUDA_HOME *)
  CUDA_HOME : option string;
  (** the outcome of running [nvcc -V] and reading the release out of it
      (the body of [installed_cuda_version] past its assertion) *)
  nvcc_release : result (Z * Z);
  (** torch.version.cuda; [None] on a torch built without CUDA *)
  torch_version_cuda : option string;
  (** torch.cuda.get_device_capability(i) for i in range(device_count()) *)
  device_capabilities : list (Z * Z);
  (** [from cpuinfo import get_cpu_info] *)
  import_cpuinfo : result unit;
  (** [get_cpu_info()] once imported *)
  get_cpu_info : result (gmap string value);
  (** [type cmd] exits with status 0 *)
  type_found : string -> bool;
  (** [subprocess.check_output("lscpu", shell=True)], decoded *)
  lscpu_output : result string;
  (** [import ninja] *)
  import_ninja : result unit;
  (** the extension build; the module it returns is its name *)
  cpp_extension_load : load_args -> result string;
  (** the measured build time, as [print] shows it *)
  build_duration : string;
  (** [Path(__file__).parent.parent.absolute()] *)
  package_root : string;
  (** the exception, if any, each outside call of [has_function] raises *)
  smoke : step -> option exn;
  (** the directory name [tempfile.mkdtemp] comes up with *)
  mkdtemp_name : string;
  (** [shlex.split] *)
  shlex_split : string -> result (list string);
  (** the object files [compiler.compile] returns *)
  compile_objects : list string
}.

(** The fields of an [OpBuilder] object. *)
Record builder := {
  name : string;
  jit_mode : bool;
  build_for_cpu : bool;
  enable_bf16 : bool;
  error_log : option string
}.

(** [OpBuilder.__init__] *)
Definition OpBuilder_init (n : string) : builder :=
  {| name := n; jit_mode := false; build_for_cpu := false;
     enable_bf16 := false; error_log := None |}.

Inductive event :=
  | Print (line : string)
  | LoggerError (line : string)
  | DistutilsVerbosity (level : Z)
  | WriteFile (path content : string)
  (** [compiler.compile(sources, output_dir=.., extra_preargs=..)] *)
  | CompileCall (sources : list string) (output_dir : string)
      (extra_preargs : list string)
  (** [compiler.link_executable(objs, exe, extra_preargs=.., libraries=..)] *)
  | LinkCall (objs : list string) (exe : string) (extra_preargs : list string)
      (libraries : list string)
  (** [load] was called with these arguments under this os.environ *)
  | Load (args : load_args) (environ_then : gmap string string).

Record state := {
  self : builder;
  environ : gmap string string;
  fds : gmap nat target;
  dirs : gset string;
  out : list event
}.

(** ** Methods as state transformers *)

(** A computation over a store [S] that returns or raises. *)
Definition St (S A : Type) : Type := S -> result A * S.

(** A method of the module: a computation over the process state. *)
Abbreviation M := (St state).

Definition ret {S A} (a : A) : St S A := fun s => (Return a, s).
Definition raise {S A} (e : exn) : St S A := fun s => (Raise e, s).

Definition bind {S A B} (m : St S A) (k : A -> St S B) : St S B :=
  fun s => match m s with
           | (Return a, s') => k a s'
           | (Raise e, s') => (Raise e, s')
           end.

Declare Scope py_scope.
Delimit Scope py_scope with py.
Notation "'do' x <- m ; k" := (bind m (fun x => k))
  (at level 10, x pattern, m at level 100, k at level 200) : py_scope.
Notation "m ;; k" := (bind m (fun _ => k))
  (at level 100, k at level 200, right associativity) : py_scope.
Open Scope py_scope.

Definition of_result {S A} (r : result A) : St S A := fun s => (r, s).

(** [try: m  except <the classes catches accepts> as e: h e]; an exception
    of the handler is not caught again. *)
Definition try_except {S A} (m : St S A) (catches : exn_class -> bool)
    (h : exn -> St S A) : St S A :=
  fun s => match m s with
           | (Return a, s') => (Return a, s')
           | (Raise e, s') =>
               if catches (exn_cls e) then h e s' else (Raise e, s')
           end.

(** [try: m  finally: c]; an exception of [c] replaces the outcome of [m]. *)
Definition try_finally {S A} (m : St S A) (c : St S unit) : St S A :=
  fun s => match m s with
           | (r, s') =>
               match c s' with
               | (Return _, s'') => (r, s'')
               | (Raise e, s'') => (Raise e, s'')
               end
           end.

Definition get_self : M builder := fun s => (Return (self s), s).

Definition set_self (f : builder -> builder) : M unit :=
  fun s => (Return tt,
            {| self := f (self s); environ := environ s; fds := fds s;
               dirs := dirs s; out := out s |}).

Definition get_environ : M (gmap string string) :=
  fun s => (Return (environ s), s).

Definition set_environ (f : gmap string string -> gmap string string) : M unit :=
  fun s => (Return tt,
            {| self := self s; environ := f (environ s); fds := fds s;
               dirs := dirs s; out := out s |}).

Definition emit (ev : event) : M unit :=
  fun s => (Return tt,
            {| self := self s; environ := environ s; fds := fds s;
               dirs := dirs s; out := out s ++ [ev] |}).

Definition print (line : string) : M unit := emit (Print line).

(** [os.getenv(k, d)] and [os.environ.get(k, d)] *)
Definition getenv (k d : string) : M string :=
  do e <- get_environ; ret (default d (e !! k)).

(** ** Module constants *)

Definition YELLOW : string := String "027" "[93m".
Definition END : string := String "027" "[0m".
Definition WARNING : string := YELLOW +:+ " [WARNING] " +:+ END.

Definition DEFAULT_COMPUTE_CAPABILITIES : string := "7.0".

(** ** CUDA version checks *)

(** The assertion of [installed_cuda_version]; the nvcc run behind it is the
    probe [nvcc_release]. *)
Definition installed_cuda_version (E : env) : M (Z * Z) :=
  match CUDA_HOME E with
  | None =>
      raise (Exc AssertionError
               "CUDA_HOME does not exist, unable to compile CUDA op(s)")
  | Some _ => of_result (nvcc_release E)
  end.

(** [int(s)] as a statement that may raise. *)
Definition int_of {S} (s : string) : St S Z :=
  match Py.int s with
  | Some n => ret n
  | None =>
      raise (Exc ValueError
               ("invalid literal for int() with base 10: " +:+ Py.repr s))
  end.

(** What [installed_cuda_version] reads out of the text [nvcc -V] printed:
    the word after "release", without its commas, cut at the dots. *)
Definition nvcc_release_of {S} (output : string) : St S (Z * Z) :=
  let output_split := Py.words output in
  match Py.index_of "release" output_split with
  | None => raise (Exc ValueError "'release' is not in list")
  | Some release_idx =>
      match output_split !! (release_idx + 1)%nat with
      | None => raise (Exc IndexError "list index out of range")
      | Some word =>
          let release := Py.split "." (Py.remove "," word) in
          match take 2 release with
          | [cuda_major; cuda_minor] =>
              do a <- int_of cuda_major;
              do b <- int_of cuda_minor;
              ret (a, b)
          | few =>
              raise (Exc ValueError
                       ("not enough values to unpack (expected 2, got " +:+
                        pretty (length few) +:+ ")"))
          end
      end
  end.

(** [installed_cuda_version] on the outcome [nvcc] of the subprocess. *)
Definition installed_cuda_version_of (cuda_home : option string)
    (nvcc : result string) : M (Z * Z) :=
  match cuda_home with
  | None =>
      raise (Exc AssertionError
               "CUDA_HOME does not exist, unable to compile CUDA op(s)")
  | Some _ => do output <- of_result nvcc; nvcc_release_of output
  end.

(** What the installed package and the running torch say: the probes
    [load] and the version checks read. *)
Record install := {
  (** atorch.ops.git_version_info.installed_ops *)
  installed_ops : gmap string bool;
  (** atorch.ops.git_version_info.torch_info *)
  torch_info : gmap string string;
  (** torch.__version__ *)
  torch___version__ : string;
  (** torch.cuda.is_available() *)
  cuda_is_available : bool;
  (** importlib.import_module; the module is its name *)
  import_module : string -> result string
}.

(** [int(torch.__version__.split(".")[i])], as the module computes
    TORCH_MAJOR and TORCH_MINOR when it is imported. *)
Definition torch_version_part {S} (I : install) (i : nat) : St S Z :=
  match Py.split "." (torch___version__ I) !! i with
  | Some part => int_of part
  | None => raise (Exc IndexError "list index out of range")
  end.

Definition cuda_minor_mismatch_ok : gmap Z (list string) :=
  {[ 10%Z := ["10.0"; "10.1"; "10.2"];
     11%Z := ["11.0"; "11.1"; "11.2"; "11.3"; "11.4"; "11.5"; "11.6"; "11.7";
              "11.8"];
     12%Z := ["12.0"; "12.1"] ]}.

(** [f"{a}.{b}"] and ["%s.%s" % (a, b)] on two ints *)
Definition dotted (a b : Z) : string := pretty a +:+ "." +:+ pretty b.

(** [".".join(v.split(".")[:2])] *)
Definition major_minor (v : string) : string :=
  Py.join "." (take 2 (Py.split "." v)).

(** [torch.version.cuda.split]: an attribute of [None] when torch has no CUDA *)
Definition torch_cuda (E : env) : M string :=
  match torch_version_cuda E with
  | Some v => ret v
  | None =>
      raise (Exc AttributeError "'NoneType' object has no attribute 'split'")
  end.

(** The test of the mismatch table in [assert_no_cuda_mismatch]. *)
Definition minor_mismatch_ok (cuda_major : Z) (sys_v torch_v : string) : bool :=
  match cuda_minor_mismatch_ok !! cuda_major with
  | Some vs => Py.mem sys_v vs && Py.mem torch_v vs
  | None => false
  end.

(** Both versions are listed under the installed major version. *)
Definition listed_together (cuda_major : Z) (sys_v torch_v : string) : Prop :=
  ∃ vs, cuda_minor_mismatch_ok !! cuda_major = Some vs ∧
        sys_v ∈ vs ∧ torch_v ∈ vs.

Definition assert_no_cuda_mismatch (E : env) : M bool :=
  do (cuda_major, cuda_minor) <- installed_cuda_version E;
  let sys_cuda_version := dotted cuda_major cuda_minor in
  do torch_version <- torch_cuda E;
  let torch_cuda_version := major_minor torch_version in
  if negb (String.eqb sys_cuda_version torch_cuda_version) then
    if minor_mismatch_ok cuda_major sys_cuda_version torch_cuda_version then
      print ("Installed CUDA version " +:+ sys_cuda_version +:+
             " does not match the version torch was compiled with " +:+
             torch_version +:+
             " but since the APIs are compatible, accepting this combination");;
      ret true
    else
      do skip <- getenv "ATORCH_SKIP_CUDA_CHECK" "0";
      if String.eqb skip "1" then
        print (WARNING +:+ " ATorch Op Builder: Installed CUDA version " +:+
               sys_cuda_version +:+
               " does not match the version torch was compiled with " +:+
               torch_version +:+ "." +:+
               "Detected `ATORCH_SKIP_CUDA_CHECK=1`: Allowing this combination of CUDA, " +:+
               "but it may result in unexpected behavior.");;
        ret true
      else
        raise (Exc PlainException
                 (">- ATorch Op Builder: Installed CUDA version " +:+
                  sys_cuda_version +:+
                  " does not match the version torch was compiled with " +:+
                  torch_version +:+ ", unable to compile " +:+
                  "cuda/cpp extensions without a matching cuda version."))
  else ret true.

(** [Version("%s.%s" % (a, b)) >= Version("11.8")] of packaging: the string
    is a version when neither number carries a sign, and releases compare
    number by number. *)
Definition version_ge_11_8 (a b : Z) : M bool :=
  if (a <? 0)%Z || (b <? 0)%Z then
    raise (Exc InvalidVersion ("Invalid version: '" +:+ dotted a b +:+ "'"))
  else ret ((11 <? a)%Z || ((a =? 11)%Z && (8 <=? b)%Z)).

Definition get_default_compute_capabilities (E : env) : M string :=
  let compute_caps := DEFAULT_COMPUTE_CAPABILITIES in
  match CUDA_HOME E with
  | None => ret compute_caps
  | Some _ =>
      do v <- installed_cuda_version E;
      if (11 <=? v.1)%Z then
        do (a, b) <- installed_cuda_version E;
        let compute_caps := compute_caps +:+ ";8.0" in
        do hopper <- version_ge_11_8 a b;
        if hopper then ret (compute_caps +:+ ";9.0") else ret compute_caps
      else ret compute_caps
  end.

(** ** Paths *)

(** [os.path.isabs] and [os.path.join] of two components, POSIX flavour. *)
Definition isabs (p : string) : bool := Py.startswith p "/".

Definition os_path_join (a b : string) : string :=
  if isabs b then b
  else if String.eqb a "" || Py.endswith a "/" then a +:+ b
  else a +:+ "/" +:+ b.

(** ** File descriptors and temporary directories *)

Definition set_fds (f : gmap nat target -> gmap nat target) : M unit :=
  fun s => (Return tt,
            {| self := self s; environ := environ s; fds := f (fds s);
               dirs := dirs s; out := out s |}).

Definition set_dirs (f : gset string -> gset string) : M unit :=
  fun s => (Return tt,
            {| self := self s; environ := environ s; fds := fds s;
               dirs := f (dirs s); out := out s |}).

(** The descriptor the kernel hands out: the lowest one not in use. *)
Definition lowest_unused (t : gmap nat target) : nat :=
  match list_find (fun n => t !! n = None) (seq 0 (S (size t))) with
  | Some (_, n) => n
  | None => fresh (dom t)
  end.

(** An outside call of the smoke test: it raises what the probe says. *)
Definition call (E : env) (st : step) : M unit :=
  match smoke E st with
  | Some e => raise e
  | None => ret tt
  end.

Definition EBADF : exn := Exc OSError "[Errno 9] Bad file descriptor".

(** [tempfile.mkdtemp()] *)
Definition mkdtemp (E : env) : M string :=
  call E Mkdtemp;;
  fun s =>
    if decide (mkdtemp_name E ∈ dirs s) then
      (Raise (Exc FileExistsError "No usable temporary directory name found"), s)
    else (set_dirs (fun ds => {[mkdtemp_name E]} ∪ ds);; ret (mkdtemp_name E)) s.

(** [open(path, "w")]: the file object is its descriptor. *)
Definition open_w (E : env) (st : step) (path : string) : M nat :=
  call E st;;
  fun s => let n := lowest_unused (fds s) in
           (set_fds (fun t => <[n := OnFile path]> t);; ret n) s.

(** [sys.stderr.fileno()] *)
Definition stderr_fileno (E : env) : M nat := call E StderrFileno;; ret 2.

(** [os.dup(fd)] *)
Definition os_dup (E : env) (st : step) (fd : nat) : M nat :=
  call E st;;
  fun s => match fds s !! fd with
           | None => (Raise EBADF, s)
           | Some t =>
               let n := lowest_unused (fds s) in
               (set_fds (fun tb => <[n := t]> tb);; ret n) s
           end.

(** [os.dup2(fd, fd2)] *)
Definition os_dup2 (E : env) (st : step) (fd fd2 : nat) : M unit :=
  call E st;;
  fun s => match fds s !! fd with
           | None => (Raise EBADF, s)
           | Some t => set_fds (fun tb => <[fd2 := t]> tb) s
           end.

(** [f.close()] *)
Definition close (E : env) (st : step) (f : nat) : M unit :=
  call E st;;
  fun s => match fds s !! f with
           | None => (Raise EBADF, s)
           | Some _ => set_fds (fun tb => delete f tb) s
           end.

(** [shutil.rmtree(d)] *)
Definition rmtree (E : env) (st : step) (d : string) : M unit :=
  call E st;; set_dirs (fun ds => ds ∖ {[d]}).

Definition logger_error (line : string) : M unit := emit (LoggerError line).

(** ** Extensions and virtual methods *)

Inductive extension_kind := CppExtension | CUDAExtension.

(** The arguments an extension object of setuptools is built from;
    [ext_nvcc] is the ["nvcc"] entry of [extra_compile_args]. *)
Record extension := {
  ext_kind : extension_kind;
  ext_name : string;
  ext_sources : list string;
  ext_include_dirs : list string;
  ext_libraries : option (list string);
  ext_cxx : list string;
  ext_nvcc : option (list string);
  ext_extra_link_args : list string
}.

(** The methods a call [self.m()] resolves to, for the class of [self]. *)
Module Virtual.
Record table := {
  is_CUDAOpBuilder : bool;
  absolute_name : M string;
  sources : M (list string);
  include_paths : M (list string);
  nvcc_args : M (list string);
  cxx_args : M (list string);
  is_compatible : bool -> M bool;
  extra_ldflags : M (list string);
  libraries_args : M (list string)
}.
End Virtual.

Definition set_jit_mode (v : bool) : M unit :=
  set_self (fun b => {| name := name b; jit_mode := v;
                        build_for_cpu := build_for_cpu b;
                        enable_bf16 := enable_bf16 b;
                        error_log := error_log b |}).

Definition set_build_for_cpu (v : bool) : M unit :=
  set_self (fun b => {| name := name b; jit_mode := jit_mode b;
                        build_for_cpu := v;
                        enable_bf16 := enable_bf16 b;
                        error_log := error_log b |}).

Definition set_enable_bf16 (v : bool) : M unit :=
  set_self (fun b => {| name := name b; jit_mode := jit_mode b;
                        build_for_cpu := build_for_cpu b;
                        enable_bf16 := v;
                        error_log := error_log b |}).

(** ** OpBuilder *)

Module OpBuilder.

(** [self.warning(msg)] *)
Definition warning (msg : string) : M unit :=
  set_self (fun b => {| name := name b; jit_mode := jit_mode b;
                        build_for_cpu := build_for_cpu b;
                        enable_bf16 := enable_bf16 b;
                        error_log := Some msg |});;
  print (WARNING +:+ " " +:+ msg).

(** [[x for x in args if len(x) > 0]] *)
Definition strip_empty_entries (args : list string) : list string :=
  filter (fun x => 0 < String.length x) args.

(** The local variables of [has_function] its [finally] block reads. *)
Record locals := {
  tempdir : option string;
  filestderr : option nat;
  oldstderr : option nat
}.

Definition no_locals : locals :=
  {| tempdir := None; filestderr := None; oldstderr := None |}.

Definition lift {L A} (m : M A) : St (L * state) A :=
  fun ls => match m ls.2 with (r, s') => (r, (ls.1, s')) end.

Definition get_locals {L} : St (L * state) L := fun ls => (Return ls.1, ls).

Definition set_locals {L} (f : L -> L) : St (L * state) unit :=
  fun ls => (Return tt, (f ls.1, ls.2)).

(** The [try] block of [has_function]. *)
Definition has_function_try (E : env) (funcname : string)
    (libraries : list string) (verbose : bool) : St (locals * state) bool :=
  (if verbose then lift (call E SetVerbosity;; emit (DistutilsVerbosity 1))
   else ret tt);;
  lift (call E NewCompiler);;
  lift (call E CustomizeCompiler);;
  do d <- lift (mkdtemp E);
  set_locals (fun l => {| tempdir := Some d; filestderr := filestderr l;
                          oldstderr := oldstderr l |});;
  let prog := "void " +:+ funcname +:+
              "(void); int main(int argc, char** argv) { " +:+ funcname +:+
              "(); return 0; }" in
  let filename := os_path_join d "test.c" in
  lift (call E WriteProgram;; emit (WriteFile filename prog));;
  (if negb verbose then
     do f <- lift (open_w E OpenRedirect (os_path_join d "stderr.txt"));
     set_locals (fun l => {| tempdir := tempdir l; filestderr := Some f;
                             oldstderr := oldstderr l |});;
     do fd2 <- lift (stderr_fileno E);
     do old <- lift (os_dup E DupStderr fd2);
     set_locals (fun l => {| tempdir := tempdir l; filestderr := filestderr l;
                             oldstderr := Some old |});;
     do fd2 <- lift (stderr_fileno E);
     lift (os_dup2 E Redirect f fd2)
   else ret tt);;
  let drive := "" in
  let driveless_filename := filename in
  let root_dir := if isabs driveless_filename
                  then String.substring 0 1 driveless_filename else "" in
  let output_dir := os_path_join drive root_dir in
  do cflags_env <- lift (getenv "CFLAGS" "");
  do cflags <- lift (of_result (shlex_split E cflags_env));
  lift (emit (CompileCall [filename] output_dir (strip_empty_entries cflags)));;
  lift (call E Compile);;
  let objs := compile_objects E in
  do ldflags_env <- lift (getenv "LDFLAGS" "");
  do ldflags <- lift (of_result (shlex_split E ldflags_env));
  lift (emit (LinkCall objs (os_path_join d "a.out")
                (strip_empty_entries ldflags) libraries));;
  lift (call E LinkExecutable);;
  ret true.

(** The three [except] clauses of [has_function]. *)
Definition has_function_except (e : exn) : St (locals * state) bool :=
  match exn_cls e with
  | CompileError => ret false
  | LinkError => ret false
  | _ => lift (logger_error ("Error compiling: " +:+ exn_msg e));; ret false
  end.

(** The [finally] block of [has_function]. *)
Definition has_function_finally (E : env) : St (locals * state) unit :=
  do l <- get_locals;
  (match oldstderr l with
   | Some old => do fd2 <- lift (stderr_fileno E);
                 lift (os_dup2 E RestoreStderr old fd2)
   | None => ret tt
   end);;
  (match filestderr l with
   | Some f => lift (close E CloseRedirect f)
   | None => ret tt
   end);;
  (match tempdir l with
   | Some d => lift (rmtree E Rmtree d)
   | None => ret tt
   end).

(** [has_function] together with its local variables at exit. *)
Definition has_function_run (E : env) (funcname : string)
    (libraries : list string) (verbose : bool)
    : state -> result bool * (locals * state) :=
  fun s =>
    try_finally
      (try_except (has_function_try E funcname libraries verbose)
         (fun _ => true) has_function_except)
      (has_function_finally E)
      (no_locals, s).

Definition has_function (E : env) (funcname : string)
    (libraries : list string) (verbose : bool) : M bool :=
  fun s => match has_function_run E funcname libraries verbose s with
           | (r, (_, s')) => (r, s')
           end.

(** [self.command_exists(cmd)]; [type_found] is the exit status of the
    shell's [type]. *)
Definition command_exists (E : env) (cmd : string) : M bool :=
  let cmds := if Py.contains cmd "|" then Py.split "|" cmd else [cmd] in
  let valid := fold_left (fun v c => v || type_found E c) cmds false in
  let cmd := List.last cmds cmd in
  do b <- get_self;
  (if negb valid && (1 <? length cmds)%nat then
     print (WARNING +:+ " " +:+ name b +:+
            " requires one of the following commands '" +:+
            Py.repr_list cmds +:+ "', but it does not exist!")
   else if negb valid && (length cmds =? 1)%nat then
     print (WARNING +:+ " " +:+ name b +:+ " requires the '" +:+ cmd +:+
            "' command, but it does not exist!")
   else ret tt);;
  ret valid.

(** [d[k]] *)
Definition getitem {S} (d : gmap string value) (k : string) : St S value :=
  match d !! k with
  | Some v => ret v
  | None => raise (Exc KeyError (Py.repr k))
  end.

(** [x in v] *)
Definition value_contains {S} (x : string) (v : value) : St S bool :=
  match v with
  | VStr s => ret (Py.contains s x)
  | VList l => ret (Py.mem x l)
  | VNone =>
      raise (Exc TypeError "argument of type 'NoneType' is not iterable")
  end.

(** [v == x] for a string [x] *)
Definition value_eq (v : value) (x : string) : bool :=
  match v with
  | VStr s => String.eqb s x
  | _ => false
  end.

(** [v.startswith(p)] *)
Definition value_startswith {S} (v : value) (p : string) : St S bool :=
  match v with
  | VStr s => ret (Py.startswith s p)
  | VNone =>
      raise (Exc AttributeError
               "'NoneType' object has no attribute 'startswith'")
  | VList _ =>
      raise (Exc AttributeError "'list' object has no attribute 'startswith'")
  end.

Definition _backup_cpuinfo (E : env) : M (option (gmap string value)) :=
  do found <- command_exists E "lscpu";
  if negb found then
    do b <- get_self;
    warning (name b +:+
             " attempted to query 'lscpu' after failing to use py-cpuinfo " +:+
             "to detect the CPU architecture. 'lscpu' does not appear to exist on " +:+
             "your system, will fall back to use -march=native and non-vectorized execution.");;
    ret None
  else
    do raw <- of_result (lscpu_output E);
    let result := Py.lower (Py.strip raw) in
    let cpu_info : gmap string value := <["arch" := VNone]> ∅ in
    let flags := "" in
    if Py.contains result "genuineintel" || Py.contains result "authenticamd"
    then
      let cpu_info := <["arch" := VStr "X86_64"]> cpu_info in
      let flags := if Py.contains result "avx512" then flags +:+ "avx512,"
                   else if Py.contains result "avx512f"
                        then flags +:+ "avx512f,"
                        else flags in
      let flags := if Py.contains result "avx2" then flags +:+ "avx2"
                   else flags in
      ret (Some (<["flags" := VStr flags]> cpu_info))
    else if Py.contains result "ppc64le" then
      ret (Some (<["flags" := VStr flags]> (<["arch" := VStr "PPC_"]> cpu_info)))
    else ret (Some (<["flags" := VStr flags]> cpu_info)).

(** [from cpuinfo import get_cpu_info] binds the local name when it
    succeeds; calling the unbound local raises.  The text of that exception
    is the interpreter's. *)
Definition call_get_cpu_info (E : env) (bound : bool)
    : M (gmap string value) :=
  if bound then of_result (get_cpu_info E)
  else raise (Exc UnboundLocalError
                "local variable 'get_cpu_info' referenced before assignment").

(** The two [try] statements [cpu_arch] and [simd_width] share: the CPU-info
    dictionary, or the value the method returns early ([fallback]) when
    neither py-cpuinfo nor lscpu gives one. *)
Definition probe_cpu (E : env) (who fallback : string)
    : M (string + gmap string value) :=
  do r <- try_except
            (of_result (import_cpuinfo E);; ret (inr true))
            is_ImportError
            (fun e =>
               logger_error ("Error " +:+ who +:+ ": " +:+ exn_msg e);;
               do cpu_info <- _backup_cpuinfo E;
               match cpu_info with
               | None => ret (inl fallback)
               | Some _ => ret (inr false)
               end);
  match r with
  | inl v => ret (inl v)
  | inr bound =>
      try_except
        (do cpu_info <- call_get_cpu_info E bound; ret (inr cpu_info))
        is_Exception
        (fun e =>
           do b <- get_self;
           warning (name b +:+
                    " attempted to use `py-cpuinfo` but failed (exception type: " +:+
                    type_repr (exn_cls e) +:+ ", " +:+ exn_msg e +:+ "), " +:+
                    "falling back to `lscpu` to get this information.");;
           do cpu_info <- _backup_cpuinfo E;
           match cpu_info with
           | None => ret (inl fallback)
           | Some d => ret (inr d)
           end)
  end.

Definition cpu_arch (E : env) : M string :=
  do r <- probe_cpu E "cpu_arch" "-march=native";
  match r with
  | inl v => ret v
  | inr cpu_info =>
      do arch <- getitem cpu_info "arch";
      do ppc <- value_startswith arch "PPC_";
      if ppc then ret "-mcpu=native" else ret "-march=native"
  end.

(** The choice [simd_width] makes once it holds a CPU-info dictionary. *)
Definition simd_width_of (cpu_info : gmap string value) : M string :=
  do arch <- getitem cpu_info "arch";
  if value_eq arch "X86_64" then
    do flags <- getitem cpu_info "flags";
    do avx512 <- value_contains "avx512" flags;
    do avx512 <- (if avx512 then ret true
                  else do flags <- getitem cpu_info "flags";
                       value_contains "avx512f" flags);
    if avx512 then ret "-D__AVX512__"
    else
      do flags <- getitem cpu_info "flags";
      do avx2 <- value_contains "avx2" flags;
      if avx2 then ret "-D__AVX256__" else ret "-D__SCALAR__"
  else ret "-D__SCALAR__".

Definition simd_width (E : env) : M string :=
  do r <- probe_cpu E "simd_width" "-D__SCALAR__";
  match r with
  | inl v => ret v
  | inr cpu_info => simd_width_of cpu_info
  end.

Definition is_cuda_enable (E : env) : M string :=
  try_except
    (assert_no_cuda_mismatch E;; ret "-D__ENABLE_CUDA__")
    (fun _ => true)
    (fun _ =>
       do b <- get_self;
       print (WARNING +:+ " " +:+ name b +:+
              " cuda is missing or is incompatible with installed torch, " +:+
              "only cpu ops can be compiled!");;
       ret "-D__DISABLE_CUDA__").

Definition atorch_src_path (E : env) (code_path : string) : string :=
  if isabs code_path then code_path
  else os_path_join (package_root E) code_path.

(** The methods of the base class that subclasses override. *)
Definition include_paths : M (list string) := ret [].
Definition nvcc_args : M (list string) := ret [].
Definition cxx_args : M (list string) := ret [].
Definition is_compatible (verbose : bool) : M bool := ret true.
Definition extra_ldflags : M (list string) := ret [].

Definition builder (E : env) (k : Virtual.table) : M extension :=
  do srcs <- Virtual.sources k;
  let sources := map (atorch_src_path E) srcs in
  do incs <- Virtual.include_paths k;
  let include_paths := map (atorch_src_path E) incs in
  do nm <- Virtual.absolute_name k;
  do cxx <- Virtual.cxx_args k;
  do ld <- Virtual.extra_ldflags k;
  ret {| ext_kind := CppExtension;
         ext_name := nm;
         ext_sources := strip_empty_entries sources;
         ext_include_dirs := strip_empty_entries include_paths;
         ext_libraries := None;
         ext_cxx := strip_empty_entries cxx;
         ext_nvcc := None;
         ext_extra_link_args := strip_empty_entries ld |}.

Definition TORCH_CUDA_ARCH_LIST : string := "TORCH_CUDA_ARCH_LIST".

(** The truth value of an optional string: [None] and [""] are false. *)
Definition truthy (o : option string) : bool :=
  match o with
  | Some v => negb (String.eqb v "")
  | None => false
  end.

Definition jit_load (E : env) (k : Virtual.table) (verbose : bool) : M string :=
  do compatible <- Virtual.is_compatible k verbose;
  do b <- get_self;
  (if negb compatible then
     raise (Exc RuntimeError
              ("Unable to JIT load the " +:+ name b +:+
               " op due to it not being compatible due to " +:+
               "hardware/software issue. {self.error_log}"))
   else ret tt);;
  try_except (of_result (import_ninja E)) is_ImportError
    (fun _ => raise (Exc RuntimeError
                       ("Unable to JIT load the " +:+ name b +:+
                        " op due to ninja not being installed.")));;
  (if Virtual.is_CUDAOpBuilder k then
     try_except (assert_no_cuda_mismatch E;; set_build_for_cpu false)
       (fun _ => true) (fun _ => set_build_for_cpu true)
   else ret tt);;
  set_jit_mode true;;
  do srcs <- Virtual.sources k;
  let sources := map (atorch_src_path E) srcs in
  do incs <- Virtual.include_paths k;
  let extra_include_paths := map (atorch_src_path E) incs in
  do environ0 <- get_environ;
  let torch_arch_list := environ0 !! TORCH_CUDA_ARCH_LIST in
  (match torch_arch_list with
   | Some _ => set_environ (insert TORCH_CUDA_ARCH_LIST "")
   | None => ret tt
   end);;
  do nvcc <- Virtual.nvcc_args k;
  let nvcc_args := strip_empty_entries nvcc in
  do cxx <- Virtual.cxx_args k;
  let cxx_args := strip_empty_entries cxx in
  do b <- get_self;
  let bf16 := Virtual.is_CUDAOpBuilder k && negb (build_for_cpu b)
              && enable_bf16 b in
  let cxx_args := if bf16 then (cxx_args ++ ["-DBF16_AVAILABLE"])%list
                  else cxx_args in
  let nvcc_args := if bf16 then (nvcc_args ++ ["-DBF16_AVAILABLE"])%list
                   else nvcc_args in
  do ld <- Virtual.extra_ldflags k;
  let args := {| load_name := name b;
                 load_sources := strip_empty_entries sources;
                 load_extra_include_paths :=
                   strip_empty_entries extra_include_paths;
                 load_extra_cflags := cxx_args;
                 load_extra_cuda_cflags := nvcc_args;
                 load_extra_ldflags := strip_empty_entries ld;
                 load_verbose := verbose |} in
  do environ1 <- get_environ;
  emit (Load args environ1);;
  do op_module <- of_result (cpp_extension_load E args);
  do b <- get_self;
  (if verbose then
     print ("Time to load " +:+ name b +:+ " op: " +:+ build_duration E +:+
            " seconds")
   else ret tt);;
  (if truthy torch_arch_list then
     set_environ (insert TORCH_CUDA_ARCH_LIST (default "" torch_arch_list))
   else ret tt);;
  ret op_module.

(** [d[k]] on a dictionary of strings. *)
Definition info_item (d : gmap string string) (k : string) : M string :=
  match d !! k with
  | Some v => ret v
  | None => raise (Exc KeyError (Py.repr k))
  end.

Definition validate_torch_version (I : install) : M unit :=
  do install_torch_version <- info_item (torch_info I) "version";
  let current_torch_version := major_minor (torch___version__ I) in
  if negb (String.eqb install_torch_version current_torch_version) then
    raise (Exc RuntimeError
             ("PyTorch version mismatch! ATorch ops were compiled and installed " +:+
              "with a different version than what is being used at runtime. " +:+
              "Please re-install ATorch or switch torch versions. " +:+
              "Install torch version=" +:+ install_torch_version +:+ ", " +:+
              "Runtime torch version=" +:+ current_torch_version))
  else ret tt.

Definition validate_torch_op_version (E : env) (I : install) : M unit :=
  do torch_version <- torch_cuda E;
  let current_cuda_version := major_minor torch_version in
  do install_cuda_version <- info_item (torch_info I) "cuda_version";
  if negb (String.eqb install_cuda_version current_cuda_version) then
    raise (Exc RuntimeError
             ("CUDA version mismatch! ATorch ops were compiled and installed " +:+
              "with a different version than what is being used at runtime. " +:+
              "Please re-install ATorch or switch torch versions. " +:+
              "Install CUDA version=" +:+ install_cuda_version +:+ ", " +:+
              "Runtime CUDA version=" +:+ current_cuda_version))
  else ret tt.

Definition load (E : env) (I : install) (k : Virtual.table) (verbose : bool)
    : M string :=
  do b <- get_self;
  if default false (installed_ops I !! name b) then
    validate_torch_version I;;
    (if cuda_is_available I && Virtual.is_CUDAOpBuilder k
     then validate_torch_op_version E I else ret tt);;
    do nm <- Virtual.absolute_name k;
    of_result (import_module I nm)
  else jit_load E k verbose.

(** The methods of an object whose class derives from [OpBuilder] alone and
    defines the two abstract methods only. *)
Definition class (absolute_name : string) (sources : list string)
    : Virtual.table :=
  {| Virtual.is_CUDAOpBuilder := false;
     Virtual.absolute_name := ret absolute_name;
     Virtual.sources := ret sources;
     Virtual.include_paths := include_paths;
     Virtual.nvcc_args := nvcc_args;
     Virtual.cxx_args := cxx_args;
     Virtual.is_compatible := is_compatible;
     Virtual.extra_ldflags := extra_ldflags;
     Virtual.libraries_args := ret [] |}.

End OpBuilder.

(** ** CUDAOpBuilder *)

Module CUDAOpBuilder.

(** [s[i]] *)
Definition item {S} (s : string) (i : nat) : St S ascii :=
  match Py.index s i with
  | Some c => ret c
  | None => raise (Exc IndexError "string index out of range")
  end.

(** [int(c)] for a one-character string. *)
Definition int_of_char {S} (c : ascii) : St S Z :=
  let n := nat_of_ascii c in
  if (48 <=? n)%nat && (n <=? 57)%nat then ret (Z.of_nat (n - 48))
  else raise (Exc ValueError
                ("invalid literal for int() with base 10: " +:+
                 Py.repr (String c ""))).

(** The capabilities of the visible devices, each once, in order of first
    appearance. *)
Definition device_ccs (E : env) : list string :=
  fold_left (fun ccs cap =>
               let cc := dotted cap.1 cap.2 in
               if Py.mem cc ccs then ccs else ccs ++ [cc])
    (device_capabilities E) [].

(** The [jit_mode] branch: sort, then tag the last entry. *)
Definition jit_ccs (E : env) : M (list string) :=
  let ccs := Py.sorted (device_ccs E) in
  match ccs !! (length ccs - 1)%nat with
  | Some cc => ret (<[(length ccs - 1)%nat := cc +:+ "+PTX"]> ccs)
  | None => raise (Exc IndexError "list index out of range")
  end.

(** The cross-compile branch. *)
Definition cross_compile_ccs (E : env) (cross_compile_archs : option string)
    : M (list string) :=
  do environ0 <- get_environ;
  let cross_compile_archs_env := environ0 !! OpBuilder.TORCH_CUDA_ARCH_LIST in
  do archs <-
    match cross_compile_archs_env with
    | Some v =>
        (match cross_compile_archs with
         | Some _ =>
             print (WARNING +:+ " env var `TORCH_CUDA_ARCH_LIST=" +:+ v +:+
                    "` " +:+
                    "overrides `cross_compile_archs={cross_compile_archs}`")
         | None => ret tt
         end);;
        ret (Py.replace " " ";" v)
    | None =>
        match cross_compile_archs with
        | Some a => ret a
        | None => get_default_compute_capabilities E
        end
    end;
  ret (Py.split ";" archs).

(** [filter_ccs] of the class itself: nothing is pruned. *)
Definition filter_ccs (ccs : list string) : M (list string) := ret ccs.

(** [compute_capability_args] up to its emptiness check: the capabilities
    the flags are made for. *)
Definition selected_ccs (E : env) (filter : list string -> M (list string))
    (cross_compile_archs : option string) : M (list string) :=
  do b <- get_self;
  do ccs <- (if jit_mode b then jit_ccs E
             else cross_compile_ccs E cross_compile_archs);
  do ccs <- filter ccs;
  if (length ccs =? 0)%nat then
    do b <- get_self;
    raise (Exc RuntimeError
             ("Unable to load " +:+ name b +:+
              " op due to no compute capabilities remaining after filtering"))
  else ret ccs.

(** The loop of [compute_capability_args] over the capabilities. *)
Fixpoint gencode (ccs : list string) (args : list string) : M (list string) :=
  match ccs with
  | [] => ret args
  | cc :: ccs' =>
      do c0 <- item cc 0;
      do c2 <- item cc 2;
      let num := String c0 (String c2 "") in
      let args := args ++ ["-gencode=arch=compute_" +:+ num +:+ ",code=sm_" +:+
                           num] in
      let args := if Py.endswith cc "+PTX"
                  then args ++ ["-gencode=arch=compute_" +:+ num +:+
                                ",code=compute_" +:+ num]
                  else args in
      do c0 <- item cc 0;
      do major <- int_of_char c0;
      (if (major <=? 7)%Z then set_enable_bf16 false else ret tt);;
      gencode ccs' args
  end.

Definition compute_capability_args (E : env)
    (filter : list string -> M (list string))
    (cross_compile_archs : option string) : M (list string) :=
  do ccs <- selected_ccs E filter cross_compile_archs;
  set_enable_bf16 true;;
  gencode ccs [].

Definition is_compatible (verbose : bool) : M bool :=
  OpBuilder.is_compatible verbose.

Definition cxx_args (E : env) : M (list string) :=
  if String.eqb (sys_platform E) "win32" then ret ["-O2"]
  else ret ["-O3"; "-std=c++17"; "-g"; "-Wno-reorder"].

Definition nvcc_args (E : env) (filter : list string -> M (list string))
    : M (list string) :=
  do b <- get_self;
  if build_for_cpu b then ret []
  else
    let args := ["-O3"] in
    do v <- installed_cuda_version E;
    let cuda_major := v.1 in
    let args := args ++
      [ if String.eqb (sys_platform E) "win32"
        then "-allow-unsupported-compiler" else "";
        "--use_fast_math";
        if (10 <? cuda_major)%Z then "-std=c++17" else "-std=c++14";
        "-U__CUDA_NO_HALF_OPERATORS__";
        "-U__CUDA_NO_HALF_CONVERSIONS__";
        "-U__CUDA_NO_HALF2_OPERATORS__" ] in
    do debug <- getenv "ATORCH_DEBUG_CUDA_BUILD" "0";
    let args := if String.eqb debug "1" then args ++ ["--ptxas-options=-v"]
                else args in
    do ccs <- compute_capability_args E filter None;
    ret (args ++ ccs).

Definition libraries_args (E : env) : M (list string) :=
  do b <- get_self;
  if build_for_cpu b then ret []
  else if String.eqb (sys_platform E) "win32" then ret ["cublas"; "curand"]
  else ret [].

Definition builder (E : env) (k : Virtual.table) : M extension :=
  try_except (assert_no_cuda_mismatch E;; set_build_for_cpu false)
    (fun _ => true) (fun _ => set_build_for_cpu true);;
  do b <- get_self;
  let for_cpu := build_for_cpu b in
  do cxx <- Virtual.cxx_args k;
  do nvcc <- (if for_cpu then ret None
              else do nvcc <- Virtual.nvcc_args k;
                   ret (Some (OpBuilder.strip_empty_entries nvcc)));
  let cxx := OpBuilder.strip_empty_entries cxx in
  do b <- get_self;
  let cxx := if negb (build_for_cpu b) && enable_bf16 b
             then cxx ++ ["-DBF16_AVAILABLE"] else cxx in
  do srcs <- Virtual.sources k;
  let sources := map (OpBuilder.atorch_src_path E) srcs in
  do incs <- Virtual.include_paths k;
  let include_paths := map (OpBuilder.atorch_src_path E) incs in
  do nm <- Virtual.absolute_name k;
  do libs <- Virtual.libraries_args k;
  do ld <- Virtual.extra_ldflags k;
  ret {| ext_kind := if for_cpu then CppExtension else CUDAExtension;
         ext_name := nm;
         ext_sources := OpBuilder.strip_empty_entries sources;
         ext_include_dirs := OpBuilder.strip_empty_entries include_paths;
         ext_libraries := Some (OpBuilder.strip_empty_entries libs);
         ext_cxx := cxx;
         ext_nvcc := nvcc;
         ext_extra_link_args := OpBuilder.strip_empty_entries ld |}.

(** The methods of an object whose class derives from [CUDAOpBuilder] and
    defines the two abstract methods only. *)
Definition class (E : env) (absolute_name : string) (sources : list string)
    : Virtual.table :=
  {| Virtual.is_CUDAOpBuilder := true;
     Virtual.absolute_name := ret absolute_name;
     Virtual.sources := ret sources;
     Virtual.include_paths := OpBuilder.include_paths;
     Virtual.nvcc_args := nvcc_args E filter_ccs;
     Virtual.cxx_args := cxx_args E;
     Virtual.is_compatible := is_compatible;
     Virtual.extra_ldflags := OpBuilder.extra_ldflags;
     Virtual.libraries_args := libraries_args E |}.

Definition version_dependent_macros (TORCH_MAJOR TORCH_MINOR : Z)
    : list string :=
  let version_ge_1_1 :=
    if (1 <? TORCH_MAJOR)%Z || ((TORCH_MAJOR =? 1)%Z && (0 <? TORCH_MINOR)%Z)
    then ["-DVERSION_GE_1_1"] else [] in
  let version_ge_1_3 :=
    if (1 <? TORCH_MAJOR)%Z || ((TORCH_MAJOR =? 1)%Z && (2 <? TORCH_MINOR)%Z)
    then ["-DVERSION_GE_1_3"] else [] in
  let version_ge_1_5 :=
    if (1 <? TORCH_MAJOR)%Z || ((TORCH_MAJOR =? 1)%Z && (4 <? TORCH_MINOR)%Z)
    then ["-DVERSION_GE_1_5"] else [] in
  version_ge_1_1 ++ version_ge_1_3 ++ version_ge_1_5.

End CUDAOpBuilder.

(** ** TorchCPUOpBuilder *)

Module TorchCPUOpBuilder.

Definition extra_ldflags : M (list string) :=
  do b <- get_self;
  if build_for_cpu b then ret ["-fopenmp"] else ret ["-lcurand"].

Definition cxx_args (E : env) : M (list string) :=
  let args := [] in
  do b <- get_self;
  do args <-
    (if negb (build_for_cpu b) then
       do home <- match CUDA_HOME E with
                  | Some h => ret h
                  | None =>
                      raise (Exc TypeError
                               "expected str, bytes or os.PathLike object, not NoneType")
                  end;
       let CUDA_LIB64 := os_path_join home "lib64" in
       do super <- CUDAOpBuilder.cxx_args E;
       let args := args ++ super in
       ret (args ++ ["-L" +:+ CUDA_LIB64; "-lcudart"; "-lcublas"; "-g"])
     else ret args);
  do CPU_ARCH <- OpBuilder.cpu_arch E;
  do SIMD_WIDTH <- OpBuilder.simd_width E;
  do CUDA_ENABLE <- OpBuilder.is_cuda_enable E;
  ret (args ++ [CPU_ARCH; "-fopenmp"; SIMD_WIDTH; CUDA_ENABLE]).

(** The methods of an object whose class derives from [TorchCPUOpBuilder]
    and defines the two abstract methods only. *)
Definition class (E : env) (absolute_name : string) (sources : list string)
    : Virtual.table :=
  {| Virtual.is_CUDAOpBuilder := true;
     Virtual.absolute_name := ret absolute_name;
     Virtual.sources := ret sources;
     Virtual.include_paths := OpBuilder.include_paths;
     Virtual.nvcc_args := CUDAOpBuilder.nvcc_args E CUDAOpBuilder.filter_ccs;
     Virtual.cxx_args := cxx_args E;
     Virtual.is_compatible := CUDAOpBuilder.is_compatible;
     Virtual.extra_ldflags := extra_ldflags;
     Virtual.libraries_args := CUDAOpBuilder.libraries_args E |}.

End TorchCPUOpBuilder.

(** ** Vocabulary of the statements *)

(** [x in flags] for the flags of a CPU-info dictionary: a substring of a
    string, an element of a list. *)
Definition flag_in (x : string) (flags : value) : bool :=
  match flags with
  | VStr f => Py.contains f x
  | VList l => Py.mem x l
  | VNone => false
  end.

(** Between [s] and [s'] a line carrying the warning marker was printed. *)
Definition warned (s s' : state) : Prop :=
  ∃ pre msg post,
    out s' = out s ++ pre ++ Print (WARNING +:+ " " +:+ msg) :: post.

(** The pieces of [v] between separators, where a space and a semicolon
    both separate: the two conventions TORCH_CUDA_ARCH_LIST may use. *)
Fixpoint split_either (v : string) : list string :=
  match v with
  | EmptyString => [""]
  | String c v' =>
      if Ascii.eqb c " " || Ascii.eqb c ";" then "" :: split_either v'
      else match split_either v' with
           | [] => [String c ""]
           | w :: ws => String c w :: ws
           end
  end.

(** The first character of [cc] is strictly greater than '7'. *)
Definition first_char_above_7 (cc : string) : bool :=
  match Py.index cc 0 with
  | Some c => (nat_of_ascii "7" <? nat_of_ascii c)%nat
  | None => false
  end.

(** A method that leaves os.environ as it found it, however it ends. *)
Definition keeps_environ {A} (m : M A) : Prop :=
  ∀ s, environ (m s).2 = environ s.

(** A method that leaves [build_for_cpu] as it found it, however it ends. *)
Definition keeps_build_for_cpu {A} (m : M A) : Prop :=
  ∀ s, build_for_cpu (self (m s).2) = build_for_cpu (self s).

(** Every character of [s] is a decimal digit. *)
Fixpoint all_digits (s : string) : bool :=
  match s with
  | EmptyString => true
  | String c s' =>
      match Py.digit_value c with
      | Some _ => all_digits s'
      | None => false
      end
  end.

(** os.environ with TORCH_CUDA_ARCH_LIST blanked if it is there. *)
Definition blanked (e : gmap string string) : gmap string string :=
  match e !! "TORCH_CUDA_ARCH_LIST" with
  | Some _ => <["TORCH_CUDA_ARCH_LIST" := ""]> e
  | None => e
  end.

(** No entry of [l] is the empty string. *)
Definition no_empty_entry (l : list string) : Prop := "" ∉ l.

(** No list an extension is built from holds an empty entry. *)
Definition extension_stripped (ext : extension) : Prop :=
  no_empty_entry (ext_sources ext) ∧
  no_empty_entry (ext_include_dirs ext) ∧
  from_option no_empty_entry True (ext_libraries ext) ∧
  no_empty_entry (ext_cxx ext) ∧
  from_option no_empty_entry True (ext_nvcc ext) ∧
  no_empty_entry (ext_extra_link_args ext).

(** No list handed to [load] holds an empty entry. *)
Definition load_args_stripped (args : load_args) : Prop :=
  no_empty_entry (load_sources args) ∧
  no_empty_entry (load_extra_include_paths args) ∧
  no_empty_entry (load_extra_cflags args) ∧
  no_empty_entry (load_extra_cuda_cflags args) ∧
  no_empty_entry (load_extra_ldflags args).

(** None of the three calls of the [finally] block of [has_function]
    raises. *)
Definition cleanup_quiet (E : env) : Prop :=
  smoke E RestoreStderr = None ∧ smoke E CloseRedirect = None ∧
  smoke E Rmtree = None.

(** Among the events [evs] the compiler was called and did not raise, and
    the linker was called and did not raise. *)
Definition compiled_and_linked (E : env) (evs : list event) : Prop :=
  (∃ srcs dir pre, CompileCall srcs dir pre ∈ evs) ∧
  smoke E Compile = None ∧
  (∃ objs exe pre libs, LinkCall objs exe pre libs ∈ evs) ∧
  smoke E LinkExecutable = None.

(** The events of [s'] that [s] does not have yet. *)
Definition events_since (s s' : state) : list event :=
  drop (length (out s)) (out s').

(** What [has_function] holds of the temporary directory while it runs:
    none yet, or one that did not exist on entry. *)
Definition dirs_tracked (s0 s1 : state) (l : OpBuilder.locals) : Prop :=
  match OpBuilder.tempdir l with
  | None => dirs s1 = dirs s0
  | Some d => (d ∉ dirs s0) ∧ dirs s1 = {[d]} ∪ dirs s0
  end.

(** What [has_function] holds of the descriptor table while it runs: it is
    untouched, or the redirect file is open on a descriptor free on entry,
    and then possibly standard error is saved on another free descriptor
    and possibly redirected. *)
Definition fds_tracked (E : env) (s0 s1 : state) (l : OpBuilder.locals)
    : Prop :=
  match OpBuilder.filestderr l, OpBuilder.oldstderr l with
  | None, None => fds s1 = fds s0
  | Some f, None =>
      fds s0 !! f = None ∧ ∃ p, fds s1 = <[f := OnFile p]> (fds s0)
  | Some f, Some old =>
      fds s0 !! f = None ∧
      ∃ p t, let opened := <[f := OnFile p]> (fds s0) in
             opened !! 2%nat = Some t ∧ opened !! old = None ∧
             smoke E StderrFileno = None ∧
             (fds s1 = <[old := t]> opened ∨
              fds s1 = <[2%nat := OnFile p]> (<[old := t]> opened))
  | None, Some _ => False
  end.

(** What the [try] block of [has_function] leaves behind when it stops in
    [s1] with outcome [r] and locals [l], having started in [s0]. *)
Definition try_outcome (E : env) (s0 : state) (r : result bool)
    (l : OpBuilder.locals) (s1 : state) : Prop :=
  environ s1 = environ s0 ∧ self s1 = self s0 ∧
  dirs_tracked s0 s1 l ∧ fds_tracked E s0 s1 l ∧
  ∃ evs, out s1 = out s0 ++ evs ∧
         ((r = Return true ∧ compiled_and_linked E evs) ∨
          (∃ e, r = Raise e ∧ ¬ compiled_and_linked E evs)).

(** What [has_function] has given back when it returns in [s'] with locals
    [l], having been entered in [s]: standard error is open on what it was
    open on, the redirect file is closed, the temporary directory is gone
    and no other directory came or went, and no descriptor but the saved
    copy of standard error differs. *)
Definition released (s s' : state) (l : OpBuilder.locals) : Prop :=
  fds s' !! 2%nat = fds s !! 2%nat ∧
  (∀ f, OpBuilder.filestderr l = Some f → fds s' !! f = None) ∧
  (∀ d, OpBuilder.tempdir l = Some d → d ∉ dirs s') ∧
  dirs s' = dirs s ∧
  (∀ n, OpBuilder.oldstderr l ≠ Some n → fds s' !! n = fds s !! n).

(** py-cpuinfo does not answer: it is not importable, or its call raises. *)
Definition py_cpuinfo_fails (E : env) : Prop :=
  (∃ e, import_cpuinfo E = Raise e ∧ is_ImportError (exn_cls e) = true) ∨
  (import_cpuinfo E = Return tt ∧
   ∃ e, get_cpu_info E = Raise e ∧ is_Exception (exn_cls e) = true).

(** The output of lscpu names an Intel or an AMD processor. *)
Definition lscpu_x86 (result : string) : bool :=
  Py.contains result "genuineintel" || Py.contains result "authenticamd".

(** The arch the lscpu fallback reads off the lowered output of lscpu. *)
Definition lscpu_arch (result : string) : value :=
  if lscpu_x86 result then VStr "X86_64"
  else if Py.contains result "ppc64le" then VStr "PPC_"
  else VNone.

(** The flags the lscpu fallback reads off the lowered output of lscpu. *)
Definition lscpu_flags (result : string) : string :=
  if lscpu_x86 result
  then (if Py.contains result "avx512" then "avx512," else "") +:+
       (if Py.contains result "avx2" then "avx2" else "")
  else "".

(** A capability the loop of [compute_capability_args] can read: it has a
    third character and its first one is a decimal digit. *)
Definition capability_well_formed (cc : string) : bool :=
  (3 <=? String.length cc)%nat &&
  match Py.index cc 0 with
  | Some c => (48 <=? nat_of_ascii c)%nat && (nat_of_ascii c <=? 57)%nat
  | None => false
  end.

(** Neither CPU probe answers: py-cpuinfo is not importable or its call
    raises, and the shell does not find lscpu. *)
Definition cpu_probes_fail (E : env) : Prop :=
  ((∃ e, import_cpuinfo E = Raise e ∧ is_ImportError (exn_cls e) = true) ∨
   (import_cpuinfo E = Return tt ∧
    ∃ e, get_cpu_info E = Raise e ∧ is_Exception (exn_cls e) = true)) ∧
  type_found E "lscpu" = false.

(** ** A machine to run the methods on *)

(** A Linux host with CUDA 11.2, a torch built for CUDA 11.0, py-cpuinfo
    installed and two kinds of device. *)
Definition linux_box : env := {|
  sys_platform := "linux";
  CUDA_HOME := Some "/usr/local/cuda";
  nvcc_release := Return (11, 2)%Z;
  torch_version_cuda := Some "11.0";
  device_capabilities := [(8, 0)%Z; (7, 5)%Z; (8, 0)%Z];
  import_cpuinfo := Return tt;
  get_cpu_info :=
    Return {[ "arch" := VStr "X86_64"; "flags" := VList ["sse"; "avx2"] ]};
  type_found := fun _ => true;
  lscpu_output := Return "Vendor ID: GenuineIntel  Flags: sse avx2";
  import_ninja := Return tt;
  cpp_extension_load := fun a => Return (load_name a);
  build_duration := "1.5";
  package_root := "/site-packages/atorch";
  smoke := fun _ => None;
  mkdtemp_name := "/tmp/tmpq1w2e3";
  shlex_split := fun v => Return (Py.split " " v);
  compile_objects := ["/tmp/tmpq1w2e3/test.o"]
|}.

(** A host with no CUDA toolkit, no device, no py-cpuinfo and no lscpu. *)
Definition bare_box : env := {|
  sys_platform := "linux";
  CUDA_HOME := None;
  nvcc_release := Raise (Exc CalledProcessError "nvcc");
  torch_version_cuda := None;
  device_capabilities := [];
  import_cpuinfo := Raise (Exc ModuleNotFoundError "No module named 'cpuinfo'");
  get_cpu_info := Raise (Exc PlainException "unavailable");
  type_found := fun _ => false;
  lscpu_output := Raise (Exc CalledProcessError "lscpu");
  import_ninja := Return tt;
  cpp_extension_load := fun a => Return (load_name a);
  build_duration := "0.1";
  package_root := "/site-packages/atorch";
  smoke := fun st => match st with
                     | Compile => Some (Exc CompileError "cc failed")
                     | _ => None
                     end;
  mkdtemp_name := "/tmp/tmpz9y8x7";
  shlex_split := fun v => Return (Py.split " " v);
  compile_objects := []
|}.

(** An ARM host without CUDA and without py-cpuinfo, whose lscpu works. *)
Definition arm_box : env := {|
  sys_platform := "linux";
  CUDA_HOME := None;
  nvcc_release := Raise (Exc CalledProcessError "nvcc");
  torch_version_cuda := None;
  device_capabilities := [];
  import_cpuinfo := Raise (Exc ModuleNotFoundError "No module named 'cpuinfo'");
  get_cpu_info := Raise (Exc PlainException "unavailable");
  type_found := fun _ => true;
  lscpu_output := Return "Architecture: aarch64  Flags: fp asimd";
  import_ninja := Return tt;
  cpp_extension_load := fun a => Raise (Exc RuntimeError "Error building extension");
  build_duration := "0.1";
  package_root := "/site-packages/atorch";
  smoke := fun _ => None;
  mkdtemp_name := "/tmp/tmpz9y8x7";
  shlex_split := fun v => Return (Py.split " " v);
  compile_objects := []
|}.

(** A process with the three standard descriptors and an empty
    environment, holding a builder just constructed. *)
Definition fresh_process : state := {|
  self := OpBuilder_init "cpu_adam";
  environ := ∅;
  fds := {[ 0%nat := Terminal; 1%nat := Terminal; 2%nat := Terminal ]};
  dirs := ∅;
  out := []
|}.

(** The same process once [jit_load] has switched the builder to jit mode. *)
Definition jit_process : state := {|
  self := {| name := "cpu_adam"; jit_mode := true; build_for_cpu := false;
             enable_bf16 := false; error_log := None |};
  environ := ∅;
  fds := {[ 0%nat := Terminal; 1%nat := Terminal; 2%nat := Terminal ]};
  dirs := ∅;
  out := []
|}.

(** A process about to cross-compile with an architecture list in its
    environment. *)
Definition cross_process : state := {|
  self := OpBuilder_init "cpu_adam";
  environ := {[ "TORCH_CUDA_ARCH_LIST" := "6.0 6.1;7.5 8.6+PTX" ]};
  fds := {[ 0%nat := Terminal; 1%nat := Terminal; 2%nat := Terminal ]};
  dirs := ∅;
  out := []
|}.

(** * Properties *)

(** ** Python strings and lists *)

Lemma mem_elem_of (x : string) (l : list string) :
  Py.mem x l = true ↔ x ∈ l.
Proof.
  unfold Py.mem. rewrite existsb_exists. split.
  - intros (y & Hy & Heq). apply String.eqb_eq in Heq. subst y.
    by apply list_elem_of_In.
  - intros Hx. exists x. split; [by apply list_elem_of_In|].
    apply String.eqb_refl.
Qed.

Lemma eqb_false_iff (a b : string) : String.eqb a b = false ↔ a ≠ b.
Proof. apply String.eqb_neq. Qed.

(** ** Running a method step by step *)

Lemma bind_Return_inv {S A B} (m : St S A) (k : A → St S B) s b s' :
  bind m k s = (Return b, s') →
  ∃ a s1, m s = (Return a, s1) ∧ k a s1 = (Return b, s').
Proof.
  unfold bind. destruct (m s) as [[a|e] s1]; [|done]. intros Hk. by exists a, s1.
Qed.

Lemma bind_Return {S A B} (m : St S A) (k : A → St S B) s a s1 :
  m s = (Return a, s1) → bind m k s = k a s1.
Proof. unfold bind. by intros ->. Qed.

Lemma bind_Raise {S A B} (m : St S A) (k : A → St S B) s e s1 :
  m s = (Raise e, s1) → bind m k s = (Raise e, s1).
Proof. unfold bind. by intros ->. Qed.

(** ** C1: the CUDA version check *)

Section cuda_mismatch.
Context (E : env) (home : string) (cuda_major cuda_minor : Z)
  (torch_version : string).
Hypothesis Hhome : CUDA_HOME E = Some home.
Hypothesis Hnvcc : nvcc_release E = Return (cuda_major, cuda_minor).
Hypothesis Htorch : torch_version_cuda E = Some torch_version.

Lemma minor_mismatch_ok_spec (sys_v torch_v : string) :
  minor_mismatch_ok cuda_major sys_v torch_v = true ↔
  listed_together cuda_major sys_v torch_v.
Proof.
  unfold minor_mismatch_ok, listed_together.
  destruct (cuda_minor_mismatch_ok !! cuda_major) as [vs|].
  - rewrite andb_true_iff, !mem_elem_of. split.
    + intros [? ?]. by exists vs.
    + intros (vs' & Heq & ? & ?). by simplify_eq.
  - split; [done|]. by intros (vs' & Heq & _).
Qed.

(** C1.  When the toolkit and torch both report a version,
    [assert_no_cuda_mismatch] raises exactly when the two major.minor
    strings differ, they are not listed together under the installed major
    version, and ATORCH_SKIP_CUDA_CHECK is not "1"; when it does not raise
    it returns [True].  Installed 11.2 against torch 11.0 is accepted. *)
Theorem assert_no_cuda_mismatch_raises_iff (s : state) :
  let sys_v := dotted cuda_major cuda_minor in
  let torch_v := major_minor torch_version in
  let r := (assert_no_cuda_mismatch E s).1 in
  (is_raise r = true ↔
     sys_v ≠ torch_v ∧ ¬ listed_together cuda_major sys_v torch_v ∧
     environ s !! "ATORCH_SKIP_CUDA_CHECK" ≠ Some "1") ∧
  (is_raise r = false → r = Return true) ∧
  (cuda_major = 11%Z → cuda_minor = 2%Z → torch_version = "11.0" →
   r = Return true).
Proof.
  intros sys_v torch_v r.
  assert (Hr : r = if negb (String.eqb sys_v torch_v) then
                     if minor_mismatch_ok cuda_major sys_v torch_v
                     then Return true
                     else if String.eqb
                               (default "0"
                                  (environ s !! "ATORCH_SKIP_CUDA_CHECK")) "1"
                          then Return true
                          else Raise (Exc PlainException
                    (">- ATorch Op Builder: Installed CUDA version " +:+
                     sys_v +:+
                     " does not match the version torch was compiled with " +:+
                     torch_version +:+ ", unable to compile " +:+
                     "cuda/cpp extensions without a matching cuda version."))
                   else Return true).
  { subst r. unfold assert_no_cuda_mismatch, installed_cuda_version, torch_cuda.
    rewrite Hhome, Hnvcc, Htorch. unfold bind at 1 2. unfold of_result, ret at 1.
    fold sys_v torch_v.
    destruct (negb _); [|done].
    destruct (minor_mismatch_ok _ _ _); [done|].
    unfold getenv, bind, get_environ, ret. cbn [fst environ].
    by destruct (String.eqb _ "1"). }
  rewrite Hr. clear Hr r.
  split; [|split].
  - destruct (String.eqb sys_v torch_v) eqn:Heq; cbn [negb].
    { apply String.eqb_eq in Heq. split; [done|]. by intros [? _]. }
    apply eqb_false_iff in Heq.
    destruct (minor_mismatch_ok _ _ _) eqn:Hok.
    { apply minor_mismatch_ok_spec in Hok. split; [done|]. by intros (_ & ? & _). }
    assert (¬ listed_together cuda_major sys_v torch_v) as Hnl.
    { intros Hl. apply minor_mismatch_ok_spec in Hl. congruence. }
    destruct (String.eqb _ "1") eqn:Hskip.
    + apply String.eqb_eq in Hskip. split; [done|]. intros (_ & _ & Hne).
      destruct (environ s !! "ATORCH_SKIP_CUDA_CHECK"); by simplify_eq/=.
    + apply eqb_false_iff in Hskip. split; [|done]. intros _.
      split; [done|]. split; [done|]. intros Hs. rewrite Hs in Hskip. done.
  - destruct (negb _); [|done]. destruct (minor_mismatch_ok _ _ _); [done|].
    by destruct (String.eqb _ "1").
  - intros -> -> ->. subst sys_v torch_v. reflexivity.
Qed.

End cuda_mismatch.

Lemma assert_no_cuda_mismatch_raises_iff_witness :
  (assert_no_cuda_mismatch linux_box fresh_process).1 = Return true.
Proof.
  destruct (assert_no_cuda_mismatch_raises_iff linux_box "/usr/local/cuda"
              11 2 "11.0" eq_refl eq_refl eq_refl fresh_process)
    as (_ & _ & Hacc).
  by apply Hacc.
Defined.

(** ** C2: the SIMD width of a CPU-info dictionary *)

Lemma value_contains_flag_in (x : string) (flags : value) (s : state) :
  flags ≠ VNone →
  OpBuilder.value_contains x flags s = (Return (flag_in x flags), s).
Proof. by destruct flags. Qed.

(** C2.  For a CPU-info dictionary with an arch field (and, on X86_64, a
    flags field that is a string or a list), [simd_width] chooses AVX512
    when arch is X86_64 and the flags contain avx512 or avx512f, AVX256
    when arch is X86_64 and the flags contain avx2 but neither avx512 flag,
    and SCALAR in every other case; this is what [simd_width] returns when
    py-cpuinfo delivers the dictionary. *)
Theorem simd_width_of_cpu_info (E : env) (d : gmap string value)
    (arch flags : value) (s : state) :
  d !! "arch" = Some arch →
  (arch = VStr "X86_64" → d !! "flags" = Some flags ∧ flags ≠ VNone) →
  let x86_64 := bool_decide (arch = VStr "X86_64") in
  let width :=
    if x86_64 && (flag_in "avx512" flags || flag_in "avx512f" flags)
    then "-D__AVX512__"
    else if x86_64 && flag_in "avx2" flags then "-D__AVX256__"
    else "-D__SCALAR__" in
  OpBuilder.simd_width_of d s = (Return width, s) ∧
  (import_cpuinfo E = Return tt → get_cpu_info E = Return d →
   OpBuilder.simd_width E s = (Return width, s)).
Proof.
  intros Harch Hflags x86_64 width.
  assert (Hof : OpBuilder.simd_width_of d s = (Return width, s)).
  { unfold OpBuilder.simd_width_of, OpBuilder.getitem. rewrite Harch.
    unfold bind at 1. unfold ret at 1. subst width x86_64.
    case_bool_decide as Hx.
    - destruct (Hflags Hx) as [Hf Hnone]. subst arch. cbn [OpBuilder.value_eq].
      rewrite String.eqb_refl, Hf. unfold bind, ret.
      rewrite !value_contains_flag_in by done.
      destruct (flag_in "avx512" flags); [done|].
      rewrite !value_contains_flag_in by done.
      destruct (flag_in "avx512f" flags); [done|]. cbn [orb andb].
      rewrite !value_contains_flag_in by done.
      by destruct (flag_in "avx2" flags).
    - cbn [andb]. destruct arch as [|a|l]; try done. cbn [OpBuilder.value_eq].
      destruct (String.eqb a "X86_64") eqn:Ha; [|done].
      apply String.eqb_eq in Ha. by subst a. }
  split; [done|]. intros Himp Hget.
  unfold OpBuilder.simd_width, OpBuilder.probe_cpu, OpBuilder.call_get_cpu_info.
  unfold bind, try_except, of_result, ret. rewrite Himp, Hget. done.
Qed.

Lemma simd_width_of_cpu_info_witness :
  OpBuilder.simd_width linux_box fresh_process =
  (Return "-D__AVX256__", fresh_process).
Proof.
  refine (proj2 (simd_width_of_cpu_info linux_box
                   {[ "arch" := VStr "X86_64";
                      "flags" := VList ["sse"; "avx2"] ]}
                   (VStr "X86_64") (VList ["sse"; "avx2"]) fresh_process
                   eq_refl _) eq_refl eq_refl).
  intros _. split; [reflexivity | discriminate].
Defined.

(** The dictionaries the lscpu fallback builds are of that kind: they have
    an arch field and a flags field that is a string. *)
Lemma backup_cpuinfo_well_formed (E : env) (s : state)
    (d : gmap string value) (s' : state) :
  OpBuilder._backup_cpuinfo E s = (Return (Some d), s') →
  ∃ arch flags, d !! "arch" = Some arch ∧ d !! "flags" = Some (VStr flags).
Proof.
  unfold OpBuilder._backup_cpuinfo. intros H.
  apply bind_Return_inv in H as (found & s1 & _ & H).
  destruct found; cbn [negb] in H.
  - apply bind_Return_inv in H as (raw & s2 & _ & H).
    cbv zeta in H.
    destruct (_ || _); [|destruct (Py.contains _ "ppc64le")];
      injection H as <- _; eexists _, _;
      (split; [rewrite lookup_insert_ne by done|]; apply lookup_insert_eq).
  - apply bind_Return_inv in H as (b & s2 & _ & H).
    apply bind_Return_inv in H as (u & s3 & _ & H). done.
Qed.

(** ** C5: both CPU probes fail *)

Lemma warned_after (s s1 s2 : state) (evs : list event) :
  out s1 = out s ++ evs → warned s1 s2 → warned s s2.
Proof.
  intros Hout (pre & msg & post & Hw). exists (evs ++ pre), msg, post.
  rewrite Hw, Hout. by rewrite <- !app_assoc.
Qed.

Lemma backup_cpuinfo_missing (E : env) (s : state) :
  type_found E "lscpu" = false →
  ∃ s', OpBuilder._backup_cpuinfo E s = (Return None, s') ∧ warned s s'.
Proof.
  intros Hl. unfold OpBuilder._backup_cpuinfo, OpBuilder.command_exists.
  change (Py.contains "lscpu" "|") with false. cbv iota.
  cbn [fold_left length List.last orb]. rewrite Hl.
  cbn [negb andb Nat.ltb Nat.leb Nat.eqb].
  unfold OpBuilder.warning, bind, ret, get_self, print, emit, set_self.
  cbn [self out environ fds dirs name].
  eexists. split; [reflexivity|].
  unfold warned. cbn [out]. eexists [], _, [_].
  rewrite <- app_assoc. reflexivity.
Qed.

Lemma probe_cpu_fallback (E : env) (who fallback : string) (s : state) :
  cpu_probes_fail E →
  ∃ s', OpBuilder.probe_cpu E who fallback s = (Return (inl fallback), s') ∧
        warned s s'.
Proof.
  intros [[(e & Himp & Hcls)|(Himp & e & Hget & Hcls)] Hl];
    unfold OpBuilder.probe_cpu, OpBuilder.call_get_cpu_info.
  - unfold bind at 1. unfold try_except at 1. unfold bind at 1.
    unfold of_result at 1. rewrite Himp, Hcls.
    unfold bind at 1. unfold logger_error, emit at 1.
    unfold bind at 1.
    match goal with |- context [OpBuilder._backup_cpuinfo E ?s1] =>
      destruct (backup_cpuinfo_missing E s1 Hl) as (s' & Hb & Hw); rewrite Hb
    end.
    exists s'. split; [reflexivity|].
    eapply warned_after; [|exact Hw]. reflexivity.
  - unfold bind at 1. unfold try_except at 1. unfold bind at 1.
    unfold of_result at 1. rewrite Himp. unfold ret at 1.
    unfold try_except, bind at 1, of_result. rewrite Hget, Hcls.
    unfold bind at 1, get_self at 1. unfold bind at 1.
    unfold OpBuilder.warning at 1. unfold bind at 1, set_self at 1.
    unfold print, emit at 1.
    unfold bind at 1.
    match goal with |- context [OpBuilder._backup_cpuinfo E ?s1] =>
      destruct (backup_cpuinfo_missing E s1 Hl) as (s' & Hb & Hw); rewrite Hb
    end.
    exists s'. split; [reflexivity|].
    eapply warned_after; [|exact Hw]. reflexivity.
Qed.

(** C5.  When py-cpuinfo is unavailable or raises and lscpu is not found,
    [cpu_arch] returns "-march=native" and [simd_width] returns
    "-D__SCALAR__"; each prints a warning line first, and neither raises. *)
Theorem cpu_probes_fail_defaults (E : env) (s : state) :
  cpu_probes_fail E →
  (∃ s', OpBuilder.cpu_arch E s = (Return "-march=native", s') ∧
         warned s s') ∧
  (∃ s', OpBuilder.simd_width E s = (Return "-D__SCALAR__", s') ∧
         warned s s').
Proof.
  intros Hfail. split.
  - destruct (probe_cpu_fallback E "cpu_arch" "-march=native" s Hfail)
      as (s' & Hp & Hw).
    exists s'. split; [|done].
    unfold OpBuilder.cpu_arch, bind. by rewrite Hp.
  - destruct (probe_cpu_fallback E "simd_width" "-D__SCALAR__" s Hfail)
      as (s' & Hp & Hw).
    exists s'. split; [|done].
    unfold OpBuilder.simd_width, bind. by rewrite Hp.
Qed.

Lemma bare_box_probes_fail : cpu_probes_fail bare_box.
Proof. split; [left; eexists; split; reflexivity | reflexivity]. Defined.

Lemma cpu_probes_fail_defaults_witness :
  (∃ s', OpBuilder.cpu_arch bare_box fresh_process =
         (Return "-march=native", s') ∧ warned fresh_process s') ∧
  (∃ s', OpBuilder.simd_width bare_box fresh_process =
         (Return "-D__SCALAR__", s') ∧ warned fresh_process s').
Proof.
  exact (cpu_probes_fail_defaults bare_box fresh_process bare_box_probes_fail).
Defined.

(** ** C9: jit mode without a visible device *)

(** C9.  In jit mode with no visible device, [compute_capability_args]
    raises the IndexError of tagging the last entry of an empty list: it
    does not return, and the RuntimeError guarding an empty list after
    filtering is not what it raises. *)
Theorem compute_capability_args_no_device (E : env)
    (filter : list string → M (list string))
    (cross_compile_archs : option string) (s : state) :
  jit_mode (self s) = true →
  device_capabilities E = [] →
  let run :=
    CUDAOpBuilder.compute_capability_args E filter cross_compile_archs s in
  run = (Raise (Exc IndexError "list index out of range"), s) ∧
  (∀ args s', run ≠ (Return args, s')) ∧
  (∀ e s', run = (Raise e, s') → exn_cls e ≠ RuntimeError).
Proof.
  intros Hjit Hdev run.
  assert (Hrun : run = (Raise (Exc IndexError "list index out of range"), s)).
  { unfold run, CUDAOpBuilder.compute_capability_args,
      CUDAOpBuilder.selected_ccs.
    unfold bind at 1 2. unfold get_self at 1. rewrite Hjit.
    unfold bind at 1, CUDAOpBuilder.jit_ccs, CUDAOpBuilder.device_ccs.
    rewrite Hdev. reflexivity. }
  split; [done|]. rewrite Hrun. split; [done|].
  intros e s' [= <- _]. done.
Qed.

Lemma compute_capability_args_no_device_witness :
  CUDAOpBuilder.compute_capability_args bare_box CUDAOpBuilder.filter_ccs None
    jit_process =
  (Raise (Exc IndexError "list index out of range"), jit_process).
Proof.
  exact (proj1 (compute_capability_args_no_device bare_box
                  CUDAOpBuilder.filter_ccs None jit_process eq_refl eq_refl)).
Defined.
(** ** C3: the architecture list of a cross-compile *)

Lemma split_nonempty (sep : ascii) (v : string) : Py.split sep v ≠ [].
Proof.
  destruct v as [|c v]; [done|]. cbn [Py.split].
  destruct (Ascii.eqb c sep); [done|]. by destruct (Py.split sep v).
Qed.

Lemma split_replace_either (v : string) :
  Py.split ";" (Py.replace " " ";" v) = split_either v.
Proof.
  induction v as [|c v IH]; [done|].
  cbn [Py.replace Py.split split_either]. rewrite IH.
  destruct (Ascii.eqb c " ") eqn:Hsp; cbn [orb].
  - done.
  - done.
Qed.

Lemma selected_ccs_cross (E : env) (cross : option string) (s : state)
    (ccs : list string) (s1 : state) :
  jit_mode (self s) = false →
  CUDAOpBuilder.cross_compile_ccs E cross s = (Return ccs, s1) →
  ccs ≠ [] →
  CUDAOpBuilder.selected_ccs E CUDAOpBuilder.filter_ccs cross s =
  (Return ccs, s1).
Proof.
  intros Hjit Hcross Hne. unfold CUDAOpBuilder.selected_ccs.
  unfold bind at 1, get_self at 1. rewrite Hjit.
  rewrite (bind_Return _ _ _ _ _ Hcross).
  unfold CUDAOpBuilder.filter_ccs, bind, ret. by destruct ccs.
Qed.

(** The default string names Volta, then Ampere from CUDA 11 on, then Hopper
    from CUDA 11.8 on. *)
Lemma get_default_compute_capabilities_values (E : env) (s : state)
    (d : string) (s' : state) :
  get_default_compute_capabilities E s = (Return d, s') →
  s' = s ∧ d ∈ ["7.0"; "7.0;8.0"; "7.0;8.0;9.0"].
Proof.
  unfold get_default_compute_capabilities, installed_cuda_version.
  destruct (CUDA_HOME E) as [h|].
  - unfold bind, of_result. destruct (nvcc_release E) as [[a b]|e]; [|done].
    cbn [fst]. destruct (11 <=? a)%Z.
    + unfold version_ge_11_8. destruct (_ || _); [done|].
      unfold ret. destruct (_ || _); intros [= <- <-]; split; try done.
      all: set_solver.
    + intros [= <- <-]. split; [done|]. set_solver.
  - intros [= <- <-]. split; [done|]. set_solver.
Qed.

(** ** C8: bf16 follows the selected capabilities *)



(** ** Methods that leave os.environ alone *)

Lemma keeps_run {A} (m : M A) s r s1 :
  keeps_environ m → m s = (r, s1) → environ s1 = environ s.
Proof. intros Hk Hm. specialize (Hk s). by rewrite Hm in Hk. Qed.

Lemma keeps_ret {A} (a : A) : keeps_environ (ret a).
Proof. done. Qed.

Lemma keeps_raise {A} (e : exn) : keeps_environ (raise e : M A).
Proof. done. Qed.

Lemma keeps_of_result {A} (r : result A) : keeps_environ (of_result r).
Proof. done. Qed.

Lemma keeps_get_self : keeps_environ get_self.
Proof. done. Qed.

Lemma keeps_get_environ : keeps_environ get_environ.
Proof. done. Qed.

Lemma keeps_set_self f : keeps_environ (set_self f).
Proof. done. Qed.

Lemma keeps_emit ev : keeps_environ (emit ev).
Proof. done. Qed.

Lemma keeps_bind {A B} (m : M A) (k : A → M B) :
  keeps_environ m → (∀ a, keeps_environ (k a)) → keeps_environ (bind m k).
Proof.
  intros Hm Hk s. unfold bind. specialize (Hm s).
  destruct (m s) as [[a|e] s1]; [|done]. rewrite (Hk a s1). done.
Qed.

Lemma keeps_try_except {A} (m : M A) c (h : exn → M A) :
  keeps_environ m → (∀ e, keeps_environ (h e)) →
  keeps_environ (try_except m c h).
Proof.
  intros Hm Hh s. unfold try_except. specialize (Hm s).
  destruct (m s) as [[a|e] s1]; [done|].
  destruct (c (exn_cls e)); [|done]. rewrite (Hh e s1). done.
Qed.

Create HintDb frame.
#[local] Hint Resolve keeps_ret keeps_raise keeps_of_result keeps_get_self
  keeps_get_environ keeps_set_self keeps_emit : frame.

(** Split a method into its statements and close the leaves. *)
Ltac frame :=
  repeat first
    [ progress intros
    | solve [auto with frame]
    | apply keeps_bind
    | apply keeps_try_except
    | match goal with
      | |- keeps_environ (if ?b then _ else _) => destruct b
      | |- keeps_environ (match ?x with _ => _ end) => destruct x
      | |- keeps_environ (let _ := _ in _) => cbv zeta
      end ].

Lemma keeps_print line : keeps_environ (print line).
Proof. done. Qed.

Lemma keeps_getenv k d : keeps_environ (getenv k d).
Proof. unfold getenv. frame. Qed.

Lemma keeps_logger_error line : keeps_environ (logger_error line).
Proof. done. Qed.

Lemma keeps_warning msg : keeps_environ (OpBuilder.warning msg).
Proof. unfold OpBuilder.warning, print. frame. Qed.

#[local] Hint Resolve keeps_print keeps_getenv keeps_logger_error
  keeps_warning : frame.

Lemma keeps_installed_cuda_version E : keeps_environ (installed_cuda_version E).
Proof. unfold installed_cuda_version. frame. Qed.

#[local] Hint Resolve keeps_installed_cuda_version : frame.

Lemma keeps_assert_no_cuda_mismatch E :
  keeps_environ (assert_no_cuda_mismatch E).
Proof. unfold assert_no_cuda_mismatch, torch_cuda. frame. Qed.

Lemma keeps_get_default E : keeps_environ (get_default_compute_capabilities E).
Proof.
  unfold get_default_compute_capabilities, version_ge_11_8. frame.
Qed.

#[local] Hint Resolve keeps_assert_no_cuda_mismatch keeps_get_default : frame.

Lemma keeps_command_exists E cmd : keeps_environ (OpBuilder.command_exists E cmd).
Proof. unfold OpBuilder.command_exists. frame. Qed.

#[local] Hint Resolve keeps_command_exists : frame.

Lemma keeps_backup_cpuinfo E : keeps_environ (OpBuilder._backup_cpuinfo E).
Proof. unfold OpBuilder._backup_cpuinfo. frame. Qed.

#[local] Hint Resolve keeps_backup_cpuinfo : frame.

Lemma keeps_probe_cpu E who fb : keeps_environ (OpBuilder.probe_cpu E who fb).
Proof. unfold OpBuilder.probe_cpu, OpBuilder.call_get_cpu_info. frame. Qed.

#[local] Hint Resolve keeps_probe_cpu : frame.

Lemma keeps_cpu_arch E : keeps_environ (OpBuilder.cpu_arch E).
Proof.
  unfold OpBuilder.cpu_arch, OpBuilder.getitem, OpBuilder.value_startswith.
  frame.
Qed.

Lemma keeps_simd_width E : keeps_environ (OpBuilder.simd_width E).
Proof.
  unfold OpBuilder.simd_width, OpBuilder.simd_width_of, OpBuilder.getitem,
    OpBuilder.value_contains.
  frame.
Qed.

Lemma keeps_is_cuda_enable E : keeps_environ (OpBuilder.is_cuda_enable E).
Proof. unfold OpBuilder.is_cuda_enable. frame. Qed.

#[local] Hint Resolve keeps_cpu_arch keeps_simd_width keeps_is_cuda_enable
  : frame.

Lemma keeps_gencode ccs args : keeps_environ (CUDAOpBuilder.gencode ccs args).
Proof.
  revert args. induction ccs as [|cc ccs IH]; intros args; cbn [CUDAOpBuilder.gencode].
  - frame.
  - unfold CUDAOpBuilder.item, CUDAOpBuilder.int_of_char, set_enable_bf16.
    frame.
Qed.

#[local] Hint Resolve keeps_gencode : frame.

Lemma keeps_compute_capability_args E cross :
  keeps_environ
    (CUDAOpBuilder.compute_capability_args E CUDAOpBuilder.filter_ccs cross).
Proof.
  unfold CUDAOpBuilder.compute_capability_args, CUDAOpBuilder.selected_ccs,
    CUDAOpBuilder.jit_ccs, CUDAOpBuilder.cross_compile_ccs,
    CUDAOpBuilder.filter_ccs, set_enable_bf16.
  frame.
Qed.

#[local] Hint Resolve keeps_compute_capability_args : frame.

Lemma keeps_nvcc_args E :
  keeps_environ (CUDAOpBuilder.nvcc_args E CUDAOpBuilder.filter_ccs).
Proof. unfold CUDAOpBuilder.nvcc_args. frame. Qed.

Lemma keeps_TorchCPU_cxx_args E : keeps_environ (TorchCPUOpBuilder.cxx_args E).
Proof.
  unfold TorchCPUOpBuilder.cxx_args, CUDAOpBuilder.cxx_args. frame.
Qed.
(** ** C3: the architecture list of a cross-compile, in the flags *)

(** The loop over the capabilities reads and writes the builder only:
    from two states that hold the same builder it ends alike, with the
    same builder. *)
Lemma gencode_self_only (ccs : list string) :
  ∀ args s s', self s = self s' →
    (CUDAOpBuilder.gencode ccs args s).1 =
      (CUDAOpBuilder.gencode ccs args s').1 ∧
    self (CUDAOpBuilder.gencode ccs args s).2 =
      self (CUDAOpBuilder.gencode ccs args s').2.
Proof.
  induction ccs as [|cc ccs IH]; intros args s s' Hs; [done|].
  cbn [CUDAOpBuilder.gencode].
  unfold CUDAOpBuilder.item, CUDAOpBuilder.int_of_char, bind, ret, raise.
  destruct (Py.index cc 0) as [c0|]; [|done].
  destruct (Py.index cc 2) as [c2|]; [|done].
  destruct (_ && _); [|done].
  destruct (_ <=? 7)%Z.
  - apply IH. cbn. by rewrite Hs.
  - by apply IH.
Qed.

(** C3.  In cross-compile mode TORCH_CUDA_ARCH_LIST wins over the
    [cross_compile_archs] argument of [compute_capability_args].  When the
    variable is set to [v], the method is the loop that makes the flags,
    run over [v] with each space replaced by a semicolon and then split on
    semicolons, which is [v] cut at every space and every semicolon; the
    flags it returns or the exception it raises, the builder and the
    environment it leaves are the same whatever the argument is.  When the
    variable is unset, the method is that loop run over the split of the
    argument, or over the split of the default capability string when no
    argument is given, and it raises what
    [get_default_compute_capabilities] raises. *)
Theorem cross_compile_archs_priority (E : env) (cross : option string)
    (s : state) :
  jit_mode (self s) = false →
  (∀ v, environ s !! "TORCH_CUDA_ARCH_LIST" = Some v →
     Py.split ";" (Py.replace " " ";" v) = split_either v ∧
     (∃ s1, CUDAOpBuilder.selected_ccs E CUDAOpBuilder.filter_ccs cross s =
              (Return (Py.split ";" (Py.replace " " ";" v)), s1) ∧
            self s1 = self s ∧ environ s1 = environ s ∧
            CUDAOpBuilder.compute_capability_args E CUDAOpBuilder.filter_ccs
              cross s =
            CUDAOpBuilder.gencode (Py.split ";" (Py.replace " " ";" v)) []
              (set_enable_bf16 true s1).2) ∧
     (∀ cross',
        let run := CUDAOpBuilder.compute_capability_args E
                     CUDAOpBuilder.filter_ccs in
        (run cross' s).1 = (run cross s).1 ∧
        self (run cross' s).2 = self (run cross s).2 ∧
        environ (run cross' s).2 = environ (run cross s).2)) ∧
  (environ s !! "TORCH_CUDA_ARCH_LIST" = None →
     CUDAOpBuilder.selected_ccs E CUDAOpBuilder.filter_ccs None s =
       (do d <- get_default_compute_capabilities E; ret (Py.split ";" d)) s ∧
     CUDAOpBuilder.compute_capability_args E CUDAOpBuilder.filter_ccs None s =
       (do d <- get_default_compute_capabilities E;
        set_enable_bf16 true;;
        CUDAOpBuilder.gencode (Py.split ";" d) []) s ∧
     ∀ a,
       CUDAOpBuilder.selected_ccs E CUDAOpBuilder.filter_ccs (Some a) s =
         (Return (Py.split ";" a), s) ∧
       CUDAOpBuilder.compute_capability_args E CUDAOpBuilder.filter_ccs
         (Some a) s =
       CUDAOpBuilder.gencode (Py.split ";" a) [] (set_enable_bf16 true s).2).
Proof.
  intros Hjit.
  assert (Hset : ∀ v c, environ s !! "TORCH_CUDA_ARCH_LIST" = Some v →
            ∃ s1, CUDAOpBuilder.selected_ccs E CUDAOpBuilder.filter_ccs c s =
                    (Return (Py.split ";" (Py.replace " " ";" v)), s1) ∧
                  self s1 = self s ∧ environ s1 = environ s ∧
                  CUDAOpBuilder.compute_capability_args E
                    CUDAOpBuilder.filter_ccs c s =
                  CUDAOpBuilder.gencode
                    (Py.split ";" (Py.replace " " ";" v)) []
                    (set_enable_bf16 true s1).2).
  { intros v c Hv.
    assert (Hsel : ∃ s1,
              CUDAOpBuilder.selected_ccs E CUDAOpBuilder.filter_ccs c s =
                (Return (Py.split ";" (Py.replace " " ";" v)), s1) ∧
              self s1 = self s ∧ environ s1 = environ s).
    { destruct c as [a|].
      - eexists. split.
        + apply selected_ccs_cross; [done| |apply split_nonempty].
          unfold CUDAOpBuilder.cross_compile_ccs.
          unfold bind at 1, get_environ at 1.
          unfold OpBuilder.TORCH_CUDA_ARCH_LIST. rewrite Hv.
          reflexivity.
        + done.
      - exists s. split; [|done].
        apply selected_ccs_cross; [done| |apply split_nonempty].
        unfold CUDAOpBuilder.cross_compile_ccs.
        unfold bind at 1, get_environ at 1.
        unfold OpBuilder.TORCH_CUDA_ARCH_LIST. rewrite Hv. reflexivity. }
    destruct Hsel as (s1 & Hsel & Hself & Henv).
    exists s1. split; [exact Hsel|]. split; [exact Hself|].
    split; [exact Henv|].
    unfold CUDAOpBuilder.compute_capability_args.
    rewrite (bind_Return _ _ _ _ _ Hsel). reflexivity. }
  split.
  - intros v Hv. split; [apply split_replace_either|].
    split; [exact (Hset v cross Hv)|].
    intros cross' run.
    destruct (Hset v cross Hv) as (s1 & _ & Hself1 & _ & Hrun1).
    destruct (Hset v cross' Hv) as (s2 & _ & Hself2 & _ & Hrun2).
    unfold run. rewrite Hrun1, Hrun2.
    destruct (gencode_self_only (Py.split ";" (Py.replace " " ";" v)) []
                (set_enable_bf16 true s2).2 (set_enable_bf16 true s1).2)
      as [Hres Hself].
    { cbn. by rewrite Hself1, Hself2. }
    split; [exact Hres|]. split; [exact Hself|].
    rewrite <- Hrun1, <- Hrun2.
    by rewrite !(keeps_compute_capability_args E _ s).
  - intros Hv.
    assert (Hsel : CUDAOpBuilder.selected_ccs E CUDAOpBuilder.filter_ccs
                     None s =
                   (do d <- get_default_compute_capabilities E;
                    ret (Py.split ";" d)) s).
    { unfold CUDAOpBuilder.selected_ccs.
      unfold bind at 1, get_self at 1. rewrite Hjit.
      assert (Hc : CUDAOpBuilder.cross_compile_ccs E None s =
                   (do d <- get_default_compute_capabilities E;
                    ret (Py.split ";" d)) s).
      { unfold CUDAOpBuilder.cross_compile_ccs.
        unfold bind at 1, get_environ at 1.
        unfold OpBuilder.TORCH_CUDA_ARCH_LIST. by rewrite Hv. }
      unfold bind at 1. rewrite Hc.
      unfold bind.
      destruct (get_default_compute_capabilities E s) as [[d|e] s1]; [|done].
      unfold ret at 1. unfold CUDAOpBuilder.filter_ccs, ret at 1.
      pose proof (split_nonempty ";" d). by destruct (Py.split ";" d). }
    split; [exact Hsel|]. split.
    + unfold CUDAOpBuilder.compute_capability_args.
      unfold bind at 1. rewrite Hsel. unfold bind.
      by destruct (get_default_compute_capabilities E s) as [[d|e] s1].
    + intros a.
      assert (Ha : CUDAOpBuilder.selected_ccs E CUDAOpBuilder.filter_ccs
                     (Some a) s = (Return (Py.split ";" a), s)).
      { apply selected_ccs_cross; [done| |apply split_nonempty].
        unfold CUDAOpBuilder.cross_compile_ccs.
        unfold bind at 1, get_environ at 1.
        unfold OpBuilder.TORCH_CUDA_ARCH_LIST. by rewrite Hv. }
      split; [exact Ha|].
      unfold CUDAOpBuilder.compute_capability_args.
      rewrite (bind_Return _ _ _ _ _ Ha). reflexivity.
Qed.

Lemma cross_compile_archs_priority_witness :
  ∃ s',
    CUDAOpBuilder.compute_capability_args linux_box CUDAOpBuilder.filter_ccs
      (Some "7.0") cross_process =
    (Return ["-gencode=arch=compute_60,code=sm_60";
             "-gencode=arch=compute_61,code=sm_61";
             "-gencode=arch=compute_75,code=sm_75";
             "-gencode=arch=compute_86,code=sm_86";
             "-gencode=arch=compute_86,code=compute_86"], s').
Proof.
  destruct (proj1 (cross_compile_archs_priority linux_box (Some "7.0")
                     cross_process eq_refl) _ eq_refl)
    as (_ & (s1 & _ & _ & _ & Hrun) & _).
  eexists. rewrite Hrun. vm_compute. reflexivity.
Defined.

(** ** C10: jit_load and TORCH_CUDA_ARCH_LIST *)

Lemma blanked_lookup (e : gmap string string) :
  blanked e !! "TORCH_CUDA_ARCH_LIST" =
  (λ _, "") <$> (e !! "TORCH_CUDA_ARCH_LIST").
Proof.
  unfold blanked. destruct (e !! "TORCH_CUDA_ARCH_LIST") eqn:He.
  - by rewrite lookup_insert_eq.
  - by rewrite He.
Qed.

Lemma restore_blanked (e : gmap string string) :
  (if OpBuilder.truthy (e !! "TORCH_CUDA_ARCH_LIST")
   then <["TORCH_CUDA_ARCH_LIST" := default "" (e !! "TORCH_CUDA_ARCH_LIST")]>
          (blanked e)
   else blanked e) = e.
Proof.
  unfold blanked, OpBuilder.truthy.
  destruct (e !! "TORCH_CUDA_ARCH_LIST") as [v|] eqn:He; [|done].
  destruct (String.eqb v "") eqn:Hv; cbn [negb default].
  - apply String.eqb_eq in Hv. subst v. by apply insert_id.
  - rewrite insert_insert_eq. by apply insert_id.
Qed.

Section jit_load_environ.
Context (E : env) (k : Virtual.table) (verbose : bool).
Hypothesis Hcompat : keeps_environ (Virtual.is_compatible k verbose).
Hypothesis Hsources : keeps_environ (Virtual.sources k).
Hypothesis Hinclude : keeps_environ (Virtual.include_paths k).
Hypothesis Hnvcc : keeps_environ (Virtual.nvcc_args k).
Hypothesis Hcxx : keeps_environ (Virtual.cxx_args k).
Hypothesis Hld : keeps_environ (Virtual.extra_ldflags k).

(** C10.  When every method [jit_load] calls on the builder leaves
    os.environ alone, a [jit_load] that returns leaves os.environ as it was
    on entry: TORCH_CUDA_ARCH_LIST, if set, is blank in the environment the
    build call runs under and has its value back at the return; if unset,
    it is absent from both. *)
Theorem jit_load_restores_arch_list (s : state) (m : string) (s' : state) :
  OpBuilder.jit_load E k verbose s = (Return m, s') →
  environ s' = environ s ∧
  ∃ pre args post,
    out s' = pre ++ Load args (blanked (environ s)) :: post ∧
    Forall (λ ev, ∃ line, ev = Print line) post ∧
    blanked (environ s) !! "TORCH_CUDA_ARCH_LIST" =
      (λ _, "") <$> (environ s !! "TORCH_CUDA_ARCH_LIST").
Proof.
  unfold OpBuilder.jit_load. intros H.
  apply bind_Return_inv in H as (compatible & s1 & H1 & H).
  apply (keeps_run _ _ _ _ Hcompat) in H1.
  apply bind_Return_inv in H as (b & s2 & [= <- <-] & H).
  apply bind_Return_inv in H as ([] & s3 & H3 & H).
  assert (s3 = s1) as ->
    by (destruct (negb compatible); cbv [raise ret] in H3; by simplify_eq).
  clear H3.
  apply bind_Return_inv in H as ([] & s4 & H4 & H).
  eapply keeps_run in H4; [|by frame].
  apply bind_Return_inv in H as ([] & s5 & H5 & H).
  eapply keeps_run in H5; [|by unfold set_build_for_cpu; frame].
  apply bind_Return_inv in H as ([] & s6 & H6 & H).
  eapply keeps_run in H6; [|by unfold set_jit_mode; frame].
  apply bind_Return_inv in H as (srcs & s7 & H7 & H).
  apply (keeps_run _ _ _ _ Hsources) in H7.
  apply bind_Return_inv in H as (incs & s8 & H8 & H).
  apply (keeps_run _ _ _ _ Hinclude) in H8.
  assert (Henv8 : environ s8 = environ s) by congruence.
  clear H1 H4 H5 H6 H7 H8.
  apply bind_Return_inv in H as (environ0 & s9 & [= <- <-] & H).
  apply bind_Return_inv in H as ([] & s10 & H10 & H).
  assert (Henv10 : environ s10 = blanked (environ s)).
  { unfold blanked. unfold OpBuilder.TORCH_CUDA_ARCH_LIST in H10.
    rewrite <- Henv8.
    destruct (environ s8 !! "TORCH_CUDA_ARCH_LIST"); by injection H10 as <-. }
  clear H10.
  apply bind_Return_inv in H as (nvcc & s11 & H11 & H).
  apply (keeps_run _ _ _ _ Hnvcc) in H11.
  apply bind_Return_inv in H as (cxx & s12 & H12 & H).
  apply (keeps_run _ _ _ _ Hcxx) in H12.
  apply bind_Return_inv in H as (b' & s13 & [= <- <-] & H).
  apply bind_Return_inv in H as (ld & s14 & H14 & H).
  apply (keeps_run _ _ _ _ Hld) in H14.
  assert (Henv14 : environ s14 = blanked (environ s)) by congruence.
  clear H11 H12 H14 Henv10.
  apply bind_Return_inv in H as (environ1 & s15 & [= <- <-] & H).
  apply bind_Return_inv in H as ([] & s16 & [= <-] & H).
  apply bind_Return_inv in H as (op_module & s17 & H17 & H).
  unfold of_result in H17. injection H17 as _ <-.
  apply bind_Return_inv in H as (b'' & s18 & [= <- <-] & H).
  apply bind_Return_inv in H as ([] & s19 & H19 & H).
  apply bind_Return_inv in H as ([] & s20 & H20 & H).
  injection H as _ <-.
  rewrite Henv14 in *. rewrite Henv8 in *.
  split.
  - etrans; [|apply restore_blanked].
    unfold OpBuilder.TORCH_CUDA_ARCH_LIST in H20.
    destruct (OpBuilder.truthy _); injection H20 as <-; cbn [environ].
    all: destruct verbose; injection H19 as <-; reflexivity.
  - eexists (out s14), _, (if verbose then [_] else []).
    split; [|split; [|apply blanked_lookup]].
    + unfold OpBuilder.TORCH_CUDA_ARCH_LIST in H20.
      destruct (OpBuilder.truthy _); injection H20 as <-; cbn [out].
      all: destruct verbose; injection H19 as <-; cbn [out].
      all: by rewrite <- ?app_assoc.
    + destruct verbose; repeat constructor. by eexists.
Qed.

End jit_load_environ.

(** The methods of the two classes of the module leave os.environ alone. *)
Lemma TorchCPUOpBuilder_class_keeps_environ (E : env) (nm : string)
    (srcs : list string) (verbose : bool) :
  let k := TorchCPUOpBuilder.class E nm srcs in
  keeps_environ (Virtual.is_compatible k verbose) ∧
  keeps_environ (Virtual.sources k) ∧
  keeps_environ (Virtual.include_paths k) ∧
  keeps_environ (Virtual.nvcc_args k) ∧
  keeps_environ (Virtual.cxx_args k) ∧
  keeps_environ (Virtual.extra_ldflags k).
Proof.
  cbn. repeat split; try done.
  - apply keeps_nvcc_args.
  - apply keeps_TorchCPU_cxx_args.
  - unfold TorchCPUOpBuilder.extra_ldflags. frame.
Qed.

Lemma CUDAOpBuilder_class_keeps_environ (E : env) (nm : string)
    (srcs : list string) (verbose : bool) :
  let k := CUDAOpBuilder.class E nm srcs in
  keeps_environ (Virtual.is_compatible k verbose) ∧
  keeps_environ (Virtual.sources k) ∧
  keeps_environ (Virtual.include_paths k) ∧
  keeps_environ (Virtual.nvcc_args k) ∧
  keeps_environ (Virtual.cxx_args k) ∧
  keeps_environ (Virtual.extra_ldflags k).
Proof.
  cbn. repeat split; try done.
  - apply keeps_nvcc_args.
  - unfold CUDAOpBuilder.cxx_args. frame.
Qed.

Lemma jit_load_restores_arch_list_witness :
  ∃ m s',
    OpBuilder.jit_load linux_box
      (TorchCPUOpBuilder.class linux_box "atorch.ops.cpu_adam" ["cpu_adam.cpp"])
      true cross_process = (Return m, s') ∧
    environ s' !! "TORCH_CUDA_ARCH_LIST" = Some "6.0 6.1;7.5 8.6+PTX" ∧
    ∃ pre args post,
      out s' = pre ++ Load args (blanked (environ cross_process)) :: post.
Proof.
  pose proof (TorchCPUOpBuilder_class_keeps_environ linux_box
                "atorch.ops.cpu_adam" ["cpu_adam.cpp"] true)
    as (K1 & K2 & K3 & K4 & K5 & K6).
  eexists _, _. split; [vm_compute; reflexivity|].
  edestruct (jit_load_restores_arch_list linux_box _ true K1 K2 K3 K4 K5 K6
               cross_process) as (Henv & pre & args & post & Hout & _ & _);
    [vm_compute; reflexivity|].
  split.
  - rewrite Henv. reflexivity.
  - exists pre, args, post. exact Hout.
Defined.
(** ** What jit_load hands to the build *)

(** A [jit_load] that returns has called [load] once, after its last call
    of a method of the builder, with flag lists made of the stripped
    results of [cxx_args] and [nvcc_args] and of the bf16 flag. *)
Lemma jit_load_Return_inv (E : env) (k : Virtual.table) (verbose : bool)
    (s : state) (m : string) (s' : state) :
  OpBuilder.jit_load E k verbose s = (Return m, s') →
  ∃ s1 s2 s3 srcs incs nvcc cxx ld,
    Virtual.cxx_args k s1 = (Return cxx, s2) ∧
    Virtual.extra_ldflags k s2 = (Return ld, s3) ∧
    self s' = self s3 ∧
    let bf16 := Virtual.is_CUDAOpBuilder k && negb (build_for_cpu (self s2))
                && enable_bf16 (self s2) in
    let args :=
      {| load_name := name (self s2);
         load_sources :=
           OpBuilder.strip_empty_entries (map (OpBuilder.atorch_src_path E) srcs);
         load_extra_include_paths :=
           OpBuilder.strip_empty_entries (map (OpBuilder.atorch_src_path E) incs);
         load_extra_cflags :=
           OpBuilder.strip_empty_entries cxx ++
           (if bf16 then ["-DBF16_AVAILABLE"] else []);
         load_extra_cuda_cflags :=
           OpBuilder.strip_empty_entries nvcc ++
           (if bf16 then ["-DBF16_AVAILABLE"] else []);
         load_extra_ldflags := OpBuilder.strip_empty_entries ld;
         load_verbose := verbose |} in
    ∃ post,
      out s' = out s3 ++ Load args (environ s3) :: post ∧
      Forall (λ ev, ∃ line, ev = Print line) post.
Proof.
  unfold OpBuilder.jit_load. intros H.
  apply bind_Return_inv in H as (compatible & s1 & _ & H).
  apply bind_Return_inv in H as (b & ? & [= <- <-] & H).
  apply bind_Return_inv in H as ([] & s3 & _ & H).
  apply bind_Return_inv in H as ([] & s4 & _ & H).
  apply bind_Return_inv in H as ([] & s5 & _ & H).
  apply bind_Return_inv in H as ([] & s6 & _ & H).
  apply bind_Return_inv in H as (srcs & s7 & _ & H).
  apply bind_Return_inv in H as (incs & s8 & _ & H).
  apply bind_Return_inv in H as (environ0 & s9 & [= <- <-] & H).
  apply bind_Return_inv in H as ([] & s10 & _ & H).
  apply bind_Return_inv in H as (nvcc & s11 & _ & H).
  apply bind_Return_inv in H as (cxx & s12 & Hcxx & H).
  apply bind_Return_inv in H as (b' & ? & [= <- <-] & H).
  apply bind_Return_inv in H as (ld & s14 & Hld & H).
  apply bind_Return_inv in H as (environ1 & ? & [= <- <-] & H).
  apply bind_Return_inv in H as ([] & s16 & [= <-] & H).
  apply bind_Return_inv in H as (op_module & s17 & H17 & H).
  unfold of_result in H17. injection H17 as _ <-.
  apply bind_Return_inv in H as (b'' & ? & [= <- <-] & H).
  apply bind_Return_inv in H as ([] & s19 & H19 & H).
  apply bind_Return_inv in H as ([] & s20 & H20 & H).
  injection H as _ <-.
  exists s11, s12, s14, srcs, incs, nvcc, cxx, ld.
  split; [done|]. split; [done|].
  assert (Hs19 : self s19 = self s14 ∧
                 ∃ post, out s19 = out s14 ++ [Load
             {|
               load_name := name (self s12);
               load_sources :=
                 OpBuilder.strip_empty_entries
                   (map (OpBuilder.atorch_src_path E) srcs);
               load_extra_include_paths :=
                 OpBuilder.strip_empty_entries
                   (map (OpBuilder.atorch_src_path E) incs);
               load_extra_cflags :=
                 if
                  Virtual.is_CUDAOpBuilder k &&
                  negb (build_for_cpu (self s12)) &&
                  enable_bf16 (self s12)
                 then
                  OpBuilder.strip_empty_entries cxx ++ ["-DBF16_AVAILABLE"]
                 else OpBuilder.strip_empty_entries cxx;
               load_extra_cuda_cflags :=
                 if
                  Virtual.is_CUDAOpBuilder k &&
                  negb (build_for_cpu (self s12)) &&
                  enable_bf16 (self s12)
                 then
                  OpBuilder.strip_empty_entries nvcc ++ ["-DBF16_AVAILABLE"]
                 else OpBuilder.strip_empty_entries nvcc;
               load_extra_ldflags := OpBuilder.strip_empty_entries ld;
               load_verbose := verbose
             |} (environ s14)] ++ post ∧
                   Forall (λ ev, ∃ line, ev = Print line) post).
  { destruct verbose; injection H19 as <-; cbn [self out]; (split; [done|]).
    - eexists [_]. split; [by rewrite <- app_assoc|].
      repeat constructor. by eexists.
    - exists []. split; [by rewrite app_nil_r|]. constructor. }
  destruct Hs19 as (Hself & post & Hout & Hpost).
  assert (self s20 = self s19 ∧ out s20 = out s19) as [-> ->].
  { destruct (OpBuilder.truthy _); by injection H20 as <-. }
  split; [done|]. exists post. split; [|done].
  rewrite Hout. cbn [app].
  by destruct (_ && _ && _); rewrite ?app_nil_r.
Qed.
Lemma CUDA_cxx_args_Return (E : env) (s : state) (cxx : list string)
    (s' : state) :
  CUDAOpBuilder.cxx_args E s = (Return cxx, s') →
  s' = s ∧ OpBuilder.strip_empty_entries cxx = cxx ∧
  "-DBF16_AVAILABLE" ∉ cxx.
Proof.
  unfold CUDAOpBuilder.cxx_args.
  destruct (String.eqb _ _); intros [= <- <-]; repeat split; try done.
  all: intros Hin; repeat (apply elem_of_cons in Hin as [Hin|Hin]; [done|]).
  all: by apply elem_of_nil in Hin.
Qed.



(** ** C7: flag lists are stripped, not deduplicated *)

Lemma strip_empty_entries_elem_of (l : list string) (x : string) :
  x ∈ OpBuilder.strip_empty_entries l ↔ x ∈ l ∧ x ≠ "".
Proof.
  unfold OpBuilder.strip_empty_entries. rewrite list_elem_of_filter.
  split; intros [H1 H2]; split; try done.
  - intros ->. cbn in H1. lia.
  - destruct x; [done|]. cbn. lia.
Qed.

Lemma strip_empty_entries_no_empty (l : list string) :
  no_empty_entry (OpBuilder.strip_empty_entries l).
Proof. intros [_ H]%strip_empty_entries_elem_of. done. Qed.

Lemma no_empty_entry_app (l1 l2 : list string) :
  no_empty_entry l1 → no_empty_entry l2 → no_empty_entry (l1 ++ l2).
Proof. unfold no_empty_entry. rewrite elem_of_app. tauto. Qed.

Lemma no_empty_entry_bf16 (l : list string) (b : bool) :
  no_empty_entry l →
  no_empty_entry (if b then l ++ ["-DBF16_AVAILABLE"] else l).
Proof.
  intros Hl. destruct b; [|done]. apply no_empty_entry_app; [done|].
  intros Hin. apply list_elem_of_singleton in Hin. done.
Qed.

(** The flag list of a [TorchCPUOpBuilder] on a CUDA host names "-g" twice,
    and that list reaches the extension unchanged. *)
Lemma cxx_args_repeats_a_flag :
  ∃ l s',
    TorchCPUOpBuilder.cxx_args linux_box fresh_process = (Return l, s') ∧
    ¬ NoDup l ∧
    ∃ ext s'',
      CUDAOpBuilder.builder linux_box
        (TorchCPUOpBuilder.class linux_box "atorch.ops.cpu_adam"
           ["cpu_adam.cpp"]) fresh_process = (Return ext, s'') ∧
      ext_cxx ext = l.
Proof.
  eexists _, _. split; [vm_compute; reflexivity|]. split.
  - intros Hnd. apply NoDup_cons in Hnd as [_ Hnd].
    apply NoDup_cons in Hnd as [_ Hnd]. apply NoDup_cons in Hnd as [Hg _].
    apply Hg. do 4 right. left.
  - eexists _, _. split; vm_compute; reflexivity.
Qed.

(** C7, amended.  [strip_empty_entries] returns exactly the non-empty
    entries of its input, in order, and every list the builders hand to the
    extension constructors and to [load] has gone through it: none holds an
    empty entry.  Nothing removes repeated flags. *)
Theorem flag_lists_stripped :
  (∀ l, OpBuilder.strip_empty_entries l = filter (λ x, x ≠ "") l ∧
        OpBuilder.strip_empty_entries l `sublist_of` l ∧
        ∀ x, x ∈ OpBuilder.strip_empty_entries l ↔ x ∈ l ∧ x ≠ "") ∧
  (∀ E k s ext s',
     OpBuilder.builder E k s = (Return ext, s') → extension_stripped ext) ∧
  (∀ E k s ext s',
     CUDAOpBuilder.builder E k s = (Return ext, s') → extension_stripped ext) ∧
  (∀ E k verbose s m s',
     OpBuilder.jit_load E k verbose s = (Return m, s') →
     ∃ pre args environ_then post,
       out s' = pre ++ Load args environ_then :: post ∧
       Forall (λ ev, ∃ line, ev = Print line) post ∧
       load_args_stripped args).
Proof.
  split; [|split; [|split]].
  - intros l. split; [|split].
    + unfold OpBuilder.strip_empty_entries. apply list_filter_iff.
      intros x. destruct x; cbn; split; try done; lia.
    + apply sublist_filter.
    + apply strip_empty_entries_elem_of.
  - intros E k s ext s'. unfold OpBuilder.builder. intros H.
    apply bind_Return_inv in H as (srcs & s1 & _ & H).
    apply bind_Return_inv in H as (incs & s2 & _ & H).
    apply bind_Return_inv in H as (nm & s3 & _ & H).
    apply bind_Return_inv in H as (cxx & s4 & _ & H).
    apply bind_Return_inv in H as (ld & s5 & _ & H).
    injection H as <- <-.
    repeat split; cbn; try done; apply strip_empty_entries_no_empty.
  - intros E k s ext s'. unfold CUDAOpBuilder.builder. intros H.
    apply bind_Return_inv in H as ([] & s1 & _ & H).
    apply bind_Return_inv in H as (b & ? & [= <- <-] & H).
    apply bind_Return_inv in H as (cxx & s2 & _ & H).
    apply bind_Return_inv in H as (nvcc & s3 & Hnvcc & H).
    apply bind_Return_inv in H as (b' & ? & [= <- <-] & H).
    apply bind_Return_inv in H as (srcs & s4 & _ & H).
    apply bind_Return_inv in H as (incs & s5 & _ & H).
    apply bind_Return_inv in H as (nm & s6 & _ & H).
    apply bind_Return_inv in H as (libs & s7 & _ & H).
    apply bind_Return_inv in H as (ld & s8 & _ & H).
    injection H as <- <-.
    repeat split; cbn [ext_sources ext_include_dirs ext_libraries ext_cxx
                       ext_nvcc ext_extra_link_args from_option];
      try apply strip_empty_entries_no_empty.
    + apply no_empty_entry_bf16, strip_empty_entries_no_empty.
    + destruct (build_for_cpu (self s1)).
      * by injection Hnvcc as <- _.
      * apply bind_Return_inv in Hnvcc as (l & ? & _ & [= <- _]).
        apply strip_empty_entries_no_empty.
  - intros E k verbose s m s' H.
    apply jit_load_Return_inv in H
      as (s1 & s2 & s3 & srcs & incs & nvcc & cxx & ld & _ & _ & _ &
          post & Hout & Hpost).
    eexists _, _, _, post. split; [exact Hout|]. split; [done|].
    repeat split; cbn; try apply strip_empty_entries_no_empty.
    all: apply no_empty_entry_app; [apply strip_empty_entries_no_empty|].
    all: destruct (_ && _ && _); intros Hin.
    all: try (by apply elem_of_nil in Hin).
    all: by apply list_elem_of_singleton in Hin.
Qed.

Lemma flag_lists_stripped_witness :
  ∃ ext s',
    CUDAOpBuilder.builder linux_box
      (TorchCPUOpBuilder.class linux_box "atorch.ops.cpu_adam" ["cpu_adam.cpp"])
      fresh_process = (Return ext, s') ∧
    extension_stripped ext.
Proof.
  eexists _, _. split; [vm_compute; reflexivity|].
  eapply (proj1 (proj2 (proj2 flag_lists_stripped)) linux_box
            (TorchCPUOpBuilder.class linux_box "atorch.ops.cpu_adam"
               ["cpu_adam.cpp"]) fresh_process).
  vm_compute; reflexivity.
Defined.
(** ** C4, C6: the smoke test *)

Lemma lowest_unused_fresh (t : gmap nat target) : t !! lowest_unused t = None.
Proof.
  unfold lowest_unused.
  destruct (list_find _ _) as [[i n]|] eqn:Hfind.
  - apply list_find_Some in Hfind as (_ & Hn & _). done.
  - apply not_elem_of_dom, is_fresh.
Qed.

Lemma lift_call {L} (E : env) (st : step) (l : L) (s : state) :
  OpBuilder.lift (call E st) (l, s) =
  (match smoke E st with Some e => Raise e | None => Return tt end, (l, s)).
Proof. unfold OpBuilder.lift, call. cbn. by destruct (smoke E st). Qed.

(** [evs] is a literal list without the event [compiled_and_linked] needs,
    or one of the two calls raised. *)
Ltac not_compiled_and_linked :=
  let Hc := fresh in let Hl := fresh in
  intros [(? & ? & ? & Hc) [? [(? & ? & ? & ? & Hl) ?]]];
  first
    [ congruence
    | repeat (apply elem_of_cons in Hc as [Hc|Hc]; [discriminate|]);
      by apply elem_of_nil in Hc
    | repeat (apply elem_of_cons in Hl as [Hl|Hl]; [discriminate|]);
      by apply elem_of_nil in Hl ].

Ltac events_so_far :=
  cbn [out];
  first [ symmetry; apply app_nil_r | rewrite <- ?app_assoc; reflexivity ].

(** The [try] block stopped on an exception: read the outcome off the
    state reached. *)
Ltac stopped :=
  eexists _, _, _; (split; [reflexivity|]);
  unfold try_outcome, dirs_tracked, fds_tracked;
  cbn [OpBuilder.tempdir OpBuilder.filestderr OpBuilder.oldstderr
       OpBuilder.no_locals fst snd environ self dirs fds];
  (split; [reflexivity|]); (split; [reflexivity|]).

Ltac run_call X :=
  unfold bind at 1; rewrite (lift_call _ X);
  let e := fresh "e" in let H := fresh "H" X in
  destruct (smoke _ X) as [e|] eqn:H; cbv beta iota.

(** Close a stopped run whose descriptor table is untouched or holds the
    redirect file only. *)
Ltac stopped_simply :=
  stopped;
  (split; [first [reflexivity | split; [assumption | reflexivity]]|]);
  (split; [first [reflexivity
                 | split; [apply lowest_unused_fresh | eexists; reflexivity]]|]);
  eexists; (split; [events_so_far|]);
  right; eexists; (split; [reflexivity|]); not_compiled_and_linked.

Ltac tidy :=
  cbv beta iota;
  cbn [fst snd self environ fds dirs out OpBuilder.tempdir
       OpBuilder.filestderr OpBuilder.oldstderr OpBuilder.no_locals].

(** One statement of the [try] block: a guarded outside call, an event, a
    read of the environment, a call of [shlex.split]. *)
Ltac run_guarded X :=
  unfold bind at 1; unfold OpBuilder.lift at 1; unfold bind at 1;
  unfold call at 1; cbn [fst snd];
  let e := fresh "e" in let H := fresh "H" X in
  destruct (smoke _ X) as [e|] eqn:H; tidy.

Ltac run_emit :=
  unfold bind at 1; unfold OpBuilder.lift at 1; unfold emit at 1; tidy.

Ltac run_getenv :=
  unfold bind at 1; unfold OpBuilder.lift at 1; unfold getenv at 1;
  unfold bind at 1; unfold get_environ at 1; unfold ret at 1; tidy.

Ltac run_shlex :=
  unfold bind at 1; unfold OpBuilder.lift at 1; unfold of_result at 1;
  let fl := fresh "flags" in let e := fresh "e" in
  destruct (shlex_split _ _) as [fl|e]; tidy.

Ltac event_in_list := apply list_elem_of_In; cbn; eauto 10.

(** From the writing of the test program to the end of the block, when
    the descriptor part of the outcome is closed by [fdsok]. *)
Ltac run_compile_and_link fdsok :=
  run_getenv; run_shlex;
  [ run_emit; run_call Compile;
    [ stopped; (split; [by split|]); (split; [fdsok|]);
      eexists; (split; [events_so_far|]);
      right; eexists; (split; [reflexivity|]); not_compiled_and_linked
    | run_getenv; run_shlex;
      [ run_emit; run_call LinkExecutable;
        [ stopped; (split; [by split|]); (split; [fdsok|]);
          eexists; (split; [events_so_far|]);
          right; eexists; (split; [reflexivity|]); not_compiled_and_linked
        | stopped; (split; [by split|]); (split; [fdsok|]);
          eexists; (split; [events_so_far|]);
          left; (split; [reflexivity|]);
          (split; [eexists _, _, _; event_in_list|]);
          (split; [assumption|]);
          (split; [eexists _, _, _, _; event_in_list|assumption]) ]
      | stopped; (split; [by split|]); (split; [fdsok|]);
        eexists; (split; [events_so_far|]);
        right; eexists; (split; [reflexivity|]); not_compiled_and_linked ] ]
  | stopped; (split; [by split|]); (split; [fdsok|]);
    eexists; (split; [events_so_far|]);
    right; eexists; (split; [reflexivity|]); not_compiled_and_linked ].

Lemma has_function_try_outcome (E : env) (funcname : string)
    (libraries : list string) (verbose : bool) (s0 : state) :
  ∃ r l s1,
    OpBuilder.has_function_try E funcname libraries verbose
      (OpBuilder.no_locals, s0) = (r, (l, s1)) ∧
    try_outcome E s0 r l s1.
Proof.
  unfold OpBuilder.has_function_try.
  destruct verbose; cbn [negb].
  - run_guarded SetVerbosity. { stopped_simply. }
    unfold ret at 1, emit at 1. tidy.
    run_call NewCompiler. { stopped_simply. }
    run_call CustomizeCompiler. { stopped_simply. }
    unfold bind at 1. unfold OpBuilder.lift at 1, mkdtemp at 1, bind at 1.
    unfold call at 1. cbn [fst snd].
    destruct (smoke E Mkdtemp) as [e|] eqn:HMk; tidy.
    { stopped_simply. }
    unfold ret at 1. tidy.
    destruct (decide (mkdtemp_name E ∈ dirs s0)) as [Hin|Hfresh].
    { stopped_simply. }
    unfold bind at 1, set_dirs at 1, ret at 1. tidy.
    unfold bind at 1, OpBuilder.set_locals at 1. tidy.
    run_guarded WriteProgram. { stopped_simply. }
    unfold ret at 1, emit at 1. tidy.
    unfold bind at 1, ret at 1. tidy.
    run_compile_and_link ltac:(reflexivity).
  - unfold bind at 1, ret at 1. tidy.
    run_call NewCompiler. { stopped_simply. }
    run_call CustomizeCompiler. { stopped_simply. }
    unfold bind at 1. unfold OpBuilder.lift at 1, mkdtemp at 1, bind at 1.
    unfold call at 1. cbn [fst snd].
    destruct (smoke E Mkdtemp) as [e|] eqn:HMk; tidy.
    { stopped_simply. }
    unfold ret at 1. tidy.
    destruct (decide (mkdtemp_name E ∈ dirs s0)) as [Hin|Hfresh].
    { stopped_simply. }
    unfold bind at 1, set_dirs at 1, ret at 1. tidy.
    unfold bind at 1, OpBuilder.set_locals at 1. tidy.
    run_guarded WriteProgram. { stopped_simply. }
    unfold ret at 1, emit at 1. tidy.
    (* the redirection of standard error *)
    unfold bind at 1. unfold bind at 1.
    unfold OpBuilder.lift at 1, open_w at 1, bind at 1, call at 1. cbn [fst snd].
    destruct (smoke E OpenRedirect) as [e|] eqn:HOpen; tidy.
    { stopped_simply. }
    unfold ret at 1. tidy.
    unfold bind at 1, set_fds at 1, ret at 1. tidy.
    unfold bind at 1, OpBuilder.set_locals at 1. tidy.
    unfold bind at 1. unfold OpBuilder.lift at 1, stderr_fileno at 1.
    unfold bind at 1, call at 1. cbn [fst snd].
    destruct (smoke E StderrFileno) as [e|] eqn:HFileno; tidy.
    { stopped_simply. }
    unfold ret at 1. tidy. unfold ret at 1. tidy.
    unfold bind at 1. unfold OpBuilder.lift at 1, os_dup at 1.
    unfold bind at 1, call at 1. cbn [fst snd].
    destruct (smoke E DupStderr) as [e|] eqn:HDup; tidy.
    { stopped_simply. }
    unfold ret at 1. tidy.
    set (f := lowest_unused (fds s0)).
    set (p := os_path_join (mkdtemp_name E) "stderr.txt").
    set (opened := <[f := OnFile p]> (fds s0)).
    assert (Hf : fds s0 !! f = None) by apply lowest_unused_fresh.
    destruct (opened !! 2%nat) as [t|] eqn:H2; tidy.
    2: { stopped_simply. }
    set (old := lowest_unused opened).
    assert (Hold : opened !! old = None) by apply lowest_unused_fresh.
    assert (Hne : old ≠ f).
    { intros Heq. rewrite Heq in Hold. subst opened.
      by rewrite lookup_insert_eq in Hold. }
    unfold bind at 1, set_fds at 1, ret at 1. tidy.
    unfold bind at 1, OpBuilder.set_locals at 1. tidy.
    unfold bind at 1. unfold OpBuilder.lift at 1, stderr_fileno at 1.
    unfold bind at 1, call at 1. cbn [fst snd]. rewrite HFileno. tidy.
    unfold ret at 1. tidy. unfold ret at 1. tidy.
    unfold OpBuilder.lift at 1, os_dup2 at 1. unfold bind at 1, call at 1.
    cbn [fst snd].
    assert (Htracked : ∀ tb,
              tb = <[old := t]> opened ∨
              tb = <[2%nat := OnFile p]> (<[old := t]> opened) →
              fds s0 !! f = None ∧
              ∃ p' t', let opened' := <[f := OnFile p']> (fds s0) in
                opened' !! 2%nat = Some t' ∧ opened' !! old = None ∧
                smoke E StderrFileno = None ∧
                (tb = <[old := t']> opened' ∨
                 tb = <[2%nat := OnFile p']> (<[old := t']> opened'))).
    { intros tb Htb. split; [done|]. by exists p, t. }
    destruct (smoke E Redirect) as [e|] eqn:HRedirect; tidy.
    { stopped. split; [by split|]. split; [apply Htracked; by left|].
      eexists; (split; [events_so_far|]).
      right; eexists; (split; [reflexivity|]); not_compiled_and_linked. }
    unfold ret at 1. tidy.
    assert (Hopf : opened !! f = Some (OnFile p))
      by (unfold opened; apply lookup_insert_eq).
    rewrite lookup_insert_ne by done. rewrite Hopf.
    unfold set_fds at 1. tidy.
    run_compile_and_link ltac:(apply Htracked; by right).
Qed.

Lemma compiled_and_linked_logged (E : env) (evs : list event) (line : string) :
  compiled_and_linked E (evs ++ [LoggerError line]) ↔ compiled_and_linked E evs.
Proof.
  unfold compiled_and_linked.
  assert (Hin : ∀ ev, (∀ l, ev ≠ LoggerError l) →
                      ev ∈ evs ++ [LoggerError line] ↔ ev ∈ evs).
  { intros ev Hev. rewrite elem_of_app, list_elem_of_singleton.
    split; [intros [?|?]; [done|]|by left]. by destruct (Hev line). }
  split; intros ((a & b & c & Hc) & ? & (a' & b' & c' & d' & Hl) & ?).
  - apply Hin in Hc; [|done]. apply Hin in Hl; [|done]. eauto 12.
  - split; [exists a, b, c; by apply Hin|]. split; [done|].
    split; [exists a', b', c', d'; by apply Hin|done].
Qed.

(** The [try] statement with its [except] clauses always yields a boolean,
    [True] exactly after a compile and a link that did not raise. *)
Lemma has_function_attempt (E : env) (funcname : string)
    (libraries : list string) (verbose : bool) (s0 : state) :
  ∃ b l s1,
    try_except (OpBuilder.has_function_try E funcname libraries verbose)
      (λ _, true) OpBuilder.has_function_except (OpBuilder.no_locals, s0) =
      (Return b, (l, s1)) ∧
    dirs_tracked s0 s1 l ∧ fds_tracked E s0 s1 l ∧
    ∃ evs, out s1 = out s0 ++ evs ∧
           (b = true ↔ compiled_and_linked E evs).
Proof.
  destruct (has_function_try_outcome E funcname libraries verbose s0)
    as (r & l & s1 & Hrun & _ & _ & Hdirs & Hfds & evs & Hout & Hr).
  unfold try_except. rewrite Hrun.
  destruct Hr as [[-> Hok]|(e & -> & Hnot)].
  - exists true, l, s1. split; [done|]. split; [done|]. split; [done|].
    exists evs. by split.
  - unfold OpBuilder.has_function_except.
    destruct (exn_cls e) eqn:Hcls.
    all: try (exists false, l; eexists; split; [reflexivity|];
              split; [exact Hdirs|]; split; [exact Hfds|];
              exists (evs ++ [LoggerError ("Error compiling: " +:+ exn_msg e)]);
              cbn [out snd]; split; [by rewrite Hout, <- app_assoc|];
              rewrite compiled_and_linked_logged;
              split; [done|intros Hc; by destruct Hnot]).
    all: exists false, l, s1; split; [reflexivity|];
         split; [exact Hdirs|]; split; [exact Hfds|];
         exists evs; split; [done|];
         split; [done|intros Hc; by destruct Hnot].
Qed.

(** The last statement of the [finally] block: the temporary directory, if
    one was made, is removed. *)
Lemma finally_rmtree (E : env) (s0 s : state) (l : OpBuilder.locals) :
  dirs_tracked s0 s l →
  ∃ r s2,
    (match OpBuilder.tempdir l with
     | Some d => OpBuilder.lift (rmtree E Rmtree d)
     | None => ret tt
     end) (l, s) = (r, (l, s2)) ∧
    out s2 = out s ∧ fds s2 = fds s ∧
    (smoke E Rmtree = None → r = Return tt) ∧
    (r = Return tt → dirs s2 = dirs s0).
Proof.
  unfold dirs_tracked. destruct (OpBuilder.tempdir l) as [d|].
  - intros [Hd Hdirs]. unfold OpBuilder.lift, rmtree, bind, call. cbn [fst snd].
    destruct (smoke E Rmtree) as [e|].
    + exists (Raise e), s. by repeat split.
    + eexists _, _. split; [reflexivity|]. cbn. repeat split; try done.
      intros _. rewrite Hdirs. apply set_eq. intros x.
      rewrite elem_of_difference, elem_of_union, elem_of_singleton.
      split; [intros [[?|?] ?]; done|]. intros Hx. split; [by right|].
      by intros ->.
  - intros Hdirs. exists (Return tt), s. by repeat split.
Qed.

Lemma dirs_tracked_same (s0 s s' : state) (l : OpBuilder.locals) :
  dirs s' = dirs s → dirs_tracked s0 s l → dirs_tracked s0 s' l.
Proof. unfold dirs_tracked. by intros ->. Qed.

(** The second statement of the [finally] block, on an open file. *)
Lemma finally_close (E : env) (s : state) (l : OpBuilder.locals) (f : nat)
    (t : target) :
  fds s !! f = Some t →
  ∃ r s2,
    OpBuilder.lift (close E CloseRedirect f) (l, s) = (r, (l, s2)) ∧
    out s2 = out s ∧ dirs s2 = dirs s ∧
    (smoke E CloseRedirect = None → r = Return tt) ∧
    (r = Return tt → fds s2 = delete f (fds s)).
Proof.
  intros Hf. unfold OpBuilder.lift, close, bind, call. cbn [fst snd].
  destruct (smoke E CloseRedirect) as [e|].
  - exists (Raise e), s. by repeat split.
  - unfold ret at 1. rewrite Hf. eexists _, _. split; [reflexivity|].
    by repeat split.
Qed.

(** The first statement of the [finally] block, on a saved descriptor that
    is still open. *)
Lemma finally_restore (E : env) (s : state) (l : OpBuilder.locals)
    (old : nat) (t : target) :
  smoke E StderrFileno = None →
  fds s !! old = Some t →
  ∃ r s2,
    (do fd2 <- OpBuilder.lift (stderr_fileno E);
     OpBuilder.lift (os_dup2 E RestoreStderr old fd2)) (l, s) = (r, (l, s2)) ∧
    out s2 = out s ∧ dirs s2 = dirs s ∧
    (smoke E RestoreStderr = None → r = Return tt) ∧
    (r = Return tt → fds s2 = <[2%nat := t]> (fds s)).
Proof.
  intros Hno Hold. unfold bind at 1. unfold OpBuilder.lift at 1.
  unfold stderr_fileno, bind, call. rewrite Hno. cbn [fst snd ret].
  unfold OpBuilder.lift, os_dup2, bind, call. cbn [fst snd].
  destruct (smoke E RestoreStderr) as [e|].
  - exists (Raise e), s. by repeat split.
  - unfold ret at 1. rewrite Hold. eexists _, _. split; [reflexivity|].
    by repeat split.
Qed.

Lemma has_function_finally_run (E : env) (s0 s1 : state)
    (l : OpBuilder.locals) :
  dirs_tracked s0 s1 l → fds_tracked E s0 s1 l →
  ∃ r s2,
    OpBuilder.has_function_finally E (l, s1) = (r, (l, s2)) ∧
    out s2 = out s1 ∧
    (cleanup_quiet E → r = Return tt) ∧
    (r = Return tt →
     dirs s2 = dirs s0 ∧
     ∀ n, OpBuilder.oldstderr l ≠ Some n → fds s2 !! n = fds s0 !! n).
Proof.
  intros Hdirs Hfds. unfold OpBuilder.has_function_finally.
  unfold bind at 1, OpBuilder.get_locals at 1. cbn [fst].
  unfold fds_tracked in Hfds.
  destruct (OpBuilder.filestderr l) as [f|], (OpBuilder.oldstderr l) as [old|];
    [| | done |].
  - destruct Hfds as (Hf & p & t & H2 & Hold & Hno & Hs1). cbv zeta in *.
    set (opened := <[f := OnFile p]> (fds s0)) in *.
    assert (old ≠ 2%nat) as Hold2 by (intros ->; congruence).
    assert (old ≠ f) as Holdf.
    { intros ->. unfold opened in Hold. by rewrite lookup_insert_eq in Hold. }
    assert (fds s1 !! old = Some t) as Hlook.
    { destruct Hs1 as [-> | ->].
      - apply lookup_insert_eq.
      - rewrite lookup_insert_ne by done. apply lookup_insert_eq. }
    destruct (finally_restore E s1 l old t Hno Hlook)
      as (r1 & s2 & Hrun1 & Hout1 & Hdirs1 & Hq1 & Hr1).
    unfold bind at 1. rewrite Hrun1.
    destruct r1 as [[]|e1].
    2: { exists (Raise e1), s2. split; [done|]. split; [done|].
         split; [intros (Hq & _ & _); by apply Hq1|done]. }
    specialize (Hr1 eq_refl).
    assert (fds s2 = <[2%nat := t]> (<[old := t]> opened)) as Hfds2.
    { rewrite Hr1. destruct Hs1 as [-> | ->]; [done|]. apply insert_insert_eq. }
    assert (is_Some (fds s2 !! f)) as [tf Htf].
    { rewrite Hfds2. destruct (decide (f = 2%nat)) as [->|Hf2].
      - rewrite lookup_insert_eq. by eexists.
      - rewrite !lookup_insert_ne by done. unfold opened.
        rewrite lookup_insert_eq. by eexists. }
    destruct (finally_close E s2 l f tf Htf)
      as (r2 & s3 & Hrun2 & Hout2 & Hdirs2 & Hq2 & Hr2).
    unfold bind at 1. rewrite Hrun2.
    destruct r2 as [[]|e2].
    2: { exists (Raise e2), s3. split; [done|]. split; [congruence|].
         split; [intros (_ & Hq & _); by apply Hq2|done]. }
    specialize (Hr2 eq_refl).
    assert (dirs_tracked s0 s3 l) as Hdirs3.
    { eapply dirs_tracked_same; [|exact Hdirs]. congruence. }
    destruct (finally_rmtree E s0 s3 l Hdirs3)
      as (r3 & s4 & Hrun3 & Hout3 & Hfds3 & Hq3 & Hr3).
    exists r3, s4. split; [exact Hrun3|]. split; [congruence|].
    split; [intros (_ & _ & ?); auto|].
    intros Hret. split; [auto|]. intros n Hn.
    assert (n ≠ old) as Hnold by congruence.
    rewrite Hfds3, Hr2, Hfds2.
    destruct (decide (n = f)) as [->|Hnf].
    { by rewrite lookup_delete_eq. }
    rewrite lookup_delete_ne by done.
    destruct (decide (n = 2%nat)) as [->|Hn2].
    { rewrite lookup_insert_eq. unfold opened in H2.
      by rewrite lookup_insert_ne in H2 by done. }
    rewrite !lookup_insert_ne by done. unfold opened.
    by rewrite lookup_insert_ne by done.
  - destruct Hfds as (Hf & p & Hs1).
    unfold bind at 1, ret at 1.
    assert (fds s1 !! f = Some (OnFile p)) as Htf.
    { rewrite Hs1. apply lookup_insert_eq. }
    destruct (finally_close E s1 l f _ Htf)
      as (r2 & s3 & Hrun2 & Hout2 & Hdirs2 & Hq2 & Hr2).
    unfold bind at 1. rewrite Hrun2.
    destruct r2 as [[]|e2].
    2: { exists (Raise e2), s3. split; [done|]. split; [congruence|].
         split; [intros (_ & Hq & _); by apply Hq2|done]. }
    specialize (Hr2 eq_refl).
    assert (dirs_tracked s0 s3 l) as Hdirs3.
    { eapply dirs_tracked_same; [|exact Hdirs]. congruence. }
    destruct (finally_rmtree E s0 s3 l Hdirs3)
      as (r3 & s4 & Hrun3 & Hout3 & Hfds3 & Hq3 & Hr3).
    exists r3, s4. split; [exact Hrun3|]. split; [congruence|].
    split; [intros (_ & _ & ?); auto|].
    intros Hret. split; [auto|]. intros n _.
    rewrite Hfds3, Hr2, Hs1.
    destruct (decide (n = f)) as [->|Hnf].
    { by rewrite lookup_delete_eq. }
    by rewrite lookup_delete_ne, lookup_insert_ne by done.
  - unfold bind at 1, ret at 1. unfold bind at 1, ret at 1.
    destruct (finally_rmtree E s0 s1 l Hdirs) as (r & s2 & Hrm & Hout & Hf & Hq & Hr).
    exists r, s2. split; [exact Hrm|]. split; [done|].
    split; [intros (_ & _ & ?); auto|].
    intros Hret. split; [auto|]. intros n _. by rewrite Hf, Hfds.
Qed.

Lemma events_since_app (s s' : state) (evs : list event) :
  out s' = out s ++ evs → events_since s s' = evs.
Proof. unfold events_since. intros ->. apply drop_app_length. Qed.

(** The whole of [has_function]: what it yields and what it leaves. *)
Lemma has_function_run_spec (E : env) (funcname : string)
    (libraries : list string) (verbose : bool) (s : state) :
  ∃ r l s',
    OpBuilder.has_function_run E funcname libraries verbose s = (r, (l, s')) ∧
    (cleanup_quiet E →
     ∃ b, r = Return b ∧
          (b = true ↔ compiled_and_linked E (events_since s s'))) ∧
    (∀ b, r = Return b → released s s' l).
Proof.
  destruct (has_function_attempt E funcname libraries verbose s)
    as (b & l & s1 & Hatt & Hdirs & Hfds & evs & Hout & Hb).
  destruct (has_function_finally_run E s s1 l Hdirs Hfds)
    as (r & s2 & Hfin & Hout2 & Hq & Hr).
  unfold OpBuilder.has_function_run, try_finally. rewrite Hatt, Hfin.
  destruct r as [[]|e].
  - exists (Return b), l, s2. split; [done|]. split.
    + intros _. exists b. split; [done|].
      rewrite (events_since_app s s2 evs) by congruence. done.
    + intros b' _. destruct (Hr eq_refl) as [Hd Hn].
      unfold released. unfold dirs_tracked in Hdirs.
      unfold fds_tracked in Hfds.
      split; [|split; [|split; [|split]]]; try done.
      * apply Hn. destruct (OpBuilder.filestderr l), (OpBuilder.oldstderr l)
          as [old|]; try done.
        destruct Hfds as (_ & p & t & H2 & Hold & _). cbv zeta in *.
        intros [= ->]. congruence.
      * intros f Hf. rewrite Hf in Hfds.
        destruct (OpBuilder.oldstderr l) as [old|].
        -- destruct Hfds as (Hf0 & p & t & H2 & Hold & _). cbv zeta in *.
           rewrite Hn; [done|]. intros [= ->].
           by rewrite lookup_insert_eq in Hold.
        -- destruct Hfds as (Hf0 & _). by rewrite Hn.
      * intros d Hd'. rewrite Hd' in Hdirs. destruct Hdirs as [Hnot _].
        by rewrite Hd.
  - exists (Raise e), l, s2. split; [done|]. split; [|done].
    intros Hquiet. by specialize (Hq Hquiet).
Qed.

(** C4.  When the three calls of the [finally] block do not raise,
    [has_function] returns a boolean for every function name and library
    tuple: [True] exactly when the compiler and the linker were both called
    and neither raised; whatever else the attempt raises, CompileError,
    LinkError or any other exception, becomes [False]. *)
Theorem has_function_returns_bool (E : env) (funcname : string)
    (libraries : list string) (verbose : bool) (s : state) :
  cleanup_quiet E →
  ∃ b s',
    OpBuilder.has_function E funcname libraries verbose s = (Return b, s') ∧
    (b = true ↔ compiled_and_linked E (events_since s s')).
Proof.
  intros Hquiet.
  destruct (has_function_run_spec E funcname libraries verbose s)
    as (r & l & s' & Hrun & Hret & _).
  destruct (Hret Hquiet) as (b & -> & Hb).
  exists b, s'. split; [|done].
  unfold OpBuilder.has_function. by rewrite Hrun.
Qed.

Lemma linux_box_cleanup_quiet : cleanup_quiet linux_box.
Proof. by repeat split. Defined.

Lemma bare_box_cleanup_quiet : cleanup_quiet bare_box.
Proof. by repeat split. Defined.

Lemma has_function_returns_bool_witness :
  (∃ s', OpBuilder.has_function linux_box "cblas_sgemm" ["openblas"] false
           fresh_process = (Return true, s')) ∧
  (∃ s', OpBuilder.has_function bare_box "cblas_sgemm" ["openblas"] false
           fresh_process = (Return false, s')).
Proof.
  split.
  - destruct (has_function_returns_bool linux_box "cblas_sgemm" ["openblas"]
                false fresh_process linux_box_cleanup_quiet)
      as (b & s' & Hrun & _).
    exists s'. rewrite Hrun. f_equal. f_equal.
    vm_compute in Hrun. by injection Hrun.
  - destruct (has_function_returns_bool bare_box "cblas_sgemm" ["openblas"]
                false fresh_process bare_box_cleanup_quiet)
      as (b & s' & Hrun & _).
    exists s'. rewrite Hrun. f_equal. f_equal.
    vm_compute in Hrun. by injection Hrun.
Defined.

(** C6.  [has_function] returns whenever the calls of its [finally] block
    do not raise, and whenever it returns, after success, a compile
    failure, a link failure or any other exception alike, standard error is
    open on what it was open on at entry, the redirect file is closed and
    the temporary directory made for the test is deleted. *)
Theorem has_function_releases (E : env) (funcname : string)
    (libraries : list string) (verbose : bool) (s : state) :
  (cleanup_quiet E →
   ∃ b l s',
     OpBuilder.has_function_run E funcname libraries verbose s =
       (Return b, (l, s'))) ∧
  (∀ b l s',
     OpBuilder.has_function_run E funcname libraries verbose s =
       (Return b, (l, s')) →
     released s s' l).
Proof.
  destruct (has_function_run_spec E funcname libraries verbose s)
    as (r & l & s' & Hrun & Hret & Hrel).
  split.
  - intros Hquiet. destruct (Hret Hquiet) as (b & -> & _). by exists b, l, s'.
  - intros b l' s'' Hrun'. rewrite Hrun in Hrun'.
    injection Hrun' as -> <- <-. by apply (Hrel b).
Qed.

Lemma has_function_releases_witness :
  ∃ b l s',
    OpBuilder.has_function_run bare_box "cblas_sgemm" ["openblas"] false
      fresh_process = (Return b, (l, s')) ∧
    released fresh_process s' l.
Proof.
  destruct (has_function_releases bare_box "cblas_sgemm" ["openblas"] false
              fresh_process) as [Hreturns Hreleases].
  destruct (Hreturns bare_box_cleanup_quiet) as (b & l & s' & Hrun).
  exists b, l, s'. split; [exact Hrun|]. by apply (Hreleases b).
Defined.

(** The copy of standard error that [os.dup] made stays open: nothing in
    the method closes it. *)
Example has_function_keeps_saved_descriptor :
  ∃ b l s',
    OpBuilder.has_function_run linux_box "cblas_sgemm" ["openblas"] false
      fresh_process = (Return b, (l, s')) ∧
    OpBuilder.oldstderr l = Some 4%nat ∧
    fds fresh_process !! 4%nat = None ∧ fds s' !! 4%nat = Some Terminal.
Proof. eexists _, _, _. split; [vm_compute; reflexivity|]. by vm_compute. Qed.

(** * Further properties of the module *)

(** ** command_exists *)

Lemma fold_left_orb_existsb {A} (f : A → bool) (l : list A) (acc : bool) :
  fold_left (λ v c, v || f c) l acc = acc || existsb f l.
Proof.
  revert acc. induction l as [|x l IH]; intros acc; cbn.
  - by rewrite orb_false_r.
  - rewrite IH. by rewrite orb_assoc.
Qed.

(** X1.  [command_exists] answers whether the shell finds one of the
    commands its argument names, cut at the bars when it holds one.  When
    one is found nothing is printed and the process is as before; when none
    is, a single warning line is printed. *)
Theorem command_exists_found_iff (E : env) (cmd : string) (s : state) :
  let cmds := if Py.contains cmd "|" then Py.split "|" cmd else [cmd] in
  let found := existsb (type_found E) cmds in
  ∃ s', OpBuilder.command_exists E cmd s = (Return found, s') ∧
        (found = true → s' = s) ∧
        (found = false →
         ∃ line, out s' = out s ++ [Print (WARNING +:+ " " +:+ line)] ∧
                 self s' = self s ∧ environ s' = environ s ∧
                 fds s' = fds s ∧ dirs s' = dirs s).
Proof.
  intros cmds found. unfold OpBuilder.command_exists. fold cmds.
  rewrite fold_left_orb_existsb. cbn [orb]. fold found.
  unfold bind at 1, get_self at 1.
  destruct found; cbn [negb andb].
  - exists s. by repeat split.
  - assert (Hne : cmds ≠ []).
    { unfold cmds. destruct (Py.contains cmd "|"); [apply split_nonempty|done]. }
    destruct (1 <? length cmds)%nat eqn:Hlen.
    + eexists. split; [reflexivity|]. split; [done|]. intros _.
      eexists. by repeat split.
    + assert ((length cmds =? 1)%nat = true) as ->.
      { apply Nat.eqb_eq. apply Nat.ltb_ge in Hlen.
        destruct cmds; [done|]. cbn in *. lia. }
      eexists. split; [reflexivity|]. split; [done|]. intros _.
      eexists. by repeat split.
Qed.

(** ** is_cuda_enable *)

(** X2.  [is_cuda_enable] never raises: it returns "-D__ENABLE_CUDA__"
    when the CUDA version check returns and "-D__DISABLE_CUDA__", after a
    warning line, when the check raises anything at all. *)
Theorem is_cuda_enable_never_raises (E : env) (s : state) :
  ∃ flag s',
    OpBuilder.is_cuda_enable E s = (Return flag, s') ∧
    ((is_raise (assert_no_cuda_mismatch E s).1 = false ∧
      flag = "-D__ENABLE_CUDA__" ∧ s' = (assert_no_cuda_mismatch E s).2) ∨
     (is_raise (assert_no_cuda_mismatch E s).1 = true ∧
      flag = "-D__DISABLE_CUDA__" ∧ warned s s')).
Proof.
  unfold OpBuilder.is_cuda_enable, try_except, bind.
  destruct (assert_no_cuda_mismatch E s) as [[b|e] s1] eqn:Hrun.
  - exists "-D__ENABLE_CUDA__", s1. split; [done|]. left. by repeat split.
  - eexists _, _. split; [reflexivity|]. right. split; [done|]. split; [done|].
    assert (out s1 = out s) as Hout.
    { unfold assert_no_cuda_mismatch in Hrun.
      unfold bind at 1 in Hrun.
      destruct (installed_cuda_version E s) as [[[a b]|e0] s2] eqn:Hv.
      2: { injection Hrun as _ <-. unfold installed_cuda_version in Hv.
           destruct (CUDA_HOME E); by injection Hv as _ <-. }
      assert (s2 = s) as ->.
      { unfold installed_cuda_version in Hv.
        destruct (CUDA_HOME E); by injection Hv as _ <-. }
      unfold bind at 1, torch_cuda in Hrun.
      destruct (torch_version_cuda E); [|by injection Hrun as _ <-].
      unfold ret at 1 in Hrun.
      destruct (negb _); [|done].
      destruct (minor_mismatch_ok _ _ _); [done|].
      unfold getenv, bind, get_environ, ret in Hrun.
      destruct (String.eqb _ "1"); [done|]. by injection Hrun as _ <-. }
    unfold warned. cbn [out]. rewrite Hout. by eexists [], _, [].
Qed.

(** ** atorch_src_path *)

Lemma isabs_app (a b : string) : isabs a = true → isabs (a +:+ b) = true.
Proof.
  destruct a as [|c a]; [done|]. unfold isabs, Py.startswith.
  change (String c a +:+ b) with (String c (a +:+ b)).
  cbn [String.prefix]. destruct (ascii_dec "/" c); [|done].
  intros _. by destruct (a +:+ b).
Qed.

(** X3.  [atorch_src_path] leaves an absolute path as it is, and with an
    absolute package root every path it returns is absolute, so that
    applying it twice is applying it once. *)
Theorem atorch_src_path_absolute (E : env) (code_path : string) :
  (isabs code_path = true → OpBuilder.atorch_src_path E code_path = code_path) ∧
  (isabs (package_root E) = true →
   isabs (OpBuilder.atorch_src_path E code_path) = true ∧
   OpBuilder.atorch_src_path E (OpBuilder.atorch_src_path E code_path) =
     OpBuilder.atorch_src_path E code_path).
Proof.
  split.
  - intros Habs. unfold OpBuilder.atorch_src_path. by rewrite Habs.
  - intros Hroot.
    assert (Habs : isabs (OpBuilder.atorch_src_path E code_path) = true).
    { unfold OpBuilder.atorch_src_path.
      destruct (isabs code_path) eqn:Hc; [done|].
      unfold os_path_join. rewrite Hc.
      destruct (_ || _); by apply isabs_app. }
    split; [done|]. unfold OpBuilder.atorch_src_path at 1. by rewrite Habs.
Qed.

Lemma atorch_src_path_absolute_witness :
  OpBuilder.atorch_src_path linux_box
    (OpBuilder.atorch_src_path linux_box "ops/csrc/adam.cpp") =
  "/site-packages/atorch/ops/csrc/adam.cpp".
Proof.
  rewrite (proj2 (proj2 (atorch_src_path_absolute linux_box "ops/csrc/adam.cpp")
                    eq_refl)).
  reflexivity.
Defined.

(** ** The lscpu fallback *)

Lemma prefix_trans (p q s : string) :
  String.prefix p q = true → String.prefix q s = true →
  String.prefix p s = true.
Proof.
  revert p q. induction s as [|c s IH]; intros p q Hpq Hqs.
  - destruct q as [|b q]; [|done]. by destruct p.
  - destruct q as [|b q]; [by destruct p|].
    destruct p as [|a p]; [done|].
    cbn [String.prefix] in *.
    destruct (ascii_dec a b) as [->|]; [|done].
    destruct (ascii_dec b c) as [->|]; [|done].
    by apply (IH p q).
Qed.

Lemma contains_prefix (s p q : string) :
  String.prefix p q = true → Py.contains s q = true → Py.contains s p = true.
Proof.
  intros Hpq. induction s as [|c s IH]; cbn [Py.contains].
  - rewrite !orb_false_r. by apply prefix_trans.
  - rewrite !orb_true_iff. intros [Hq|Hq].
    + left. by apply (prefix_trans p q).
    + right. by apply IH.
Qed.

Lemma command_exists_lscpu (E : env) (s : state) :
  type_found E "lscpu" = true →
  OpBuilder.command_exists E "lscpu" s = (Return true, s).
Proof.
  intros Hl. unfold OpBuilder.command_exists.
  change (Py.contains "lscpu" "|") with false. cbv iota.
  cbn [fold_left length List.last orb]. rewrite Hl. reflexivity.
Qed.

Lemma backup_cpuinfo_lscpu (E : env) (raw : string) (s : state) :
  type_found E "lscpu" = true →
  lscpu_output E = Return raw →
  let result := Py.lower (Py.strip raw) in
  ∃ d, OpBuilder._backup_cpuinfo E s = (Return (Some d), s) ∧
       d !! "arch" = Some (lscpu_arch result) ∧
       d !! "flags" = Some (VStr (lscpu_flags result)).
Proof.
  intros Hfound Hout result.
  pose proof (command_exists_lscpu E s Hfound) as Hrun.
  unfold OpBuilder._backup_cpuinfo.
  rewrite (bind_Return _ _ _ _ _ Hrun). cbn [negb].
  unfold bind at 1, of_result at 1. rewrite Hout. cbv zeta.
  fold result. unfold lscpu_arch, lscpu_flags, lscpu_x86.
  destruct (_ || _).
  - eexists. split; [reflexivity|].
    split; [by rewrite lookup_insert_ne, lookup_insert_eq|].
    rewrite lookup_insert_eq. do 2 f_equal.
    destruct (Py.contains result "avx512") eqn:H512.
    + by destruct (Py.contains result "avx2").
    + destruct (Py.contains result "avx512f") eqn:H512f.
      * apply (contains_prefix _ "avx512") in H512f; [congruence|done].
      * by destruct (Py.contains result "avx2").
  - destruct (Py.contains result "ppc64le").
    + eexists. split; [reflexivity|].
      split; [by rewrite lookup_insert_ne, lookup_insert_eq|].
      by rewrite lookup_insert_eq.
    + eexists. split; [reflexivity|].
      split; [by rewrite lookup_insert_ne, lookup_insert_eq|].
      by rewrite lookup_insert_eq.
Qed.

(** X4.  When the shell finds lscpu and it prints [raw], the fallback
    returns a dictionary without printing or changing anything.  Its arch
    is "X86_64" for an Intel or AMD vendor string, "PPC_" for ppc64le and
    [None] otherwise; its flags are "avx512," and "avx2" for those of the
    two names an x86 output holds, so one of four strings, empty off x86.
    The entry "avx512f," is never made: an output that holds "avx512f"
    holds "avx512". *)
Theorem backup_cpuinfo_found (E : env) (raw : string) (s : state) :
  type_found E "lscpu" = true →
  lscpu_output E = Return raw →
  let result := Py.lower (Py.strip raw) in
  ∃ d flags,
    OpBuilder._backup_cpuinfo E s = (Return (Some d), s) ∧
    d !! "arch" = Some (lscpu_arch result) ∧
    d !! "flags" = Some (VStr flags) ∧
    flags = lscpu_flags result ∧
    flags ∈ [""; "avx2"; "avx512,"; "avx512,avx2"] ∧
    (flags ≠ "" → lscpu_arch result = VStr "X86_64") ∧
    Py.contains flags "avx512f" = false.
Proof.
  intros Hfound Hout result.
  destruct (backup_cpuinfo_lscpu E raw s Hfound Hout) as (d & Hrun & Ha & Hf).
  exists d, (lscpu_flags result). fold result in Ha, Hf.
  split; [done|]. split; [done|]. split; [done|]. split; [done|].
  unfold lscpu_flags, lscpu_arch.
  destruct (lscpu_x86 result), (Py.contains result "avx512"),
    (Py.contains result "avx2"); cbn.
  all: split; [set_solver|split; [done|reflexivity]].
Qed.

Lemma backup_cpuinfo_found_witness :
  ∃ d flags,
    OpBuilder._backup_cpuinfo linux_box fresh_process =
      (Return (Some d), fresh_process) ∧
    d !! "arch" = Some (VStr "X86_64") ∧
    d !! "flags" = Some (VStr flags) ∧ flags = "avx2".
Proof.
  destruct (backup_cpuinfo_found linux_box _ fresh_process eq_refl eq_refl)
    as (d & flags & Hrun & Ha & Hf & Hfl & _).
  exists d, flags. by repeat split.
Defined.

(** When py-cpuinfo fails and lscpu answers, the probe ends with the
    dictionary of the fallback, after a warning. *)
Lemma probe_cpu_lscpu (E : env) (who fallback raw : string) (s : state) :
  py_cpuinfo_fails E →
  type_found E "lscpu" = true →
  lscpu_output E = Return raw →
  let result := Py.lower (Py.strip raw) in
  ∃ d s', OpBuilder.probe_cpu E who fallback s = (Return (inr d), s') ∧
          d !! "arch" = Some (lscpu_arch result) ∧
          d !! "flags" = Some (VStr (lscpu_flags result)) ∧
          warned s s'.
Proof.
  intros [(e & Himp & Hcls)|(Himp & e & Hget & Hcls)] Hfound Hout result;
    unfold OpBuilder.probe_cpu, OpBuilder.call_get_cpu_info.
  - unfold bind at 1. unfold try_except at 1. unfold bind at 1.
    unfold of_result at 1. rewrite Himp, Hcls.
    unfold bind at 1. unfold logger_error, emit at 1.
    unfold bind at 1.
    match goal with |- context [OpBuilder._backup_cpuinfo E ?s1] =>
      destruct (backup_cpuinfo_lscpu E raw s1 Hfound Hout) as (d1 & Hb1 & _);
      rewrite Hb1
    end.
    unfold ret at 1. unfold try_except at 1, bind at 1, raise at 1.
    cbn [exn_cls is_Exception].
    unfold bind at 1, get_self at 1. unfold bind at 1.
    unfold OpBuilder.warning at 1. unfold bind at 1, set_self at 1.
    unfold print, emit at 1. unfold bind at 1.
    match goal with |- context [OpBuilder._backup_cpuinfo E ?s2] =>
      destruct (backup_cpuinfo_lscpu E raw s2 Hfound Hout)
        as (d & Hb & Ha & Hf); rewrite Hb
    end.
    eexists d, _. split; [reflexivity|]. split; [done|]. split; [done|].
    unfold warned. cbn [out]. eexists [_], _, []. by rewrite <- app_assoc.
  - unfold bind at 1. unfold try_except at 1. unfold bind at 1.
    unfold of_result at 1. rewrite Himp. unfold ret at 1.
    unfold try_except, bind at 1, of_result. rewrite Hget, Hcls.
    unfold bind at 1, get_self at 1. unfold bind at 1.
    unfold OpBuilder.warning at 1. unfold bind at 1, set_self at 1.
    unfold print, emit at 1. unfold bind at 1.
    match goal with |- context [OpBuilder._backup_cpuinfo E ?s2] =>
      destruct (backup_cpuinfo_lscpu E raw s2 Hfound Hout)
        as (d & Hb & Ha & Hf); rewrite Hb
    end.
    eexists d, _. split; [reflexivity|]. split; [done|]. split; [done|].
    unfold warned. cbn [out]. by eexists [], _, [].
Qed.

(** The choice of [simd_width] on a dictionary with the two fields. *)
Lemma simd_width_of_run (d : gmap string value) (arch flags : value)
    (s : state) :
  d !! "arch" = Some arch → d !! "flags" = Some flags → flags ≠ VNone →
  OpBuilder.simd_width_of d s =
  (Return (if bool_decide (arch = VStr "X86_64") &&
              (flag_in "avx512" flags || flag_in "avx512f" flags)
           then "-D__AVX512__"
           else if bool_decide (arch = VStr "X86_64") && flag_in "avx2" flags
                then "-D__AVX256__" else "-D__SCALAR__"), s).
Proof.
  intros Harch Hf Hnone.
  unfold OpBuilder.simd_width_of, OpBuilder.getitem. rewrite Harch.
  unfold bind at 1. unfold ret at 1.
  case_bool_decide as Hx.
  - subst arch. cbn [OpBuilder.value_eq].
    rewrite String.eqb_refl, Hf. unfold bind, ret.
    rewrite !value_contains_flag_in by done.
    destruct (flag_in "avx512" flags); [done|].
    rewrite !value_contains_flag_in by done.
    destruct (flag_in "avx512f" flags); [done|]. cbn [orb andb].
    rewrite !value_contains_flag_in by done.
    by destruct (flag_in "avx2" flags).
  - cbn [andb]. destruct arch as [|a|l]; try done. cbn [OpBuilder.value_eq].
    destruct (String.eqb a "X86_64") eqn:Ha; [|done].
    apply String.eqb_eq in Ha. by subst a.
Qed.

(** X5.  When py-cpuinfo fails and lscpu answers, [simd_width] still
    answers, after a warning: AVX512 for an x86 output that holds "avx512",
    AVX256 for an x86 output that holds "avx2" and not "avx512", SCALAR
    otherwise. *)
Theorem simd_width_lscpu (E : env) (raw : string) (s : state) :
  py_cpuinfo_fails E →
  type_found E "lscpu" = true →
  lscpu_output E = Return raw →
  let result := Py.lower (Py.strip raw) in
  ∃ s', OpBuilder.simd_width E s =
          (Return (if lscpu_x86 result && Py.contains result "avx512"
                   then "-D__AVX512__"
                   else if lscpu_x86 result && Py.contains result "avx2"
                        then "-D__AVX256__" else "-D__SCALAR__"), s') ∧
        warned s s'.
Proof.
  intros Hfail Hfound Hout result.
  destruct (probe_cpu_lscpu E "simd_width" "-D__SCALAR__" raw s Hfail Hfound
              Hout) as (d & s' & Hp & Ha & Hf & Hw).
  exists s'. split; [|done].
  unfold OpBuilder.simd_width. rewrite (bind_Return _ _ _ _ _ Hp).
  rewrite (simd_width_of_run d _ _ s' Ha Hf) by done.
  fold result. unfold lscpu_arch, lscpu_flags.
  destruct (lscpu_x86 result); cbn [andb].
  - rewrite bool_decide_eq_true_2 by done.
    by destruct (Py.contains result "avx512"), (Py.contains result "avx2").
  - destruct (Py.contains result "ppc64le");
      by rewrite bool_decide_eq_false_2.
Qed.

Lemma arm_box_py_cpuinfo_fails : py_cpuinfo_fails arm_box.
Proof. left. eexists. split; reflexivity. Defined.

Lemma simd_width_lscpu_witness :
  ∃ s', OpBuilder.simd_width arm_box fresh_process =
        (Return "-D__SCALAR__", s').
Proof.
  destruct (simd_width_lscpu arm_box _ fresh_process arm_box_py_cpuinfo_fails
              eq_refl eq_refl) as (s' & Hrun & _).
  exists s'. exact Hrun.
Defined.

(** X6.  When py-cpuinfo fails and lscpu answers, [cpu_arch] returns
    "-march=native" for an x86 output and "-mcpu=native" for ppc64le; for
    any other machine the fallback gives arch [None], and [cpu_arch] raises
    AttributeError on it where [simd_width] returns its scalar default. *)
Theorem cpu_arch_lscpu (E : env) (raw : string) (s : state) :
  py_cpuinfo_fails E →
  type_found E "lscpu" = true →
  lscpu_output E = Return raw →
  let result := Py.lower (Py.strip raw) in
  ∃ s', OpBuilder.cpu_arch E s =
          (if lscpu_x86 result then Return "-march=native"
           else if Py.contains result "ppc64le" then Return "-mcpu=native"
           else Raise (Exc AttributeError
                         "'NoneType' object has no attribute 'startswith'"),
           s').
Proof.
  intros Hfail Hfound Hout result.
  destruct (probe_cpu_lscpu E "cpu_arch" "-march=native" raw s Hfail Hfound
              Hout) as (d & s' & Hp & Ha & _ & _).
  exists s'. unfold OpBuilder.cpu_arch. rewrite (bind_Return _ _ _ _ _ Hp).
  unfold OpBuilder.getitem. rewrite Ha. fold result.
  unfold lscpu_arch. unfold bind at 1, ret at 1.
  destruct (lscpu_x86 result); [reflexivity|].
  by destruct (Py.contains result "ppc64le").
Qed.

Lemma cpu_arch_lscpu_witness :
  ∃ s', OpBuilder.cpu_arch arm_box fresh_process =
        (Raise (Exc AttributeError
                  "'NoneType' object has no attribute 'startswith'"), s').
Proof.
  destruct (cpu_arch_lscpu arm_box _ fresh_process arm_box_py_cpuinfo_fails
              eq_refl eq_refl) as (s' & Hrun).
  exists s'. exact Hrun.
Defined.

(** X7.  When py-cpuinfo delivers a dictionary, [cpu_arch] prints nothing
    and answers from its arch field alone: "-mcpu=native" when it is a
    string that starts with "PPC_", "-march=native" for any other string,
    KeyError when the field is missing and AttributeError when it is not a
    string. *)
Theorem cpu_arch_of_cpu_info (E : env) (d : gmap string value) (s : state) :
  import_cpuinfo E = Return tt →
  get_cpu_info E = Return d →
  OpBuilder.cpu_arch E s =
  (match d !! "arch" with
   | Some (VStr a) =>
       Return (if Py.startswith a "PPC_" then "-mcpu=native"
               else "-march=native")
   | Some VNone =>
       Raise (Exc AttributeError
                "'NoneType' object has no attribute 'startswith'")
   | Some (VList _) =>
       Raise (Exc AttributeError "'list' object has no attribute 'startswith'")
   | None => Raise (Exc KeyError "'arch'")
   end, s).
Proof.
  intros Himp Hget.
  unfold OpBuilder.cpu_arch, OpBuilder.probe_cpu, OpBuilder.call_get_cpu_info.
  unfold bind at 1. unfold bind at 1. unfold try_except at 1, bind at 1.
  unfold of_result at 1. rewrite Himp. unfold ret at 1.
  unfold try_except, bind at 1, of_result at 1. rewrite Hget.
  unfold ret at 1. unfold OpBuilder.getitem.
  destruct (d !! "arch") as [[|a|l]|]; try reflexivity.
  unfold bind, ret, OpBuilder.value_startswith.
  by destruct (Py.startswith a "PPC_").
Qed.

Lemma cpu_arch_of_cpu_info_witness :
  OpBuilder.cpu_arch linux_box fresh_process =
  (Return "-march=native", fresh_process).
Proof.
  exact (cpu_arch_of_cpu_info linux_box _ fresh_process eq_refl eq_refl).
Defined.

(** ** The loop over the capabilities *)

Lemma index_Some_length (s : string) (i : nat) :
  is_Some (Py.index s i) ↔ (i < String.length s)%nat.
Proof.
  unfold Py.index. revert i. induction s as [|c s IH]; intros i; cbn.
  - split; [by intros [? ?]|lia].
  - destruct i as [|i]; [split; [lia|by eexists]|].
    rewrite IH. lia.
Qed.

(** The loop on two lists in a row is the loop on the first, then on the
    second with the flags made so far. *)
Lemma gencode_app (l1 l2 args : list string) (s : state) :
  CUDAOpBuilder.gencode (l1 ++ l2) args s =
  (do args' <- CUDAOpBuilder.gencode l1 args; CUDAOpBuilder.gencode l2 args') s.
Proof.
  revert args s. induction l1 as [|cc l1 IH]; intros args s; [reflexivity|].
  cbn [app CUDAOpBuilder.gencode]. unfold bind.
  destruct (CUDAOpBuilder.item cc 0 s) as [[c0|e] s1]; [|done].
  destruct (CUDAOpBuilder.item cc 2 s1) as [[c2|e] s2]; [|done].
  destruct (CUDAOpBuilder.item cc 0 s2) as [[c0'|e] s3]; [|done].
  destruct (CUDAOpBuilder.int_of_char c0' s3) as [[major|e] s4]; [|done].
  destruct ((if (major <=? 7)%Z then set_enable_bf16 false else ret ()) s4)
    as [[[]|e] s5]; [|done].
  rewrite IH. reflexivity.
Qed.

(** One round of the loop on a well-formed capability. *)
Lemma gencode_cons_ok (cc : string) (ccs args : list string) (s : state) :
  capability_well_formed cc = true →
  ∃ args' s1,
    CUDAOpBuilder.gencode (cc :: ccs) args s = CUDAOpBuilder.gencode ccs args' s1 ∧
    enable_bf16 (self s1) = enable_bf16 (self s) && first_char_above_7 cc ∧
    length args' =
      (length args + if Py.endswith cc "+PTX" then 2 else 1)%nat.
Proof.
  unfold capability_well_formed. intros [Hlen Hdig]%andb_true_iff.
  apply Nat.leb_le in Hlen.
  destruct (proj2 (index_Some_length cc 2)) as [c2 Hc2]; [lia|].
  destruct (Py.index cc 0) as [c0|] eqn:Hc0; [|done].
  cbn [CUDAOpBuilder.gencode]. unfold CUDAOpBuilder.item. rewrite Hc0, Hc2.
  unfold bind at 1, ret at 1. unfold bind at 1, ret at 1.
  unfold bind at 1, ret at 1. unfold CUDAOpBuilder.int_of_char. rewrite Hdig.
  unfold bind at 1, ret at 1.
  apply andb_true_iff in Hdig as [H1%Nat.leb_le H2%Nat.leb_le].
  unfold first_char_above_7. rewrite Hc0.
  change (nat_of_ascii "7") with 55%nat.
  destruct (Nat.ltb_spec 55 (nat_of_ascii c0)).
  - assert ((Z.of_nat (nat_of_ascii c0 - 48) <=? 7)%Z = false) as ->
      by (apply Z.leb_gt; lia).
    unfold bind at 1, ret at 1. eexists _, s. split; [reflexivity|].
    split; [by rewrite andb_true_r|].
    destruct (Py.endswith cc "+PTX"); rewrite !length_app; cbn; lia.
  - assert ((Z.of_nat (nat_of_ascii c0 - 48) <=? 7)%Z = true) as ->
      by (apply Z.leb_le; lia).
    unfold bind at 1, set_enable_bf16 at 1, set_self at 1.
    eexists _, _. split; [reflexivity|]. cbn [self enable_bf16].
    split; [by rewrite andb_false_r|].
    destruct (Py.endswith cc "+PTX"); rewrite !length_app; cbn; lia.
Qed.

(** The loop returns on well-formed capabilities. *)
Lemma gencode_ok (ccs args : list string) (s : state) :
  Forall (λ cc, capability_well_formed cc = true) ccs →
  ∃ args' s',
    CUDAOpBuilder.gencode ccs args s = (Return args', s') ∧
    enable_bf16 (self s') =
      enable_bf16 (self s) && forallb first_char_above_7 ccs ∧
    length args' =
      (length args + length ccs +
       length (filter (λ cc, Py.endswith cc "+PTX" = true) ccs))%nat.
Proof.
  intros Hwf. revert args s.
  induction Hwf as [|cc ccs Hcc _ IH]; intros args s.
  - exists args, s. split; [done|]. split; [by rewrite andb_true_r|].
    cbn. lia.
  - destruct (gencode_cons_ok cc ccs args s Hcc) as (a1 & s1 & Heq & Hbf & Hl).
    destruct (IH a1 s1) as (args' & s' & Hrun & Hbf' & Hl').
    exists args', s'. rewrite Heq. split; [done|].
    split; [cbn [forallb]; by rewrite Hbf', Hbf, andb_assoc|].
    rewrite Hl', Hl, filter_cons. cbn [length].
    destruct (Py.endswith cc "+PTX") eqn:Hptx.
    + rewrite decide_True by done. cbn [length]. lia.
    + rewrite decide_False by congruence. lia.
Qed.

(** The loop stops on a capability it cannot read. *)
Lemma gencode_cons_bad (cc : string) (ccs args : list string) (s : state) :
  capability_well_formed cc = false →
  ∃ e, CUDAOpBuilder.gencode (cc :: ccs) args s = (Raise e, s) ∧
       exn_cls e = if (String.length cc <? 3)%nat then IndexError
                   else ValueError.
Proof.
  unfold capability_well_formed. intros Hbad.
  cbn [CUDAOpBuilder.gencode]. unfold CUDAOpBuilder.item.
  destruct (Py.index cc 0) as [c0|] eqn:Hc0.
  2: { eexists. split; [reflexivity|].
       destruct (Nat.ltb_spec (String.length cc) 3); [done|].
       assert (is_Some (Py.index cc 0)) as [? ?]
         by (apply index_Some_length; lia). congruence. }
  unfold bind at 1, ret at 1.
  destruct (Py.index cc 2) as [c2|] eqn:Hc2.
  2: { eexists. split; [reflexivity|].
       destruct (Nat.ltb_spec (String.length cc) 3); [done|].
       assert (is_Some (Py.index cc 2)) as [? ?]
         by (apply index_Some_length; lia). congruence. }
  assert ((3 <=? String.length cc)%nat = true) as Hlen.
  { apply Nat.leb_le.
    assert (2 < String.length cc)%nat
      by (apply index_Some_length; by eexists). lia. }
  rewrite Hlen in Hbad. cbn [andb] in Hbad.
  unfold bind at 1, ret at 1. unfold bind at 1, ret at 1.
  unfold CUDAOpBuilder.int_of_char. rewrite Hbad.
  eexists. split; [reflexivity|].
  apply Nat.leb_le in Hlen.
  destruct (Nat.ltb_spec (String.length cc) 3); [lia|done].
Qed.

(** A list of capabilities is well formed throughout, or has a first
    capability that is not. *)
Lemma first_ill_formed (ccs : list string) :
  Forall (λ cc, capability_well_formed cc = true) ccs ∨
  ∃ pre cc post,
    ccs = pre ++ cc :: post ∧
    Forall (λ cc, capability_well_formed cc = true) pre ∧
    capability_well_formed cc = false.
Proof.
  induction ccs as [|c ccs IH]; [by left|].
  destruct (capability_well_formed c) eqn:Hc.
  - destruct IH as [Hall|(pre & cc & post & -> & Hp & Hcc)].
    + left. by constructor.
    + right. exists (c :: pre), cc, post. split; [done|]. split; [|done].
      by constructor.
  - right. by exists [], c, ccs.
Qed.

(** X8.  Once the capabilities are selected, [compute_capability_args]
    returns exactly when every one of them has at least three characters
    and starts with a decimal digit, and then makes one flag for each and
    one more for each that ends in "+PTX".  At the first capability that is
    not so it raises, IndexError for one shorter than three characters and
    ValueError otherwise, and leaves [enable_bf16] as the capabilities
    before that one set it. *)
Theorem compute_capability_args_returns_iff (E : env)
    (prune : list string → M (list string)) (cross : option string)
    (s : state) (ccs : list string) (s1 : state) :
  CUDAOpBuilder.selected_ccs E prune cross s = (Return ccs, s1) →
  ((∃ args s', CUDAOpBuilder.compute_capability_args E prune cross s =
                 (Return args, s')) ↔
   Forall (λ cc, capability_well_formed cc = true) ccs) ∧
  (∀ args s',
     CUDAOpBuilder.compute_capability_args E prune cross s =
       (Return args, s') →
     length args =
       (length ccs +
        length (filter (λ cc, Py.endswith cc "+PTX" = true) ccs))%nat) ∧
  (∀ pre cc post,
     ccs = pre ++ cc :: post →
     Forall (λ cc, capability_well_formed cc = true) pre →
     capability_well_formed cc = false →
     ∃ e s', CUDAOpBuilder.compute_capability_args E prune cross s =
               (Raise e, s') ∧
             exn_cls e = (if (String.length cc <? 3)%nat then IndexError
                          else ValueError) ∧
             enable_bf16 (self s') = forallb first_char_above_7 pre).
Proof.
  intros Hsel.
  assert (Hrun : CUDAOpBuilder.compute_capability_args E prune cross s =
                 CUDAOpBuilder.gencode ccs [] (set_enable_bf16 true s1).2).
  { unfold CUDAOpBuilder.compute_capability_args.
    rewrite (bind_Return _ _ _ _ _ Hsel). reflexivity. }
  assert (Hbad : ∀ pre cc post,
            ccs = pre ++ cc :: post →
            Forall (λ cc, capability_well_formed cc = true) pre →
            capability_well_formed cc = false →
            ∃ e s', CUDAOpBuilder.compute_capability_args E prune cross s =
                      (Raise e, s') ∧
                    exn_cls e = (if (String.length cc <? 3)%nat
                                 then IndexError else ValueError) ∧
                    enable_bf16 (self s') = forallb first_char_above_7 pre).
  { intros pre cc post -> Hpre Hcc. rewrite Hrun, gencode_app.
    destruct (gencode_ok pre [] (set_enable_bf16 true s1).2 Hpre)
      as (a1 & s2 & Hpre_run & Hbf & _).
    rewrite (bind_Return _ _ _ _ _ Hpre_run).
    destruct (gencode_cons_bad cc post a1 s2 Hcc) as (e & Hraise & Hcls).
    exists e, s2. by rewrite Hraise. }
  split; [split|split]; [| | |exact Hbad].
  - intros (args & s' & Hret).
    destruct (first_ill_formed ccs)
      as [Hall|(pre & cc & post & Heq & Hp & Hc)]; [done|].
    destruct (Hbad pre cc post Heq Hp Hc) as (e & s2 & Hraise & _).
    congruence.
  - intros Hall.
    destruct (gencode_ok ccs [] (set_enable_bf16 true s1).2 Hall)
      as (args & s' & Hok & _).
    exists args, s'. by rewrite Hrun.
  - intros args s' Hret.
    destruct (first_ill_formed ccs)
      as [Hall|(pre & cc & post & Heq & Hp & Hc)].
    2: { destruct (Hbad pre cc post Heq Hp Hc) as (e & s2 & Hraise & _).
         congruence. }
    destruct (gencode_ok ccs [] (set_enable_bf16 true s1).2 Hall)
      as (args' & s'' & Hok & _ & Hlen).
    rewrite Hrun, Hok in Hret. injection Hret as <- <-. by rewrite Hlen.
Qed.

Lemma compute_capability_args_returns_iff_witness :
  ∃ args s',
    CUDAOpBuilder.compute_capability_args linux_box CUDAOpBuilder.filter_ccs
      None cross_process = (Return args, s') ∧
    length args = 5%nat.
Proof.
  pose proof (compute_capability_args_returns_iff linux_box
                CUDAOpBuilder.filter_ccs None cross_process
                ["6.0"; "6.1"; "7.5"; "8.6+PTX"] cross_process eq_refl)
    as (Hiff & Hlen & _).
  destruct (proj2 Hiff) as (args & s' & Hret).
  { repeat constructor. }
  exists args, s'. split; [exact Hret|].
  rewrite (Hlen _ _ Hret). reflexivity.
Defined.

(** ** The default capabilities *)

Lemma selected_ccs_default (E : env) (s : state) :
  jit_mode (self s) = false →
  environ s !! "TORCH_CUDA_ARCH_LIST" = None →
  CUDAOpBuilder.selected_ccs E CUDAOpBuilder.filter_ccs None s =
  (do d <- get_default_compute_capabilities E; ret (Py.split ";" d)) s.
Proof.
  intros Hjit Hv. unfold CUDAOpBuilder.selected_ccs.
  unfold bind at 1, get_self at 1. rewrite Hjit.
  assert (Hc : CUDAOpBuilder.cross_compile_ccs E None s =
               (do d <- get_default_compute_capabilities E;
                ret (Py.split ";" d)) s).
  { unfold CUDAOpBuilder.cross_compile_ccs.
    unfold bind at 1, get_environ at 1.
    unfold OpBuilder.TORCH_CUDA_ARCH_LIST. by rewrite Hv. }
  unfold bind at 1. rewrite Hc.
  unfold bind.
  destruct (get_default_compute_capabilities E s) as [[d|e] s1]; [|done].
  unfold ret at 1. unfold CUDAOpBuilder.filter_ccs, ret at 1.
  pose proof (split_nonempty ";" d). by destruct (Py.split ";" d).
Qed.

(** X9.  In cross-compile mode, with TORCH_CUDA_ARCH_LIST unset and no
    [cross_compile_archs] argument, [compute_capability_args] ends as
    [get_default_compute_capabilities] does: when that raises, the same
    exception leaves the method; when it returns the string [d], the
    method returns one flag for each capability of [d], the Volta one
    first and none for PTX, and it leaves [enable_bf16] False, so that an
    extension built for the default capabilities never gets
    -DBF16_AVAILABLE. *)
Theorem default_capabilities_disable_bf16 (E : env) (s : state) :
  jit_mode (self s) = false →
  environ s !! "TORCH_CUDA_ARCH_LIST" = None →
  (∀ e s1,
     get_default_compute_capabilities E s = (Raise e, s1) →
     CUDAOpBuilder.compute_capability_args E CUDAOpBuilder.filter_ccs None s =
       (Raise e, s1)) ∧
  (∀ d s1,
     get_default_compute_capabilities E s = (Return d, s1) →
     ∃ args s',
       CUDAOpBuilder.compute_capability_args E CUDAOpBuilder.filter_ccs
         None s = (Return args, s') ∧
       enable_bf16 (self s') = false ∧
       length args = length (Py.split ";" d) ∧
       head args = Some "-gencode=arch=compute_70,code=sm_70" ∧
       Forall (λ a, Py.contains a "code=compute_" = false) args).
Proof.
  intros Hjit Hv.
  pose proof (selected_ccs_default E s Hjit Hv) as Hsel.
  split.
  - intros e s1 Hd.
    unfold CUDAOpBuilder.compute_capability_args.
    apply bind_Raise. rewrite Hsel. by apply bind_Raise.
  - intros d s1 Hd.
    destruct (get_default_compute_capabilities_values E s d s1 Hd)
      as [-> Hin].
    assert (Hrun : CUDAOpBuilder.compute_capability_args E
                     CUDAOpBuilder.filter_ccs None s =
                   CUDAOpBuilder.gencode (Py.split ";" d) []
                     (set_enable_bf16 true s).2).
    { unfold CUDAOpBuilder.compute_capability_args.
      unfold bind at 1. rewrite Hsel.
      unfold bind at 1. rewrite Hd. reflexivity. }
    rewrite Hrun.
    repeat (apply elem_of_cons in Hin as [->|Hin];
            [eexists _, _; split; [vm_compute; reflexivity|];
             repeat split; repeat constructor|]).
    by apply elem_of_nil in Hin.
Qed.

Lemma default_capabilities_disable_bf16_witness :
  ∃ args s',
    CUDAOpBuilder.compute_capability_args bare_box CUDAOpBuilder.filter_ccs
      None fresh_process = (Return args, s') ∧
    enable_bf16 (self s') = false.
Proof.
  destruct (proj2 (default_capabilities_disable_bf16 bare_box fresh_process
                     eq_refl eq_refl) "7.0" fresh_process eq_refl)
    as (args & s' & Hret & Hbf & _).
  exists args, s'. split; [exact Hret|exact Hbf].
Defined.

(** ** The capabilities of the visible devices *)

Lemma insert_sorted_Permutation (x : string) (l : list string) :
  Py.insert_sorted x l ≡ₚ x :: l.
Proof.
  induction l as [|y l IH]; [done|].
  cbn [Py.insert_sorted]. destruct (String.ltb x y); [done|].
  rewrite IH. apply Permutation_swap.
Qed.

Lemma sorted_Permutation (l : list string) : Py.sorted l ≡ₚ l.
Proof.
  unfold Py.sorted. rewrite <- (reverse_Permutation l) at 2.
  induction (reverse l) as [|x r IH]; [done|].
  cbn [foldr]. by rewrite insert_sorted_Permutation, IH.
Qed.

Lemma ltb_false_le (x y : string) : String.ltb x y = false → String.le y x.
Proof.
  unfold String.ltb, String.le, String.leb.
  rewrite (String.compare_antisym x y).
  by destruct (String.compare y x).
Qed.

Lemma ltb_true_le (x y : string) : String.ltb x y = true → String.le x y.
Proof.
  unfold String.ltb, String.le, String.leb.
  by destruct (String.compare x y).
Qed.

Lemma insert_sorted_StronglySorted (x : string) (l : list string) :
  StronglySorted String.le l → StronglySorted String.le (Py.insert_sorted x l).
Proof.
  induction 1 as [|y l Hs IH Hall]; cbn [Py.insert_sorted].
  - repeat constructor.
  - destruct (String.ltb x y) eqn:Hxy.
    + apply ltb_true_le in Hxy. constructor; [by constructor|].
      constructor; [done|].
      eapply Forall_impl; [exact Hall|]. intros z Hz. by etrans.
    + apply ltb_false_le in Hxy. constructor; [done|].
      rewrite insert_sorted_Permutation. by constructor.
Qed.

Lemma sorted_StronglySorted (l : list string) :
  StronglySorted String.le (Py.sorted l).
Proof.
  unfold Py.sorted. induction (reverse l) as [|x r IH]; cbn [foldr].
  - constructor.
  - by apply insert_sorted_StronglySorted.
Qed.

Lemma StronglySorted_last (l : list string) (top : string) :
  StronglySorted String.le (l ++ [top]) → Forall (λ x, String.le x top) l.
Proof.
  induction l as [|y l IH]; [done|].
  cbn [app]. intros Hs. apply StronglySorted_inv in Hs as [Hs Hall].
  constructor; [|by apply IH].
  apply Forall_app in Hall as [_ Hall]. by inversion Hall.
Qed.

(** The loop that collects the capabilities keeps what it has, adds each new
    one once and nothing else. *)
Lemma device_ccs_fold (caps : list (Z * Z)) (acc : list string) :
  let ccs := fold_left (λ ccs cap,
                          let cc := dotted cap.1 cap.2 in
                          if Py.mem cc ccs then ccs else ccs ++ [cc])
               caps acc in
  (NoDup acc → NoDup ccs) ∧
  ∀ cc, cc ∈ ccs ↔ cc ∈ acc ∨ ∃ cap, cap ∈ caps ∧ cc = dotted cap.1 cap.2.
Proof.
  revert acc. induction caps as [|cap caps IH]; intros acc; cbn [fold_left].
  - split; [done|]. intros cc. split; [by left|].
    intros [H|(cap & H & _)]; [done|]. by apply elem_of_nil in H.
  - cbn zeta. destruct (Py.mem (dotted cap.1 cap.2) acc) eqn:Hm.
    + destruct (IH acc) as [Hnd Hin]. split; [done|].
      intros cc. rewrite Hin. split.
      * intros [H|(c & H & ->)]; [by left|]. right. exists c.
        split; [by right|done].
      * intros [H|(c & H & ->)]; [by left|].
        apply elem_of_cons in H as [->|H].
        -- left. by apply mem_elem_of.
        -- right. by exists c.
    + destruct (IH (acc ++ [dotted cap.1 cap.2])) as [Hnd Hin]. split.
      * intros Hacc. apply Hnd. apply NoDup_app. split; [done|].
        split; [|apply NoDup_singleton].
        intros x Hx ->%list_elem_of_singleton.
        apply mem_elem_of in Hx. congruence.
      * intros cc. rewrite Hin, elem_of_app, list_elem_of_singleton. split.
        -- intros [[H| ->]|(c & H & ->)].
           ++ by left.
           ++ right. exists cap. split; [by left|done].
           ++ right. exists c. split; [by right|done].
        -- intros [H|(c & H & ->)]; [by left; left|].
           apply elem_of_cons in H as [->|H].
           ++ left. by right.
           ++ right. by exists c.
Qed.

Lemma device_ccs_spec (E : env) :
  NoDup (CUDAOpBuilder.device_ccs E) ∧
  ∀ cc, cc ∈ CUDAOpBuilder.device_ccs E ↔
        ∃ cap, cap ∈ device_capabilities E ∧ cc = dotted cap.1 cap.2.
Proof.
  destruct (device_ccs_fold (device_capabilities E) []) as [Hnd Hin].
  split.
  - apply Hnd, NoDup_nil_2.
  - intros cc. unfold CUDAOpBuilder.device_ccs. rewrite Hin. split.
    + intros [H|H]; [by apply elem_of_nil in H|done].
    + intros H. by right.
Qed.

(** X10.  In jit mode, on a machine with a visible device, the capabilities
    [compute_capability_args] makes flags for are the capabilities of the
    devices, written major.minor, each once whatever the number of devices
    that have it, in increasing order of their strings, the last one, which
    no other exceeds in that order, followed by +PTX; the builder and the
    environment are as before. *)
Theorem jit_ccs_tags_greatest (E : env) (cross : option string) (s : state) :
  jit_mode (self s) = true →
  device_capabilities E ≠ [] →
  ∃ rest top,
    CUDAOpBuilder.selected_ccs E CUDAOpBuilder.filter_ccs cross s =
      (Return (rest ++ [top +:+ "+PTX"]), s) ∧
    NoDup (rest ++ [top]) ∧
    StronglySorted String.le (rest ++ [top]) ∧
    (∀ cc, cc ∈ rest → String.ltb cc top = true) ∧
    (∀ cc, cc ∈ rest ++ [top] ↔
           ∃ cap, cap ∈ device_capabilities E ∧ cc = dotted cap.1 cap.2).
Proof.
  intros Hjit Hdev.
  destruct (device_ccs_spec E) as [Hnd Hin].
  pose proof (sorted_Permutation (CUDAOpBuilder.device_ccs E)) as Hperm.
  pose proof (sorted_StronglySorted (CUDAOpBuilder.device_ccs E)) as Hsorted.
  destruct (Py.sorted (CUDAOpBuilder.device_ccs E)) as [|c l] eqn:Hs
    using rev_ind.
  { apply Permutation_nil_l in Hperm.
    destruct (device_capabilities E) as [|cap caps]; [done|].
    assert (dotted cap.1 cap.2 ∈ CUDAOpBuilder.device_ccs E) as Habs.
    { apply Hin. exists cap. split; [by left|done]. }
    rewrite <- Hperm in Habs. by apply elem_of_nil in Habs. }
  clear IHl. exists l, c.
  assert (Hnd' : NoDup (l ++ [c])) by by rewrite Hperm.
  split; [|split; [done|split; [done|split]]].
  - unfold CUDAOpBuilder.selected_ccs.
    unfold bind at 1, get_self at 1. rewrite Hjit.
    unfold bind at 1, CUDAOpBuilder.jit_ccs. rewrite Hs.
    rewrite length_app, Nat.add_sub. cbn [length].
    rewrite (lookup_app_r l [c] (length l)), Nat.sub_diag by lia.
    cbn [lookup list_lookup]. unfold ret at 1.
    rewrite (insert_app_r_alt l [c] (length l)), Nat.sub_diag by lia.
    cbn [insert list_insert].
    unfold CUDAOpBuilder.filter_ccs, bind, ret.
    rewrite length_app. cbn [length].
    by destruct (length l + 1 =? 0)%nat eqn:H0; [apply Nat.eqb_eq in H0; lia|].
  - intros cc Hcc.
    pose proof (StronglySorted_last l c Hsorted) as Hle.
    rewrite Forall_forall in Hle. specialize (Hle cc Hcc).
    apply NoDup_app in Hnd' as (_ & Hdis & _).
    assert (cc ≠ c) as Hne.
    { intros ->. apply (Hdis c Hcc). by apply list_elem_of_singleton. }
    unfold String.le, String.leb in Hle. unfold String.ltb.
    destruct (String.compare cc c) eqn:Hcmp; [|done|done].
    by apply String.compare_eq_iff in Hcmp.
  - intros cc. rewrite Hperm. apply Hin.
Qed.

Lemma jit_ccs_tags_greatest_witness :
  ∃ rest top,
    CUDAOpBuilder.selected_ccs linux_box CUDAOpBuilder.filter_ccs None
      jit_process = (Return (rest ++ [top +:+ "+PTX"]), jit_process) ∧
    NoDup (rest ++ [top]).
Proof.
  destruct (jit_ccs_tags_greatest linux_box None jit_process eq_refl)
    as (rest & top & Hsel & Hnd & _).
  { discriminate. }
  exists rest, top. split; [exact Hsel|exact Hnd].
Defined.

(** ** What jit_load does when it does not return *)

(** X11.  [jit_load] refuses before it touches anything: when
    [is_compatible] answers False it raises a RuntimeError, and when it
    answers True and the import of ninja raises, an ImportError is turned
    into a RuntimeError and any other exception passes as it is.  In each
    case the builder, the environment and the trace are as
    [is_compatible] left them: [jit_mode] is not switched,
    TORCH_CUDA_ARCH_LIST is not touched and nothing is handed to the build
    call. *)
Theorem jit_load_refuses (E : env) (k : Virtual.table) (verbose : bool)
    (s : state) (compatible : bool) (s1 : state) :
  Virtual.is_compatible k verbose s = (Return compatible, s1) →
  (compatible = false →
     ∃ e, OpBuilder.jit_load E k verbose s = (Raise e, s1) ∧
          exn_cls e = RuntimeError) ∧
  (compatible = true →
     ∀ e0, import_ninja E = Raise e0 →
       ∃ e, OpBuilder.jit_load E k verbose s = (Raise e, s1) ∧
            exn_cls e = (if is_ImportError (exn_cls e0) then RuntimeError
                         else exn_cls e0)).
Proof.
  intros Hcompat. unfold OpBuilder.jit_load.
  rewrite (bind_Return _ _ _ _ _ Hcompat).
  unfold bind at 1, get_self at 1.
  split.
  - intros ->. cbn [negb]. eexists.
    split; [unfold bind at 1; reflexivity|reflexivity].
  - intros -> e0 Hninja. cbn [negb]. unfold bind at 1, ret at 1.
    unfold bind at 1, try_except at 1, of_result at 1. rewrite Hninja.
    destruct (is_ImportError (exn_cls e0)).
    + eexists. split; [reflexivity|reflexivity].
    + exists e0. split; reflexivity.
Qed.

Lemma jit_load_refuses_witness :
  ∃ e, OpBuilder.jit_load linux_box
         {| Virtual.is_CUDAOpBuilder := false;
            Virtual.absolute_name := ret "atorch.ops.cpu_adam";
            Virtual.sources := ret [];
            Virtual.include_paths := ret [];
            Virtual.nvcc_args := ret [];
            Virtual.cxx_args := ret [];
            Virtual.is_compatible := λ _, ret false;
            Virtual.extra_ldflags := ret [];
            Virtual.libraries_args := ret [] |}
         true fresh_process = (Raise e, fresh_process) ∧
       exn_cls e = RuntimeError.
Proof.
  match goal with
  | |- context [OpBuilder.jit_load _ ?k] =>
      apply (jit_load_refuses linux_box k true fresh_process false
               fresh_process eq_refl)
  end.
  reflexivity.
Defined.

(** X12.  [jit_load] does not put TORCH_CUDA_ARCH_LIST back when the build
    fails: for a builder whose class derives from [OpBuilder] alone, with
    ninja importable, an exception of the build call leaves [jit_load] as
    it is, the build having been asked for once, under the blanked
    variable, with the sources made absolute, the empty ones dropped, and
    no flags; afterwards the variable, if it was set, is still blank, and
    [jit_mode] is True. *)
Theorem jit_load_failed_build (E : env) (nm : string) (srcs : list string)
    (verbose : bool) (s : state) (e : exn) :
  import_ninja E = Return tt →
  (∀ a, cpp_extension_load E a = Raise e) →
  ∃ s',
    OpBuilder.jit_load E (OpBuilder.class nm srcs) verbose s = (Raise e, s') ∧
    environ s' = blanked (environ s) ∧
    jit_mode (self s') = true ∧
    out s' =
      out s ++
      [Load {| load_name := name (self s);
               load_sources :=
                 OpBuilder.strip_empty_entries
                   (map (OpBuilder.atorch_src_path E) srcs);
               load_extra_include_paths := [];
               load_extra_cflags := [];
               load_extra_cuda_cflags := [];
               load_extra_ldflags := [];
               load_verbose := verbose |}
            (blanked (environ s))].
Proof.
  intros Hninja Hload. unfold OpBuilder.jit_load, OpBuilder.class.
  cbn [Virtual.is_compatible Virtual.is_CUDAOpBuilder Virtual.sources
       Virtual.include_paths Virtual.nvcc_args Virtual.cxx_args
       Virtual.extra_ldflags andb].
  unfold OpBuilder.is_compatible, OpBuilder.include_paths,
    OpBuilder.nvcc_args, OpBuilder.cxx_args, OpBuilder.extra_ldflags.
  unfold try_except, of_result. rewrite Hninja.
  unfold OpBuilder.TORCH_CUDA_ARCH_LIST, blanked.
  destruct (environ s !! "TORCH_CUDA_ARCH_LIST") as [v|] eqn:Hv.
  - eexists. cbv [bind ret get_self get_environ set_jit_mode set_self
                  set_environ emit negb raise].
    cbn [environ self out jit_mode name]. rewrite Hv.
    cbn [environ self out jit_mode name]. rewrite Hload.
    cbn [environ self out jit_mode name]. done.
  - eexists. cbv [bind ret get_self get_environ set_jit_mode set_self
                  set_environ emit negb raise].
    cbn [environ self out jit_mode name]. rewrite Hv.
    cbn [environ self out jit_mode name]. rewrite Hload.
    cbn [environ self out jit_mode name]. done.
Qed.

Lemma jit_load_failed_build_witness :
  ∃ s',
    OpBuilder.jit_load arm_box (OpBuilder.class "atorch.ops.cpu_adam" [])
      false cross_process =
      (Raise (Exc RuntimeError "Error building extension"), s') ∧
    environ s' !! "TORCH_CUDA_ARCH_LIST" = Some "".
Proof.
  destruct (jit_load_failed_build arm_box "atorch.ops.cpu_adam" [] false
              cross_process (Exc RuntimeError "Error building extension")
              eq_refl (λ _, eq_refl))
    as (s' & Hrun & Henv & _).
  exists s'. split; [exact Hrun|]. rewrite Henv. reflexivity.
Defined.

(** ** The extension a CUDA builder describes *)

(** X13.  The extension [CUDAOpBuilder.builder] returns is a CppExtension
    without nvcc flags exactly when the CUDA version check raised, whatever
    it raised, and a CUDAExtension with nvcc flags, none of them empty,
    exactly when the check returned; either way it names its libraries,
    and [build_for_cpu] was set to whether the check raised before any
    method of the builder was called. *)
Theorem builder_kind_follows_check (E : env) (k : Virtual.table) (s : state)
    (ext : extension) (s' : state) :
  CUDAOpBuilder.builder E k s = (Return ext, s') →
  let failed := is_raise (assert_no_cuda_mismatch E s).1 in
  ext_kind ext = (if failed then CppExtension else CUDAExtension) ∧
  (failed = true → ext_nvcc ext = None) ∧
  (failed = false → ∃ nvcc, ext_nvcc ext = Some nvcc ∧ no_empty_entry nvcc) ∧
  ext_libraries ext ≠ None ∧
  ∃ cxx s1 s2,
    Virtual.cxx_args k s1 = (Return cxx, s2) ∧
    build_for_cpu (self s1) = failed ∧
    out s1 = out (assert_no_cuda_mismatch E s).2.
Proof.
  intros H failed. unfold CUDAOpBuilder.builder in H.
  apply bind_Return_inv in H as ([] & s1 & Htry & H).
  assert (Hs1 : build_for_cpu (self s1) = failed ∧
                out s1 = out (assert_no_cuda_mismatch E s).2).
  { unfold try_except, bind in Htry. unfold failed.
    destruct (assert_no_cuda_mismatch E s) as [[b|e] s0].
    - injection Htry as <-. done.
    - injection Htry as <-. done. }
  destruct Hs1 as [Hcpu Hout].
  apply bind_Return_inv in H as (b & s2 & [= <- <-] & H).
  rewrite Hcpu in H.
  apply bind_Return_inv in H as (cxx & s3 & Hcxx & H).
  apply bind_Return_inv in H as (nvcc & s4 & Hnvcc & H).
  apply bind_Return_inv in H as (b' & s5 & _ & H).
  apply bind_Return_inv in H as (srcs & s6 & _ & H).
  apply bind_Return_inv in H as (incs & s7 & _ & H).
  apply bind_Return_inv in H as (nm & s8 & _ & H).
  apply bind_Return_inv in H as (libs & s9 & _ & H).
  apply bind_Return_inv in H as (ld & s10 & _ & H).
  injection H as <- _. cbn [ext_kind ext_nvcc ext_libraries].
  split; [done|]. split; [|split; [|split; [done|]]].
  - intros Hf. rewrite Hf in Hnvcc. by injection Hnvcc as <-.
  - intros Hf. rewrite Hf in Hnvcc.
    apply bind_Return_inv in Hnvcc as (raw & s4' & _ & Hret).
    injection Hret as <- _.
    eexists. split; [done|]. apply strip_empty_entries_no_empty.
  - by exists cxx, s1, s3.
Qed.

Lemma builder_kind_follows_check_witness :
  ∃ ext s',
    CUDAOpBuilder.builder bare_box
      (CUDAOpBuilder.class bare_box "atorch.ops.adam" ["csrc/adam.cu"])
      fresh_process = (Return ext, s') ∧
    ext_kind ext = CppExtension ∧ ext_nvcc ext = None.
Proof.
  assert (Hrun : ∃ ext s',
             CUDAOpBuilder.builder bare_box
               (CUDAOpBuilder.class bare_box "atorch.ops.adam"
                  ["csrc/adam.cu"])
               fresh_process = (Return ext, s')).
  { eexists _, _. vm_compute. reflexivity. }
  destruct Hrun as (ext & s' & Hrun).
  destruct (builder_kind_follows_check _ _ _ _ _ Hrun)
    as (Hkind & Hnone & _).
  exists ext, s'. split; [exact Hrun|]. split; [exact Hkind|].
  apply Hnone. reflexivity.
Defined.

(** ** Loading an installed op *)

(** X14.  For an op the package lists as installed, [load] never builds:
    with a class whose [absolute_name] is the constant [nm] it returns
    exactly when the installed torch version is the running one cut to
    major.minor, the installed CUDA version is likewise that of torch when
    CUDA is available and the builder is a CUDA one, and the import of
    [nm] returns; it then returns what the import gave.  However it ends,
    the builder, the environment and the trace are as on entry.  An op
    not listed, or listed as False, is loaded by [jit_load]. *)
Theorem load_installed_returns_iff (E : env) (I : install)
    (k : Virtual.table) (nm : string) (verbose : bool) (s : state) :
  Virtual.absolute_name k = ret nm →
  (installed_ops I !! name (self s) = Some true →
   (∀ r s', OpBuilder.load E I k verbose s = (r, s') → s' = s) ∧
   ∀ m,
     OpBuilder.load E I k verbose s = (Return m, s) ↔
     torch_info I !! "version" = Some (major_minor (torch___version__ I)) ∧
     (cuda_is_available I && Virtual.is_CUDAOpBuilder k = true →
      ∃ v, torch_version_cuda E = Some v ∧
           torch_info I !! "cuda_version" = Some (major_minor v)) ∧
     import_module I nm = Return m) ∧
  (installed_ops I !! name (self s) ≠ Some true →
   OpBuilder.load E I k verbose s = OpBuilder.jit_load E k verbose s).
Proof.
  intros Hname. split.
  - intros Hinst.
    assert (Hloaded :
              OpBuilder.load E I k verbose s =
              (OpBuilder.validate_torch_version I;;
               (if cuda_is_available I && Virtual.is_CUDAOpBuilder k
                then OpBuilder.validate_torch_op_version E I else ret tt);;
               do nm0 <- ret nm; of_result (import_module I nm0)) s).
    { unfold OpBuilder.load. unfold bind at 1, get_self at 1.
      rewrite Hinst, Hname. reflexivity. }
    rewrite Hloaded. clear Hloaded.
    unfold OpBuilder.validate_torch_version,
      OpBuilder.validate_torch_op_version, torch_cuda, OpBuilder.info_item.
    unfold bind, ret, raise, of_result.
    destruct (torch_info I !! "version") as [v|] eqn:Hv.
    2: { split; [by intros r s' [= _ <-]|].
         intros m. split; [done|]. by intros [[=] _]. }
    destruct (String.eqb v (major_minor (torch___version__ I))) eqn:Heq;
      cbn [negb].
    2: { split; [by intros r s' [= _ <-]|].
         intros m. split; [done|]. intros [[= ->] _].
         by rewrite String.eqb_refl in Heq. }
    apply String.eqb_eq in Heq. subst v.
    destruct (cuda_is_available I && Virtual.is_CUDAOpBuilder k).
    + destruct (torch_version_cuda E) as [tv|].
      2: { split; [by intros r s' [= _ <-]|].
           intros m. split; [done|]. intros (_ & Hc & _).
           by destruct (Hc eq_refl) as (? & [=] & _). }
      destruct (torch_info I !! "cuda_version") as [cv|] eqn:Hcv.
      2: { split; [by intros r s' [= _ <-]|].
           intros m. split; [done|]. intros (_ & Hc & _).
           by destruct (Hc eq_refl) as (? & _ & [=]). }
      destruct (String.eqb cv (major_minor tv)) eqn:Hceq; cbn [negb].
      2: { split; [by intros r s' [= _ <-]|].
           intros m. split; [done|]. intros (_ & Hc & _).
           destruct (Hc eq_refl) as (? & [= <-] & [= ->]).
           by rewrite String.eqb_refl in Hceq. }
      apply String.eqb_eq in Hceq. subst cv.
      split; [by intros r s' [= _ <-]|].
      intros m. split.
      * intros [= ->]. split; [done|]. split; [|done].
        intros _. by exists tv.
      * by intros (_ & _ & ->).
    + split; [by intros r s' [= _ <-]|].
      intros m. split.
      * intros [= ->]. done.
      * by intros (_ & _ & ->).
  - intros Hinst. unfold OpBuilder.load. unfold bind at 1, get_self at 1.
    destruct (installed_ops I !! name (self s)) as [[]|]; done.
Qed.

Lemma load_installed_returns_iff_witness :
  OpBuilder.load linux_box
    {| installed_ops := {[ "cpu_adam" := true ]};
       torch_info := {[ "version" := "2.1"; "cuda_version" := "11.0" ]};
       torch___version__ := "2.1.0+cu118";
       cuda_is_available := true;
       import_module := λ nm, Return nm |}
    (CUDAOpBuilder.class linux_box "atorch.ops.cpu_adam" [])
    true fresh_process =
  (Return "atorch.ops.cpu_adam", fresh_process).
Proof.
  match goal with
  | |- OpBuilder.load ?E ?I ?k ?v ?s = _ =>
      apply (proj2 (proj1 (load_installed_returns_iff E I k
                             "atorch.ops.cpu_adam" v s eq_refl) eq_refl)
               "atorch.ops.cpu_adam")
  end.
  split; [vm_compute; reflexivity|]. split; [|reflexivity].
  intros _. exists "11.0". split; vm_compute; reflexivity.
Defined.

(** ** The version macros *)

(** X15.  The macros of [version_dependent_macros] form a chain: the list
    is a leading part of -DVERSION_GE_1_1, -DVERSION_GE_1_3,
    -DVERSION_GE_1_5, all three from torch 2 on and none before torch 1,
    and a later torch gets every macro an earlier one gets, in the same
    places. *)
Theorem version_dependent_macros_chain (M m M' m' : Z) :
  CUDAOpBuilder.version_dependent_macros M m =
    take (if (1 <? M)%Z then 3
          else if (M <? 1)%Z then 0
          else if (4 <? m)%Z then 3
          else if (2 <? m)%Z then 2
          else if (0 <? m)%Z then 1 else 0)%nat
      ["-DVERSION_GE_1_1"; "-DVERSION_GE_1_3"; "-DVERSION_GE_1_5"] ∧
  ((M < M' ∨ (M = M' ∧ m ≤ m'))%Z →
   CUDAOpBuilder.version_dependent_macros M m `prefix_of`
   CUDAOpBuilder.version_dependent_macros M' m').
Proof.
  unfold CUDAOpBuilder.version_dependent_macros. split.
  - repeat match goal with
           | |- context [(?a <? ?b)%Z] => destruct (Z.ltb_spec a b)
           | |- context [(?a =? ?b)%Z] => destruct (Z.eqb_spec a b)
           end; cbn; first [reflexivity | lia].
  - intros Hle.
    repeat match goal with
           | |- context [(?a <? ?b)%Z] => destruct (Z.ltb_spec a b)
           | |- context [(?a =? ?b)%Z] => destruct (Z.eqb_spec a b)
           end; cbn; first [lia | by eexists].
Qed.

Lemma version_dependent_macros_chain_witness :
  CUDAOpBuilder.version_dependent_macros 1 4 `prefix_of`
  CUDAOpBuilder.version_dependent_macros 1 13.
Proof.
  apply (version_dependent_macros_chain 1 4 1 13). right. split; [reflexivity|].
  lia.
Defined.

(** ** The CUDA define of a TorchCPUOpBuilder *)

(** Whether the CUDA version check raises depends on the machine and on
    os.environ only. *)
Lemma check_raises_environ (E : env) (s s' : state) :
  environ s = environ s' →
  is_raise (assert_no_cuda_mismatch E s).1 =
  is_raise (assert_no_cuda_mismatch E s').1.
Proof.
  intros He.
  unfold assert_no_cuda_mismatch, installed_cuda_version, torch_cuda, getenv,
    print, emit.
  cbv [bind ret raise of_result get_environ].
  destruct (CUDA_HOME E); [|done].
  destruct (nvcc_release E) as [[a b]|e]; [|done].
  destruct (torch_version_cuda E); [|done].
  destruct (negb _); [|done].
  destruct (minor_mismatch_ok _ _ _); [done|].
  rewrite He. by destruct (String.eqb _ "1").
Qed.

(** What [probe_cpu] returns early is the fallback it was given. *)
Lemma probe_cpu_inl (E : env) (who fb : string) (s : state) (v : string)
    (s' : state) :
  OpBuilder.probe_cpu E who fb s = (Return (inl v), s') → v = fb.
Proof.
  unfold OpBuilder.probe_cpu. intros H.
  apply bind_Return_inv in H as (r & s1 & Htry & H).
  destruct r as [v0|bound].
  - injection H as <- _.
    unfold try_except in Htry.
    destruct ((of_result (import_cpuinfo E);; ret (inr true)) s)
      as [[a|e] s0] eqn:Hm.
    + unfold bind, of_result, ret in Hm.
      destruct (import_cpuinfo E); by simplify_eq.
    + destruct (is_ImportError (exn_cls e)); [|done].
      apply bind_Return_inv in Htry as ([] & s2 & _ & Htry).
      apply bind_Return_inv in Htry as (ci & s3 & _ & Htry).
      destruct ci; cbv [ret] in Htry; by simplify_eq.
  - unfold try_except in H.
    destruct ((do cpu_info <- OpBuilder.call_get_cpu_info E bound;
               ret (inr cpu_info)) s1) as [[a|e] s0] eqn:Hm.
    + apply bind_Return_inv in Hm as (ci & s2 & _ & Hm).
      cbv [ret] in Hm. by simplify_eq.
    + destruct (is_Exception (exn_cls e)); [|done].
      apply bind_Return_inv in H as (b & s2 & _ & H).
      apply bind_Return_inv in H as ([] & s3 & _ & H).
      apply bind_Return_inv in H as (ci & s4 & _ & H).
      destruct ci; cbv [ret] in H; by simplify_eq.
Qed.

Lemma cpu_arch_values (E : env) (s : state) (a : string) (s' : state) :
  OpBuilder.cpu_arch E s = (Return a, s') →
  a = "-march=native" ∨ a = "-mcpu=native".
Proof.
  unfold OpBuilder.cpu_arch. intros H.
  apply bind_Return_inv in H as (r & s1 & Hp & H).
  destruct r as [v|d].
  - apply probe_cpu_inl in Hp. injection H as <- _. by left.
  - apply bind_Return_inv in H as (arch & s2 & _ & H).
    apply bind_Return_inv in H as (ppc & s3 & _ & H).
    destruct ppc; injection H as <- _; [by right|by left].
Qed.

Lemma simd_width_values (E : env) (s : state) (w : string) (s' : state) :
  OpBuilder.simd_width E s = (Return w, s') →
  w = "-D__AVX512__" ∨ w = "-D__AVX256__" ∨ w = "-D__SCALAR__".
Proof.
  unfold OpBuilder.simd_width. intros H.
  apply bind_Return_inv in H as (r & s1 & Hp & H).
  destruct r as [v|d].
  - apply probe_cpu_inl in Hp. injection H as <- _. by right; right.
  - unfold OpBuilder.simd_width_of in H.
    apply bind_Return_inv in H as (arch & s2 & _ & H).
    destruct (OpBuilder.value_eq arch "X86_64").
    2: { injection H as <- _. by right; right. }
    apply bind_Return_inv in H as (flags & s3 & _ & H).
    apply bind_Return_inv in H as (a1 & s4 & _ & H).
    apply bind_Return_inv in H as (a2 & s5 & _ & H).
    destruct a2.
    { injection H as <- _. by left. }
    apply bind_Return_inv in H as (flags' & s6 & _ & H).
    apply bind_Return_inv in H as (avx2 & s7 & _ & H).
    destruct avx2; injection H as <- _; [by right; left|by right; right].
Qed.

Lemma is_cuda_enable_flag (E : env) (s : state) (flag : string) (s' : state) :
  OpBuilder.is_cuda_enable E s = (Return flag, s') →
  flag = if is_raise (assert_no_cuda_mismatch E s).1
         then "-D__DISABLE_CUDA__" else "-D__ENABLE_CUDA__".
Proof.
  unfold OpBuilder.is_cuda_enable, try_except, bind.
  destruct (assert_no_cuda_mismatch E s) as [[b|e] s1].
  - by intros [= <- _].
  - by intros [= <- _].
Qed.

(** The probes and the checks do not write [build_for_cpu]. *)
Lemma self_run {A} (m : M A) s r s1 :
  keeps_build_for_cpu m → m s = (r, s1) →
  build_for_cpu (self s1) = build_for_cpu (self s).
Proof. intros Hk Hm. specialize (Hk s). by rewrite Hm in Hk. Qed.

Lemma self_ret {A} (a : A) : keeps_build_for_cpu (ret a).
Proof. done. Qed.

Lemma self_raise {A} (e : exn) : keeps_build_for_cpu (raise e : M A).
Proof. done. Qed.

Lemma self_of_result {A} (r : result A) : keeps_build_for_cpu (of_result r).
Proof. done. Qed.

Lemma self_get_self : keeps_build_for_cpu get_self.
Proof. done. Qed.

Lemma self_get_environ : keeps_build_for_cpu get_environ.
Proof. done. Qed.

Lemma self_emit ev : keeps_build_for_cpu (emit ev).
Proof. done. Qed.

Lemma self_print line : keeps_build_for_cpu (print line).
Proof. done. Qed.

Lemma self_logger_error line : keeps_build_for_cpu (logger_error line).
Proof. done. Qed.

Lemma self_bind {A B} (m : M A) (k : A → M B) :
  keeps_build_for_cpu m → (∀ a, keeps_build_for_cpu (k a)) → keeps_build_for_cpu (bind m k).
Proof.
  intros Hm Hk s. unfold bind. specialize (Hm s).
  destruct (m s) as [[a|e] s1]; [|done]. rewrite (Hk a s1). done.
Qed.

Lemma self_try_except {A} (m : M A) c (h : exn → M A) :
  keeps_build_for_cpu m → (∀ e, keeps_build_for_cpu (h e)) → keeps_build_for_cpu (try_except m c h).
Proof.
  intros Hm Hh s. unfold try_except. specialize (Hm s).
  destruct (m s) as [[a|e] s1]; [done|].
  destruct (c (exn_cls e)); [|done]. rewrite (Hh e s1). done.
Qed.

Lemma self_warning msg : keeps_build_for_cpu (OpBuilder.warning msg).
Proof. done. Qed.

Create HintDb reads_self.
#[local] Hint Resolve self_warning self_ret self_raise self_of_result self_get_self
  self_get_environ self_emit self_print self_logger_error : reads_self.

Ltac reads_self :=
  repeat first
    [ progress intros
    | solve [auto with reads_self]
    | apply self_bind
    | apply self_try_except
    | match goal with
      | |- keeps_build_for_cpu (if ?b then _ else _) => destruct b
      | |- keeps_build_for_cpu (match ?x with _ => _ end) => destruct x
      | |- keeps_build_for_cpu (let _ := _ in _) => cbv zeta
      end ].

Lemma self_assert_no_cuda_mismatch E : keeps_build_for_cpu (assert_no_cuda_mismatch E).
Proof.
  unfold assert_no_cuda_mismatch, installed_cuda_version, torch_cuda, getenv.
  reads_self.
Qed.

Lemma self_backup_cpuinfo E : keeps_build_for_cpu (OpBuilder._backup_cpuinfo E).
Proof.
  unfold OpBuilder._backup_cpuinfo, OpBuilder.command_exists.
  reads_self.
Qed.

#[local] Hint Resolve self_assert_no_cuda_mismatch self_backup_cpuinfo
  : reads_self.

Lemma self_probe_cpu E who fb : keeps_build_for_cpu (OpBuilder.probe_cpu E who fb).
Proof.
  unfold OpBuilder.probe_cpu, OpBuilder.call_get_cpu_info.
  reads_self.
Qed.

#[local] Hint Resolve self_probe_cpu : reads_self.

Lemma self_cpu_arch E : keeps_build_for_cpu (OpBuilder.cpu_arch E).
Proof.
  unfold OpBuilder.cpu_arch, OpBuilder.getitem, OpBuilder.value_startswith.
  reads_self.
Qed.

Lemma self_simd_width E : keeps_build_for_cpu (OpBuilder.simd_width E).
Proof.
  unfold OpBuilder.simd_width, OpBuilder.simd_width_of, OpBuilder.getitem,
    OpBuilder.value_contains.
  reads_self.
Qed.

Lemma self_is_cuda_enable E : keeps_build_for_cpu (OpBuilder.is_cuda_enable E).
Proof. unfold OpBuilder.is_cuda_enable. reads_self. Qed.

(** X16.  The extension [builder] describes for a [TorchCPUOpBuilder] is
    coherent with the CUDA version check made on entry.  When the check
    raised, it is a CppExtension whose C++ flags are the CPU flag,
    -fopenmp, the SIMD define and -D__DISABLE_CUDA__ and nothing else.
    When the check returned, it is a CUDAExtension whose C++ flags are
    those of [CUDAOpBuilder], the CUDA library flags with -g once more,
    then the same four with -D__ENABLE_CUDA__, followed at most by
    -DBF16_AVAILABLE.  The CPU flag is -march=native or -mcpu=native and
    the SIMD define is one of -D__AVX512__, -D__AVX256__ and
    -D__SCALAR__. *)
Theorem torch_cpu_builder_define (E : env) (nm : string) (srcs : list string)
    (s : state) (ext : extension) (s' : state) :
  CUDAOpBuilder.builder E (TorchCPUOpBuilder.class E nm srcs) s =
    (Return ext, s') →
  let failed := is_raise (assert_no_cuda_mismatch E s).1 in
  ext_kind ext = (if failed then CppExtension else CUDAExtension) ∧
  ∃ arch simd,
    (arch = "-march=native" ∨ arch = "-mcpu=native") ∧
    (simd = "-D__AVX512__" ∨ simd = "-D__AVX256__" ∨ simd = "-D__SCALAR__") ∧
    (failed = true →
     ext_cxx ext = [arch; "-fopenmp"; simd; "-D__DISABLE_CUDA__"]) ∧
    (failed = false →
     ∃ home post,
       CUDA_HOME E = Some home ∧
       (post = [] ∨ post = ["-DBF16_AVAILABLE"]) ∧
       ext_cxx ext =
         (if String.eqb (sys_platform E) "win32" then ["-O2"]
          else ["-O3"; "-std=c++17"; "-g"; "-Wno-reorder"]) ++
         ["-L" +:+ os_path_join home "lib64"; "-lcudart"; "-lcublas"; "-g";
          arch; "-fopenmp"; simd; "-D__ENABLE_CUDA__"] ++ post).
Proof.
  intros H failed. unfold CUDAOpBuilder.builder in H.
  cbn [TorchCPUOpBuilder.class Virtual.cxx_args] in H.
  apply bind_Return_inv in H as ([] & s1 & Htry & H).
  assert (Hcpu : build_for_cpu (self s1) = failed).
  { unfold try_except, bind in Htry. unfold failed.
    destruct (assert_no_cuda_mismatch E s) as [[b|e] s0].
    - by injection Htry as <-.
    - by injection Htry as <-. }
  eapply keeps_run in Htry; [|by unfold set_build_for_cpu; frame].
  apply bind_Return_inv in H as (b & s2 & [= <- <-] & H).
  rewrite Hcpu in H.
  apply bind_Return_inv in H as (cxx & s3 & Hcxx & H).
  apply bind_Return_inv in H as (nvcc & s4 & Hnvcc & H).
  apply bind_Return_inv in H as (b' & s5 & [= <- <-] & H).
  apply bind_Return_inv in H as (srcs' & s6 & _ & H).
  apply bind_Return_inv in H as (incs & s7 & _ & H).
  apply bind_Return_inv in H as (nm' & s8 & _ & H).
  apply bind_Return_inv in H as (libs & s9 & _ & H).
  apply bind_Return_inv in H as (ld & s10 & _ & H).
  injection H as <- _. cbn [ext_kind ext_cxx]. split; [done|].
  unfold TorchCPUOpBuilder.cxx_args in Hcxx.
  apply bind_Return_inv in Hcxx as (b0 & s11 & [= <- <-] & Hcxx).
  rewrite Hcpu in Hcxx.
  apply bind_Return_inv in Hcxx as (args0 & s12 & Hargs & Hcxx).
  assert (Hs12 : environ s12 = environ s ∧
                 build_for_cpu (self s12) = build_for_cpu (self s1)).
  { destruct failed; cbn [negb] in Hargs.
    - injection Hargs as _ <-. done.
    - apply bind_Return_inv in Hargs as (home & s13 & Hhome & Hargs).
      destruct (CUDA_HOME E); [|done]. injection Hhome as _ <-.
      apply bind_Return_inv in Hargs as (super & s14 & Hsuper & Hargs).
      apply CUDA_cxx_args_Return in Hsuper as [-> _].
      injection Hargs as _ <-. done. }
  destruct Hs12 as [Henv12 Hself12].
  apply bind_Return_inv in Hcxx as (arch & s13 & Harch & Hcxx).
  pose proof (keeps_run _ _ _ _ (keeps_cpu_arch E) Harch) as Henv13.
  pose proof (self_run _ _ _ _ (self_cpu_arch E) Harch) as Hself13.
  apply cpu_arch_values in Harch.
  apply bind_Return_inv in Hcxx as (simd & s14 & Hsimd & Hcxx).
  pose proof (keeps_run _ _ _ _ (keeps_simd_width E) Hsimd) as Henv14.
  pose proof (self_run _ _ _ _ (self_simd_width E) Hsimd) as Hself14.
  apply simd_width_values in Hsimd.
  apply bind_Return_inv in Hcxx as (flag & s15 & Hflag & Hcxx).
  pose proof (self_run _ _ _ _ (self_is_cuda_enable E) Hflag) as Hself15.
  apply is_cuda_enable_flag in Hflag.
  rewrite (check_raises_environ E s14 s) in Hflag by congruence.
  fold failed in Hflag. injection Hcxx as <- <-.
  assert (Hself3 : build_for_cpu (self s15) = failed) by congruence.
  exists arch, simd. split; [done|]. split; [done|].
  subst flag. split.
  - intros Hf. rewrite Hf in *. cbn [negb] in Hargs.
    injection Hargs as <- _. injection Hnvcc as _ <-.
    rewrite Hself3. cbn [negb andb app].
    destruct Harch as [-> | ->], Hsimd as [-> | [-> | ->]]; reflexivity.
  - intros Hf. rewrite Hf in *. cbn [negb] in Hargs.
    apply bind_Return_inv in Hargs as (home & s16 & Hhome & Hargs).
    destruct (CUDA_HOME E) as [h|]; [|done]. injection Hhome as <- _.
    apply bind_Return_inv in Hargs as (super & s17 & Hsuper & Hargs).
    injection Hargs as <- _. exists h.
    exists (if negb (build_for_cpu (self s4)) && enable_bf16 (self s4)
            then ["-DBF16_AVAILABLE"] else []).
    split; [done|].
    split; [by destruct (negb (build_for_cpu (self s4)) && enable_bf16 (self s4));
            [right|left]|].
    unfold CUDAOpBuilder.cxx_args in Hsuper.
    assert (Hstrip : ∀ l, OpBuilder.strip_empty_entries
                            (l ++ ["-L" +:+ os_path_join h "lib64"; "-lcudart";
                                   "-lcublas"; "-g"] ++
                             [arch; "-fopenmp"; simd; "-D__ENABLE_CUDA__"]) =
                          OpBuilder.strip_empty_entries l ++
                          ["-L" +:+ os_path_join h "lib64"; "-lcudart";
                           "-lcublas"; "-g"; arch; "-fopenmp"; simd;
                           "-D__ENABLE_CUDA__"]).
    { intros l. unfold OpBuilder.strip_empty_entries. rewrite filter_app.
      f_equal.
      destruct Harch as [-> | ->], Hsimd as [-> | [-> | ->]]; reflexivity. }
    cbn [app] in *. rewrite <- app_assoc, Hstrip.
    destruct (String.eqb (sys_platform E) "win32");
      injection Hsuper as <- _;
      destruct (negb (build_for_cpu (self s4)) && enable_bf16 (self s4));
      rewrite <- ?app_assoc, ?app_nil_r; reflexivity.
Qed.

Lemma torch_cpu_builder_define_witness :
  ∃ ext s',
    CUDAOpBuilder.builder bare_box
      (TorchCPUOpBuilder.class bare_box "atorch.ops.cpu_adam"
         ["csrc/cpu_adam.cpp"])
      fresh_process = (Return ext, s') ∧
    ext_kind ext = CppExtension.
Proof.
  assert (Hrun : ∃ ext s',
             CUDAOpBuilder.builder bare_box
               (TorchCPUOpBuilder.class bare_box "atorch.ops.cpu_adam"
                  ["csrc/cpu_adam.cpp"])
               fresh_process = (Return ext, s')).
  { eexists _, _. vm_compute. reflexivity. }
  destruct Hrun as (ext & s' & Hrun).
  destruct (torch_cpu_builder_define _ _ _ _ _ _ Hrun) as (Hkind & _).
  exists ext, s'. split; [exact Hrun|exact Hkind].
Defined.

(** ** Reading the release out of what nvcc prints *)

Lemma digit_value_cases (c : ascii) (d : N) :
  Py.digit_value c = Some d →
  (c = "0" ∨ c = "1" ∨ c = "2" ∨ c = "3" ∨ c = "4" ∨
   c = "5" ∨ c = "6" ∨ c = "7" ∨ c = "8" ∨ c = "9")%char.
Proof.
  unfold Py.digit_value. intros H.
  destruct (_ && _) eqn:Hd; [|done]. clear H.
  apply andb_true_iff in Hd as [H1%Nat.leb_le H2%Nat.leb_le].
  rewrite <- (ascii_nat_embedding c).
  assert (nat_of_ascii c = 48 ∨ nat_of_ascii c = 49 ∨ nat_of_ascii c = 50 ∨
          nat_of_ascii c = 51 ∨ nat_of_ascii c = 52 ∨ nat_of_ascii c = 53 ∨
          nat_of_ascii c = 54 ∨ nat_of_ascii c = 55 ∨ nat_of_ascii c = 56 ∨
          nat_of_ascii c = 57)%nat as Hn by lia.
  destruct_or!; rewrite Hn; tauto.
Qed.

Lemma digit_value_pretty_N_char (x : N) :
  (x < 10)%N → Py.digit_value (pretty_N_char x) = Some x.
Proof.
  intros Hx.
  assert (x = 0 ∨ x = 1 ∨ x = 2 ∨ x = 3 ∨ x = 4 ∨ x = 5 ∨ x = 6 ∨ x = 7 ∨
          x = 8 ∨ x = 9)%N as Hn by lia.
  destruct_or!; subst x; reflexivity.
Qed.

(** The digits [pretty] writes in front of [s] read back as the number. *)
Lemma digits_value_pretty_N_go (x : N) :
  ∃ p : N, ∀ s acc b,
    Py.digits_value acc b (pretty_N_go x s) =
    Py.digits_value (acc * p + x) (b || (0 <? x)%N) s.
Proof.
  induction (N.lt_wf_0 x) as [x _ IH].
  assert (x = 0 ∨ 0 < x)%N as [->|Hx] by lia.
  - exists 1%N. intros s acc b. rewrite pretty_N_go_0.
    rewrite N.mul_1_r, N.add_0_r. cbn. by rewrite orb_false_r.
  - destruct (IH (x `div` 10)%N) as (p & Hp).
    { by apply N.div_lt. }
    exists (10 * p)%N. intros s acc b.
    rewrite pretty_N_go_step by done. rewrite Hp.
    cbn [Py.digits_value].
    rewrite digit_value_pretty_N_char by (apply N.mod_lt; lia).
    assert (Hpos : (0 <? x)%N = true) by (apply N.ltb_lt; lia).
    rewrite Hpos, orb_true_r. f_equal.
    pose proof (N.div_mod x 10). lia.
Qed.

Lemma all_digits_pretty_N_go (x : N) (s : string) :
  all_digits (pretty_N_go x s) = all_digits s.
Proof.
  revert s. induction (N.lt_wf_0 x) as [x _ IH]. intros s.
  assert (x = 0 ∨ 0 < x)%N as [->|Hx] by lia.
  - by rewrite pretty_N_go_0.
  - rewrite pretty_N_go_step by done. rewrite IH by (by apply N.div_lt).
    cbn [all_digits].
    by rewrite digit_value_pretty_N_char by (apply N.mod_lt; lia).
Qed.

Lemma all_digits_pretty_N (x : N) : all_digits (pretty x) = true.
Proof.
  unfold pretty, pretty_N. destruct (decide (x = 0%N)); [done|].
  by rewrite all_digits_pretty_N_go.
Qed.

Lemma all_digits_app (s t : string) :
  all_digits (s +:+ t) = all_digits s && all_digits t.
Proof.
  induction s as [|c s IH]; [done|].
  change (String c s +:+ t) with (String c (s +:+ t)). cbn [all_digits].
  by destruct (Py.digit_value c).
Qed.

Lemma all_digits_rev_app (s t : string) :
  all_digits (String.rev_app s t) = all_digits s && all_digits t.
Proof.
  revert t. induction s as [|c s IH]; intros t; [done|].
  cbn [String.rev_app]. rewrite IH. cbn [all_digits].
  destruct (Py.digit_value c); [done|]. by rewrite andb_false_r.
Qed.

Lemma rev_app_rev_app (s1 s2 s3 : string) :
  String.rev_app (String.rev_app s1 s2) s3 = String.rev_app s2 (s1 +:+ s3).
Proof.
  revert s2. induction s1 as [|c s1 IH]; intros s2; [done|].
  cbn [String.rev_app]. rewrite IH. reflexivity.
Qed.

Lemma string_app_nil_r (s : string) : s +:+ "" = s.
Proof.
  induction s as [|c s IH]; [done|].
  change (String c s +:+ "") with (String c (s +:+ "")). by rewrite IH.
Qed.

Lemma lstrip_digits (s : string) : all_digits s = true → Py.lstrip s = s.
Proof.
  destruct s as [|c s]; [done|]. cbn [all_digits Py.lstrip].
  destruct (Py.digit_value c) as [d|] eqn:Hd; [|done]. intros _.
  apply digit_value_cases in Hd. by destruct_or!; subst c.
Qed.

Lemma strip_digits (s : string) : all_digits s = true → Py.strip s = s.
Proof.
  intros Hs. unfold Py.strip. rewrite (lstrip_digits s Hs).
  rewrite lstrip_digits.
  - unfold String.rev. rewrite rev_app_rev_app. cbn [String.rev_app].
    apply string_app_nil_r.
  - unfold String.rev. by rewrite all_digits_rev_app, Hs.
Qed.

Lemma count_digits_length (s : string) :
  (Py.count_digits s ≤ String.length s)%nat.
Proof.
  induction s as [|c s IH]; [done|]. cbn [Py.count_digits String.length].
  destruct (Py.digit_value c); lia.
Qed.

(** [int] reads back what [pretty] writes for a natural number, as long
    as the interpreter converts that many digits. *)
Lemma int_pretty_N (x : N) :
  (String.length (pretty x) ≤ Py.int_max_str_digits)%nat →
  Py.int (pretty x) = Some (Z.of_N x).
Proof.
  intros Hlen. unfold Py.int.
  rewrite (strip_digits _ (all_digits_pretty_N x)).
  assert (Hsign : match pretty x with
                  | String "-" r => (true, r)
                  | String "+" r => (false, r)
                  | _ => (false, pretty x)
                  end = (false, pretty x)).
  { pose proof (all_digits_pretty_N x) as Hd.
    destruct (pretty x) as [|c r]; [done|]. cbn [all_digits] in Hd.
    destruct (Py.digit_value c) as [d|] eqn:Hc; [|done].
    apply digit_value_cases in Hc. by destruct_or!; subst c. }
  rewrite Hsign. cbn [fst snd].
  pose proof (count_digits_length (pretty x)).
  destruct (Nat.ltb_spec Py.int_max_str_digits (Py.count_digits (pretty x)));
    [lia|].
  unfold pretty, pretty_N. destruct (decide (x = 0%N)) as [->|Hx]; [done|].
  destruct (digits_value_pretty_N_go x) as (p & Hp).
  rewrite Hp. cbn [Py.digits_value orb].
  assert ((0 <? x)%N = true) as -> by (apply N.ltb_lt; lia).
  cbn. reflexivity.
Qed.

Lemma remove_digits (d t : string) :
  all_digits d = true → Py.remove "," (d +:+ t) = d +:+ Py.remove "," t.
Proof.
  induction d as [|c d IH]; [done|]. cbn [all_digits].
  destruct (Py.digit_value c) as [v|] eqn:Hc; [|done]. intros Hd.
  change (String c d +:+ t) with (String c (d +:+ t)). cbn [Py.remove].
  rewrite (IH Hd).
  apply digit_value_cases in Hc. by destruct_or!; subst c.
Qed.

Lemma split_digits (d t : string) :
  all_digits d = true →
  Py.split "." (d +:+ t) =
  match Py.split "." t with
  | [] => [d]
  | w :: ws => (d +:+ w) :: ws
  end.
Proof.
  induction d as [|c d IH].
  - intros _. change ("" +:+ t) with t.
    pose proof (split_nonempty "." t). by destruct (Py.split "." t).
  - cbn [all_digits].
    destruct (Py.digit_value c) as [v|] eqn:Hc; [|done]. intros Hd.
    change (String c d +:+ t) with (String c (d +:+ t)). cbn [Py.split].
    rewrite (IH Hd).
    assert (Ascii.eqb c "." = false) as ->.
    { apply digit_value_cases in Hc. by destruct_or!; subst c. }
    by destruct (Py.split "." t).
Qed.

Lemma startswith_dot (t : string) :
  Py.startswith t "." = true → ∃ r, t = String "." r.
Proof.
  destruct t as [|c r]; [done|]. unfold Py.startswith. cbn [String.prefix].
  destruct (ascii_dec "." c) as [<-|]; [|done]. intros _. by exists r.
Qed.

Lemma index_of_app (x : string) (pre l : list string) :
  x ∉ pre → Py.index_of x (pre ++ x :: l) = Some (length pre).
Proof.
  induction pre as [|y pre IH]; intros Hx.
  - cbn. by rewrite String.eqb_refl.
  - apply not_elem_of_cons in Hx as [Hne Hx]. cbn [app Py.index_of length].
    destruct (String.eqb_spec y x) as [->|_]; [done|].
    by rewrite (IH Hx).
Qed.

(** X17.  [installed_cuda_version] reads the release off the text nvcc
    prints: when the first word "release" of the text is followed by a
    word that is a major number, a dot, a minor number and then nothing,
    commas, or a dot and anything (a patch level), it returns the two
    numbers, and the string [assert_no_cuda_mismatch] compares with the
    version of torch is "major.minor" as nvcc printed it.  Nothing is
    printed or changed. *)
Theorem installed_cuda_version_reads_release (home output : string)
    (pre post : list string) (tail : string) (a b : N) (s : state) :
  Py.words output =
    pre ++ "release" :: (pretty a +:+ "." +:+ pretty b +:+ tail) :: post →
  "release" ∉ pre →
  Py.remove "," tail = "" ∨ Py.startswith (Py.remove "," tail) "." = true →
  (String.length (pretty a) ≤ Py.int_max_str_digits)%nat →
  (String.length (pretty b) ≤ Py.int_max_str_digits)%nat →
  installed_cuda_version_of (Some home) (Return output) s =
    (Return (Z.of_N a, Z.of_N b), s) ∧
  dotted (Z.of_N a) (Z.of_N b) = pretty a +:+ "." +:+ pretty b.
Proof.
  intros Hwords Hpre Htail Ha Hb. split.
  - unfold installed_cuda_version_of, of_result. unfold bind at 1.
    unfold nvcc_release_of. rewrite Hwords, (index_of_app _ _ _ Hpre).
    rewrite lookup_app_r by lia.
    replace (length pre + 1 - length pre)%nat with 1%nat by lia.
    cbn [lookup list_lookup].
    rewrite (remove_digits _ _ (all_digits_pretty_N a)).
    change (Py.remove "," ("." +:+ pretty b +:+ tail))
      with (String "." (Py.remove "," (pretty b +:+ tail))).
    rewrite (remove_digits _ _ (all_digits_pretty_N b)).
    rewrite (split_digits _ _ (all_digits_pretty_N a)).
    cbn [Py.split Ascii.eqb Bool.eqb]. rewrite string_app_nil_r.
    rewrite (split_digits _ _ (all_digits_pretty_N b)).
    assert (Hrest : ∃ ws, match Py.split "." (Py.remove "," tail) with
                          | [] => [pretty b]
                          | w :: ws => (pretty b +:+ w) :: ws
                          end = pretty b :: ws).
    { destruct Htail as [->|Hdot].
      - exists []. cbn. by rewrite string_app_nil_r.
      - apply startswith_dot in Hdot as (r & ->).
        exists (Py.split "." r). cbn [Py.split Ascii.eqb Bool.eqb].
        by rewrite string_app_nil_r. }
    destruct Hrest as (ws & ->). cbn [take].
    unfold int_of. rewrite (int_pretty_N a Ha).
    unfold bind at 1, ret at 1. rewrite (int_pretty_N b Hb). reflexivity.
  - unfold dotted. by destruct a, b.
Qed.

Lemma installed_cuda_version_reads_release_witness :
  installed_cuda_version_of (Some "/usr/local/cuda")
    (Return
       "nvcc: NVIDIA (R) Cuda compiler driver Cuda compilation tools, release 11.2, V11.2.152")
    fresh_process = (Return (11, 2)%Z, fresh_process).
Proof.
  refine (proj1 (installed_cuda_version_reads_release "/usr/local/cuda" _
                   ["nvcc:"; "NVIDIA"; "(R)"; "Cuda"; "compiler"; "driver";
                    "Cuda"; "compilation"; "tools,"]
                   ["V11.2.152"] "," 11 2 fresh_process _ _ _ _ _)).
  - vm_compute. reflexivity.
  - intros Hin.
    repeat (apply elem_of_cons in Hin as [Hin|Hin]; [done|]).
    by apply elem_of_nil in Hin.
  - left. reflexivity.
  - vm_compute. lia.
  - vm_compute. lia.
Defined.

(** ** The descriptor has_function does not give back *)

(** The [finally] block leaves the saved copy of standard error open. *)
Lemma finally_keeps_saved (E : env) (s0 s1 : state) (l : OpBuilder.locals)
    (old : nat) (s2 : state) :
  dirs_tracked s0 s1 l → fds_tracked E s0 s1 l →
  OpBuilder.oldstderr l = Some old →
  OpBuilder.has_function_finally E (l, s1) = (Return tt, (l, s2)) →
  fds s0 !! old = None ∧
  ∃ t, fds s2 !! old = Some t ∧
       (fds s0 !! 2%nat = Some t ∨
        fds s0 !! 2%nat = None ∧ ∃ p, t = OnFile p).
Proof.
  intros Hdirs Hfds Hold Hrun. unfold fds_tracked in Hfds.
  unfold OpBuilder.has_function_finally in Hrun.
  unfold bind at 1, OpBuilder.get_locals at 1 in Hrun. cbn [fst] in Hrun.
  rewrite Hold in *.
  destruct (OpBuilder.filestderr l) as [f|]; [|done].
  destruct Hfds as (Hf & p & t & H2 & Hfree & Hno & Hs1). cbv zeta in *.
  assert (old ≠ 2%nat) as Hold2 by (intros ->; congruence).
  assert (old ≠ f) as Holdf.
  { intros ->. by rewrite lookup_insert_eq in Hfree. }
  assert (fds s1 !! old = Some t) as Hlook.
  { destruct Hs1 as [-> | ->].
    - apply lookup_insert_eq.
    - rewrite lookup_insert_ne by done. apply lookup_insert_eq. }
  destruct (finally_restore E s1 l old t Hno Hlook)
    as (r1 & s3 & Hrun1 & _ & Hdirs1 & _ & Hr1).
  unfold bind at 1 in Hrun. rewrite Hrun1 in Hrun.
  destruct r1 as [[]|e1]; [|done]. specialize (Hr1 eq_refl).
  assert (is_Some (fds s3 !! f)) as [tf Htf].
  { rewrite Hr1. destruct (decide (f = 2%nat)) as [->|Hf2].
    - rewrite lookup_insert_eq. by eexists.
    - rewrite lookup_insert_ne by done.
      destruct Hs1 as [-> | ->].
      + rewrite lookup_insert_ne by done. rewrite lookup_insert_eq.
        by eexists.
      + rewrite !lookup_insert_ne by done. rewrite lookup_insert_eq.
        by eexists. }
  destruct (finally_close E s3 l f tf Htf)
    as (r2 & s4 & Hrun2 & _ & Hdirs2 & _ & Hr2).
  unfold bind at 1 in Hrun. rewrite Hrun2 in Hrun.
  destruct r2 as [[]|e2]; [|done]. specialize (Hr2 eq_refl).
  assert (dirs_tracked s0 s4 l) as Hdirs4.
  { eapply dirs_tracked_same; [|exact Hdirs]. congruence. }
  destruct (finally_rmtree E s0 s4 l Hdirs4)
    as (r3 & s5 & Hrun3 & _ & Hfds5 & _ & _).
  rewrite Hrun3 in Hrun. injection Hrun as -> <-.
  split.
  { by rewrite lookup_insert_ne in Hfree by done. }
  exists t. split.
  - rewrite Hfds5, Hr2, lookup_delete_ne by done.
    rewrite Hr1, lookup_insert_ne by done. exact Hlook.
  - destruct (decide (f = 2%nat)) as [->|Hf2].
    + rewrite lookup_insert_eq in H2. injection H2 as <-.
      right. split; [done|]. by exists p.
    + left. by rewrite lookup_insert_ne in H2 by done.
Qed.

(** X18.  [has_function] leaves a descriptor open each time it gets as far
    as saving standard error: when it returns with [oldstderr] bound, the
    descriptor [os.dup] made, which was free on entry, is open at exit, on
    what standard error was open on (or on the redirect file when standard
    error was closed on entry), and every other descriptor is as on entry;
    the descriptor table has grown by one entry. *)
Theorem has_function_leaks_descriptor (E : env) (funcname : string)
    (libraries : list string) (verbose : bool) (s : state) (b : bool)
    (l : OpBuilder.locals) (s' : state) (old : nat) :
  OpBuilder.has_function_run E funcname libraries verbose s =
    (Return b, (l, s')) →
  OpBuilder.oldstderr l = Some old →
  fds s !! old = None ∧
  ∃ t, fds s' = <[old := t]> (fds s) ∧
       (fds s !! 2%nat = Some t ∨ fds s !! 2%nat = None ∧ ∃ p, t = OnFile p) ∧
       size (fds s') = S (size (fds s)).
Proof.
  intros Hrun Hold.
  destruct (has_function_run_spec E funcname libraries verbose s)
    as (r & l0 & s0 & Hspec & _ & Hrel).
  rewrite Hrun in Hspec. injection Hspec as <- <- <-.
  destruct (Hrel b eq_refl) as (_ & _ & _ & _ & Hothers).
  destruct (has_function_attempt E funcname libraries verbose s)
    as (b1 & l1 & s1 & Hatt & Hdirs & Hfds & _).
  destruct (has_function_finally_run E s s1 l1 Hdirs Hfds)
    as (rf & s2 & Hfin & _).
  unfold OpBuilder.has_function_run, try_finally in Hrun.
  rewrite Hatt, Hfin in Hrun.
  destruct rf as [[]|e]; [|done]. injection Hrun as -> -> ->.
  destruct (finally_keeps_saved E s s1 l old s' Hdirs Hfds Hold Hfin)
    as (Hfree & t & Hopen & Ht).
  split; [exact Hfree|]. exists t.
  assert (Heq : fds s' = <[old := t]> (fds s)).
  { apply map_eq. intros n. destruct (decide (n = old)) as [->|Hn].
    - by rewrite lookup_insert_eq.
    - rewrite lookup_insert_ne by done. apply Hothers. congruence. }
  split; [exact Heq|]. split; [exact Ht|].
  rewrite Heq. by apply map_size_insert_None.
Qed.

Lemma has_function_leaks_descriptor_witness :
  ∃ s' t,
    OpBuilder.has_function linux_box "cblas_sgemm" ["openblas"] false
      fresh_process = (Return true, s') ∧
    fds s' = <[4%nat := t]> (fds fresh_process).
Proof.
  assert (Hrun : ∃ l s',
             OpBuilder.has_function_run linux_box "cblas_sgemm" ["openblas"]
               false fresh_process = (Return true, (l, s')) ∧
             OpBuilder.oldstderr l = Some 4%nat).
  { eexists _, _. split; vm_compute; reflexivity. }
  destruct Hrun as (l & s' & Hrun & Hold).
  destruct (has_function_leaks_descriptor _ _ _ _ _ _ _ _ _ Hrun Hold)
    as (_ & t & Heq & _).
  exists s', t. split; [|exact Heq].
  unfold OpBuilder.has_function. by rewrite Hrun.
Defined.
